(** * Version-aware container ingestion of django-scidatacontainer

    A shallow embedding of [scidatacontainer_db/parsers.py]: the schema
    constraint tables, the constraint resolver ([BaseParser._constraints]),
    the field validator ([BaseParser._parse_validate]), the reconciliation
    of an upload with the stored records ([BaseParser.parse]) and the
    orchestrator ([parse_container_file]).

    Python exceptions are values of an error type and every function that
    can raise or touch the database runs in a small state-and-error monad
    over the store.  Libraries the module imports ([packaging.version],
    [datetime], the Django models of [models.py], [test_utils]) are
    collected in the interface [External]; the code of [parsers.py] is
    written once, over any implementation of that interface. *)

From stdpp Require Import gmap strings list fin_maps.
From Stdlib Require Import ZArith Ascii DecimalString.


(** ** Exceptions *)

(** The exception classes that [parsers.py] raises, catches or lets pass.
    [MetaDBError] carries the payload dictionary
    [{"error_code": ..., "msg": ...}]; every other exception is a class
    with its message, [str(e)]. *)
Inductive exc_class :=
  | ValueError | JSONDecodeError | InvalidVersion
  | TypeError | KeyError | AttributeError
  | IntegrityError | ValidationError
  | DoesNotExist | MultipleObjectsReturned
  | BadZipFile | OSError.

Inductive exn :=
  | MetaDBError (error_code : Z) (msg : string)
  | Exc (cls : exc_class) (msg : string).

(** [except ValueError] also catches the subclasses of [ValueError]. *)
Definition is_ValueError (c : exc_class) : bool :=
  match c with
  | ValueError | JSONDecodeError | InvalidVersion => true
  | _ => false
  end.

Definition error_code_of (e : exn) : option Z :=
  match e with
  | MetaDBError c _ => Some c
  | Exc _ _ => None
  end.

Definition msg_of (e : exn) : string :=
  match e with
  | MetaDBError _ m => m
  | Exc _ m => m
  end.

Inductive Res (A : Type) :=
  | Ok (a : A)
  | Raise (e : exn).
Arguments Ok {A} a.
Arguments Raise {A} e.

Definition is_Ok {A} (r : Res A) : bool :=
  match r with Ok _ => true | Raise _ => false end.

(** ** JSON documents, as [json.load] returns them *)

(** A JSON object is the list of the items of the resulting [dict] (its
    keys are distinct); a float is kept as a fraction, only its being zero
    matters to the code. *)
#[local] Set Warnings "-register-all".
Inductive json :=
  | JNull
  | JBool (b : bool)
  | JInt (n : Z)
  | JFloat (num : Z) (den : positive)
  | JStr (s : string)
  | JList (l : list json)
  | JDict (kv : list (string * json)).

Fixpoint dict_get (k : string) (kv : list (string * json)) : option json :=
  match kv with
  | [] => None
  | (k', v) :: rest => if String.eqb k k' then Some v else dict_get k rest
  end.

Fixpoint json_eqb (a b : json) {struct a} : bool :=
  match a, b with
  | JNull, JNull => true
  | JBool x, JBool y => Bool.eqb x y
  | JInt x, JInt y => (x =? y)%Z
  | JFloat x d, JFloat y e => (x * Z.pos e =? y * Z.pos d)%Z
  | JStr x, JStr y => String.eqb x y
  | JList x, JList y =>
      (fix go (x y : list json) {struct x} : bool :=
         match x, y with
         | [], [] => true
         | u :: x', v :: y' => json_eqb u v && go x' y'
         | _, _ => false
         end) x y
  | JDict x, JDict y =>
      (fix go (x y : list (string * json)) {struct x} : bool :=
         match x, y with
         | [], [] => true
         | (k, u) :: x', (k', v) :: y' =>
             String.eqb k k' && json_eqb u v && go x' y'
         | _, _ => false
         end) x y
  | _, _ => false
  end.

(** Truth value of an object: [None], [False], zero, the empty string and
    the empty containers are false. *)
Definition truthy (v : json) : bool :=
  match v with
  | JNull => false
  | JBool b => b
  | JInt n => negb (n =? 0)%Z
  | JFloat n _ => negb (n =? 0)%Z
  | JStr s => negb (String.eqb s "")
  | JList l => match l with [] => false | _ => true end
  | JDict kv => match kv with [] => false | _ => true end
  end.

(** [v != []] *)
Definition ne_empty_list (v : json) : bool :=
  match v with
  | JList [] => false
  | _ => true
  end.

Fixpoint substringb (p s : string) : bool :=
  String.prefix p s
  || match s with
     | EmptyString => false
     | String _ r => substringb p r
     end.

(** [key in container] *)
Definition py_in (key : string) (container : json) : Res bool :=
  match container with
  | JDict kv => Ok (bool_decide (is_Some (dict_get key kv)))
  | JList l => Ok (existsb (json_eqb (JStr key)) l)
  | JStr s => Ok (substringb key s)
  | _ => Raise (Exc TypeError "argument is not iterable")
  end.

(** [container[key]] for a string [key] *)
Definition py_getitem (container : json) (key : string) : Res json :=
  match container with
  | JDict kv =>
      match dict_get key kv with
      | Some v => Ok v
      | None => Raise (Exc KeyError key)
      end
  | JList _ | JStr _ => Raise (Exc TypeError "indices must be integers")
  | _ => Raise (Exc TypeError "object is not subscriptable")
  end.

(** The items a [for] loop or a comprehension draws from an object. *)
Definition py_iter (v : json) : Res (list json) :=
  match v with
  | JList l => Ok l
  | JDict kv => Ok (map (fun p => JStr (fst p)) kv)
  | JStr s => Ok (map (fun c => JStr (String c EmptyString)) (String.list_ascii_of_string s))
  | _ => Raise (Exc TypeError "object is not iterable")
  end.

(** [max(keys)] on strings and [min(versions)] on any ordered values:
    both raise [ValueError] on an empty sequence and keep the first
    extremal item. *)
Definition py_max_str (l : list string) : Res string :=
  match l with
  | [] => Raise (Exc ValueError "max() arg is an empty sequence")
  | x :: rest =>
      Ok (fold_left (fun m y => if String.ltb m y then y else m) rest x)
  end.

Definition py_min {A} (lt : A → A → bool) (l : list A) : Res A :=
  match l with
  | [] => Raise (Exc ValueError "min() arg is an empty sequence")
  | x :: rest => Ok (fold_left (fun m y => if lt y m then y else m) rest x)
  end.

(** ** Stored entities *)

Definition User := string.

Record datetime := {
  year : N; month : N; day : N;
  hour : N; minute : N; second : N;
  utcoffset : option Z
}.

(** [dt.replace(tzinfo=datetime.timezone.utc)] *)
Definition replace_tzinfo_utc (dt : datetime) : datetime :=
  {| year := year dt; month := month dt; day := day dt;
     hour := hour dt; minute := minute dt; second := second dt;
     utcoffset := Some 0%Z |}.

(** An embedded file, [File(name, size, content)]. *)
Module File.
Record t := {
  name : string;
  size : Z;
  content : option json
}.
Definition matches (a b : t) : bool :=
  String.eqb (name a) (name b) && (size a =? size b)%Z
  && match content a, content b with
     | Some x, Some y => json_eqb x y
     | None, None => true
     | _, _ => false
     end.
End File.

(** A validated, coerced attribute value.  Model instances are named by
    their primary key ([VDataSet], [VDataSetBase]) or by the description
    they were created from. *)
Inductive value :=
  | VStr (s : string)
  | VBool (b : bool)
  | VInt (n : Z)
  | VDatetime (dt : datetime)
  | VDataSet (pk : string)
  | VDataSetBase (pk : string)
  | VContainerType (description : json)
  | VSoftware (l : list json)
  | VKeywords (l : list json)
  | VFiles (l : list File.t).

(** A full record.  Its attributes other than the key, the owner and the
    storage path are kept as the dictionary of validated values. *)
Record DataSet := {
  id : string;
  owner : option User;
  server_path : option string;
  attrs : gmap string value
}.

(** Modelled from the spec: the tables of the catalog, whose models are
    declared in [models.py], not among the sources.  A container record
    is a placeholder or a full record under one identifier:
    [DataSetBase_table] holds one row per known identifier, placeholders
    and full records alike ([DataSet] extends [DataSetBase]);
    [DataSet_table] holds the rows of the full records. *)
Record DB := {
  DataSetBase_table : list string;
  DataSet_table : list DataSet;
  File_table : list File.t;
  Keyword_table : list json;
  ContainerType_table : list json;
  Software_table : list json
}.

(** The store an ingestion works on: the database and the media
    directory, a list of written files with their chunks. *)
Record World := {
  db : DB;
  fs : list (string * list string)
}.

(** An uploaded file, described by what the libraries that open it
    return: the MIME type [magic.from_buffer] sniffs from its first 2048
    bytes, its size, the members [zipfile.ZipFile] lists (none when it is
    not an archive) and the chunks it is copied by. *)
Module ZipInfo.
Record t := {
  filename : string;
  file_size : Z;
  (** what [json.load] returns on the member, [None] when it raises *)
  loaded : option json
}.
End ZipInfo.

Module UploadedFile.
Record t := {
  sniffed : string;
  size : Z;
  zip : option (list ZipInfo.t);
  chunks : list string
}.
End UploadedFile.

(** ** The state-and-error monad *)

Definition M (A : Type) : Type := World → Res A * World.

Definition ret {A} (a : A) : M A := fun w => (Ok a, w).
Definition raise {A} (e : exn) : M A := fun w => (Raise e, w).
Definition bind {A B} (m : M A) (k : A → M B) : M B :=
  fun w =>
    match m w with
    | (Ok a, w') => k a w'
    | (Raise e, w') => (Raise e, w')
    end.
Definition lift {A} (r : Res A) : M A := fun w => (r, w).
Definition get_db : M DB := fun w => (Ok (db w), w).
Definition put_db (d : DB) : M () := fun w => (Ok (), {| db := d; fs := fs w |}).

Notation "'let*' x ':=' m 'in' k" := (bind m (fun x => k))
  (at level 10, x name, m at level 100, k at level 200).
Notation "m ';;' k" := (bind m (fun _ => k))
  (at level 100, k at level 200, right associativity).

(** [try: m except C: handler] *)
Definition try_except {A} (m : M A) (catches : exn → bool) (handler : exn → M A) : M A :=
  fun w =>
    match m w with
    | (Raise e, w') => if catches e then handler e w' else (Raise e, w')
    | r => r
    end.

Fixpoint mapM {A B} (f : A → M B) (l : list A) : M (list B) :=
  match l with
  | [] => ret []
  | x :: rest =>
      let* y := f x in
      let* ys := mapM f rest in
      ret (y :: ys)
  end.

(** ** What the module imports *)

(** The libraries and the sibling modules [parsers.py] calls.  Their code
    is not part of the module; the ingestion pipeline is defined over any
    implementation of this interface. *)
Class External := {
  (** [packaging.version]: [version.parse] ([None] when it raises
      [InvalidVersion]), [v < w] and [str(v)] *)
  Version : Type;
  version_parse : string → option Version;
  version_lt : Version → Version → bool;
  version_str : Version → string;
  (** [str(x)] of an object that is not a string *)
  py_repr : json → string;
  (** [datetime.datetime.fromisoformat] and [strptime], [None] when they
      raise [ValueError] *)
  fromisoformat : string → option datetime;
  strptime : string → string → option datetime;
  (** the UUID a value given for a UUID field stands for, in canonical
      form; [None] when the field rejects it with [ValidationError] *)
  to_uuid : json → option string;
  (** [models.py]: the descriptions [ContainerType.to_ContainerType] and
      [Software.to_Software] reject, and the uploads
      [DataSet.update_attributes] refuses *)
  to_ContainerType_error : json → option exn;
  to_Software_error : json → option exn;
  update_error : DataSet → gmap string value → User → option exn;
  (** [test_utils.parse_test_data] *)
  parse_test_data : string → M (option DataSet);
  (** [settings.MEDIA_ROOT], [os.path.abspath], and the paths that
      [open(path, 'wb+')] refuses *)
  MEDIA_ROOT : string;
  abspath : string → string;
  open_error : string → option exn
}.

(** ** The repository interface

    The managers of the models behave as Django's do on a table whose
    rows are found by primary key: [filter] selects the matching rows,
    [get] wants exactly one, [get_or_create] returns the matching row or
    appends a new one, [delete] removes the row and the rows that extend
    it, [save] updates the row with the object's key or inserts it. *)

Definition set_DataSetBase_table (l : list string) (d : DB) : DB :=
  {| DataSetBase_table := l; DataSet_table := DataSet_table d;
     File_table := File_table d; Keyword_table := Keyword_table d;
     ContainerType_table := ContainerType_table d;
     Software_table := Software_table d |}.

Definition set_DataSet_table (l : list DataSet) (d : DB) : DB :=
  {| DataSetBase_table := DataSetBase_table d; DataSet_table := l;
     File_table := File_table d; Keyword_table := Keyword_table d;
     ContainerType_table := ContainerType_table d;
     Software_table := Software_table d |}.

Definition set_File_table (l : list File.t) (d : DB) : DB :=
  {| DataSetBase_table := DataSetBase_table d; DataSet_table := DataSet_table d;
     File_table := l; Keyword_table := Keyword_table d;
     ContainerType_table := ContainerType_table d;
     Software_table := Software_table d |}.

Definition set_Keyword_table (l : list json) (d : DB) : DB :=
  {| DataSetBase_table := DataSetBase_table d; DataSet_table := DataSet_table d;
     File_table := File_table d; Keyword_table := l;
     ContainerType_table := ContainerType_table d;
     Software_table := Software_table d |}.

Definition set_ContainerType_table (l : list json) (d : DB) : DB :=
  {| DataSetBase_table := DataSetBase_table d; DataSet_table := DataSet_table d;
     File_table := File_table d; Keyword_table := Keyword_table d;
     ContainerType_table := l;
     Software_table := Software_table d |}.

Definition set_Software_table (l : list json) (d : DB) : DB :=
  {| DataSetBase_table := DataSetBase_table d; DataSet_table := DataSet_table d;
     File_table := File_table d; Keyword_table := Keyword_table d;
     ContainerType_table := ContainerType_table d;
     Software_table := l |}.

(** [Model.objects.get_or_create(...)[0]] on a table, with the table it
    leaves. *)
Definition get_or_create {A} (same : A → A → bool) (x : A) (table : list A)
  : Res (A * list A) :=
  match List.filter (same x) table with
  | [] => Ok (x, table ++ [x])
  | [r] => Ok (r, table)
  | _ => Raise (Exc MultipleObjectsReturned "get() returned more than one row")
  end.

Definition get_one {A} (rows : list A) : Res A :=
  match rows with
  | [] => Raise (Exc DoesNotExist "matching query does not exist")
  | [r] => Ok r
  | _ => Raise (Exc MultipleObjectsReturned "get() returned more than one row")
  end.

Definition has_id (i : string) (r : DataSet) : bool := String.eqb i (id r).

Section repository.
Context `{External}.

Definition check_uuid (i : json) : M string :=
  match to_uuid i with
  | Some k => ret k
  | None => raise (Exc ValidationError "value is not a valid UUID.")
  end.

(** [DataSetBase.objects.filter(id=i)] *)
Definition DataSetBase_objects_filter (i : json) : M (list string) :=
  let* k := check_uuid i in
  let* d := get_db in
  ret (List.filter (String.eqb k) (DataSetBase_table d)).

(** [DataSet.objects.filter(id=i)] *)
Definition DataSet_objects_filter (i : json) : M (list DataSet) :=
  let* k := check_uuid i in
  let* d := get_db in
  ret (List.filter (has_id k) (DataSet_table d)).

(** [DataSetBase.objects.get(id=i)] *)
Definition DataSetBase_objects_get (i : json) : M string :=
  let* rows := DataSetBase_objects_filter i in
  lift (get_one rows).

(** [DataSet.objects.get(id=i)] *)
Definition DataSet_objects_get (i : json) : M DataSet :=
  let* rows := DataSet_objects_filter i in
  lift (get_one rows).

(** [DataSetBase.objects.get_or_create(id=i)[0]] *)
Definition DataSetBase_objects_get_or_create (i : json) : M string :=
  let* k := check_uuid i in
  let* d := get_db in
  let* r := lift (get_or_create String.eqb k (DataSetBase_table d)) in
  put_db (set_DataSetBase_table (snd r) d) ;;
  ret (fst r).

(** [obj.delete()] on the [DataSetBase] row [k] *)
Definition DataSetBase_delete (k : string) : M () :=
  let* d := get_db in
  put_db (set_DataSet_table
            (List.filter (fun r => negb (has_id k r)) (DataSet_table d))
            (set_DataSetBase_table
               (List.filter (fun j => negb (String.eqb k j)) (DataSetBase_table d))
               d)).

(** The row [obj.save()] writes: the object under its canonical key. *)
Definition row_of (k : string) (obj : DataSet) : DataSet :=
  {| id := k; owner := owner obj; server_path := server_path obj;
     attrs := attrs obj |}.

(** [obj.save()] on a [DataSet] *)
Definition DataSet_save (obj : DataSet) : M () :=
  let* k := check_uuid (JStr (id obj)) in
  let* d := get_db in
  let base :=
    if existsb (String.eqb k) (DataSetBase_table d)
    then DataSetBase_table d
    else DataSetBase_table d ++ [k] in
  let full :=
    if existsb (has_id k) (DataSet_table d)
    then map (fun r => if has_id k r then row_of k obj else r) (DataSet_table d)
    else DataSet_table d ++ [row_of k obj] in
  put_db (set_DataSet_table full (set_DataSetBase_table base d)).

(** [File.objects.get_or_create(...)[0]] followed by [file_obj.save()] *)
Definition File_objects_get_or_create (f : File.t) : M File.t :=
  let* d := get_db in
  let* r := lift (get_or_create File.matches f (File_table d)) in
  put_db (set_File_table (snd r) d) ;;
  ret (fst r).

(** [Keyword.objects.get_or_create(name=entry)[0]] *)
Definition Keyword_objects_get_or_create (entry : json) : M json :=
  let* d := get_db in
  let* r := lift (get_or_create json_eqb entry (Keyword_table d)) in
  put_db (set_Keyword_table (snd r) d) ;;
  ret (fst r).

(** Modelled from the spec: [ContainerType.to_ContainerType] maps a raw
    dictionary into a ContainerType entity, reused if an identical one
    already exists. *)
Definition to_ContainerType (container_type : json) : M json :=
  match to_ContainerType_error container_type with
  | Some e => raise e
  | None =>
      let* d := get_db in
      let* r := lift (get_or_create json_eqb container_type (ContainerType_table d)) in
      put_db (set_ContainerType_table (snd r) d) ;;
      ret (fst r)
  end.

(** Modelled from the spec: [Software.to_Software] maps a raw
    software description to a UsedSoftware entity. *)
Definition to_Software (entry : json) : M json :=
  match to_Software_error entry with
  | Some e => raise e
  | None =>
      let* d := get_db in
      let* r := lift (get_or_create json_eqb entry (Software_table d)) in
      put_db (set_Software_table (snd r) d) ;;
      ret (fst r)
  end.

(** Modelled from the spec: [DataSet.update_attributes] merges the
    validated values field by field into the record, saves it and
    returns it; the owner is set on creation only.  The uploads it
    refuses are those of [update_error]. *)
Definition update_attributes (obj : DataSet) (d : gmap string value) (user : User)
  : M DataSet :=
  match update_error obj d user with
  | Some e => raise e
  | None =>
      let obj' := {| id := id obj; owner := owner obj;
                     server_path := server_path obj;
                     attrs := d ∪ attrs obj |} in
      DataSet_save obj' ;;
      ret obj'
  end.
End repository.

(** ** Coercers *)

Section coercers.
Context `{External}.

(** [str] *)
Definition str (x : json) : M value :=
  ret (VStr (match x with JStr s => s | _ => py_repr x end)).

(** [bool] *)
Definition py_bool (x : json) : M value := ret (VBool (truthy x)).

Definition _datetime_parser (datetime_str : json) : M value :=
  match datetime_str with
  | JStr s =>
      match fromisoformat s with
      | Some dt => ret (VDatetime dt)
      | None =>
          match strptime s "%Y-%m-%dT%H:%M:%S+%z" with
          | Some dt => ret (VDatetime (replace_tzinfo_utc dt))
          | None =>
              match strptime s "%Y-%m-%d %H:%M:%S %Z" with
              | Some dt => ret (VDatetime (replace_tzinfo_utc dt))
              | None =>
                  raise (Exc ValueError
                           ("time data '" +:+ s +:+ "' does not match format "
                            +:+ "'%Y-%m-%d %H:%M:%S %Z'"))
              end
          end
      end
  | _ => raise (Exc TypeError "fromisoformat: argument must be str")
  end.

Definition _used_software_parser (used_software_list : json) : M value :=
  let* entries := lift (py_iter used_software_list) in
  let* l := mapM to_Software entries in
  ret (VSoftware l).

Definition is_DoesNotExist (e : exn) : bool :=
  match e with Exc DoesNotExist _ => true | _ => false end.

Definition _replaces_parser (replaces : json) : M value :=
  try_except
    (let* r := DataSet_objects_get replaces in ret (VDataSet (id r)))
    is_DoesNotExist
    (fun _ => let* b := DataSetBase_objects_get_or_create replaces in
              ret (VDataSetBase b)).

Definition _containerType_parser (container_type : json) : M value :=
  let* ct := to_ContainerType container_type in
  ret (VContainerType ct).

Definition _keyword_parser (keywords : json) : M value :=
  let* entries := lift (py_iter keywords) in
  let* l := mapM Keyword_objects_get_or_create entries in
  ret (VKeywords l).
End coercers.

(** ** The schema constraint table *)

(** A field of a section: its coercer and whether it is required. *)
Record field_spec := {
  t : json → M value;
  required : bool
}.

(** A section dictionary, in the order of its items. *)
Definition section_dict := list (string * field_spec).

Fixpoint dict_lookup {A} (k : string) (d : list (string * A)) : option A :=
  match d with
  | [] => None
  | (k', v) :: rest => if String.eqb k k' then Some v else dict_lookup k rest
  end.

(** [d[k] = v]: an existing key keeps its place, a new key goes last. *)
Fixpoint dict_set {A} (k : string) (v : A) (d : list (string * A)) : list (string * A) :=
  match d with
  | [] => [(k, v)]
  | (k', v') :: rest =>
      if String.eqb k k' then (k', v) :: rest else (k', v') :: dict_set k v rest
  end.

(** [d.update(other)] *)
Definition dict_update {A} (d other : list (string * A)) : list (string * A) :=
  fold_left (fun acc kv => dict_set (fst kv) (snd kv) acc) other d.

(** The section dictionaries are objects: a constraint set holds, for
    each section name, the address of its dictionary in the heap of the
    module, so that two constraint sets can share one dictionary. *)
Definition address := nat.
Definition constraint_set := list (string * address).
Definition heap := list section_dict.

Definition alloc (h : heap) (d : section_dict) : address * heap :=
  (length h, h ++ [d]).

Definition deref (h : heap) (a : address) : section_dict :=
  default [] (h !! a).

(** [dict.copy()]: a new dictionary with the same values, here the same
    addresses. *)
Definition dict_copy (c : constraint_set) : constraint_set := c.

(** [c[section].update(other)] *)
Definition update_section (h : heap) (c : constraint_set) (section : string)
  (other : section_dict) : heap :=
  match dict_lookup section c with
  | Some a => <[a := dict_update (deref h a) other]> h
  | None => h
  end.

(** [re.sub(r'(?<!^)(?=[A-Z])', '_', key).lower()] *)
Definition is_upper (c : Ascii.ascii) : bool :=
  let n := Ascii.nat_of_ascii c in (65 <=? n)%nat && (n <=? 90)%nat.

Definition lower (c : Ascii.ascii) : Ascii.ascii :=
  if is_upper c then Ascii.ascii_of_nat (Ascii.nat_of_ascii c + 32) else c.

Fixpoint snake_tail (s : string) : string :=
  match s with
  | EmptyString => EmptyString
  | String c r =>
      if is_upper c then String (Ascii.ascii_of_nat 95) (String (lower c) (snake_tail r))
      else String c (snake_tail r)
  end.

Definition snake_case (key : string) : string :=
  match key with
  | EmptyString => EmptyString
  | String c r => String (lower c) (snake_tail r)
  end.

Definition nl : string := String (Ascii.ascii_of_nat 10) EmptyString.

Definition ends_with (suffix s : string) : bool :=
  String.prefix (String.rev suffix) (String.rev s).

(** The names the module binds while it builds the table, and the heap
    they point into. *)
Record module_state := {
  the_heap : heap;
  _constraints_0_3 : constraint_set;
  _constraints_0_5_1 : constraint_set;
  _constraints : list (string * constraint_set)
}.

Section tables.
Context `{External}.

Definition content_0_3 : section_dict :=
  [ ("uuid", {| t := str; required := true |});
    ("replaces", {| t := _replaces_parser; required := false |});
    ("containerType", {| t := _containerType_parser; required := true |});
    ("created", {| t := _datetime_parser; required := true |});
    ("modified", {| t := _datetime_parser; required := true |});
    ("static", {| t := py_bool; required := true |});
    ("complete", {| t := py_bool; required := true |});
    ("hash", {| t := str; required := false |});
    ("usedSoftware", {| t := _used_software_parser; required := false |});
    ("modelVersion", {| t := str; required := true |}) ].

Definition meta_0_3 : section_dict :=
  [ ("author", {| t := str; required := true |});
    ("email", {| t := str; required := true |});
    ("comment", {| t := str; required := false |});
    ("title", {| t := str; required := true |});
    ("keywords", {| t := _keyword_parser; required := false |});
    ("description", {| t := str; required := false |}) ].

Definition meta_0_5_1_update : section_dict :=
  [ ("timestamp", {| t := str; required := false |});
    ("doi", {| t := str; required := false |});
    ("license", {| t := str; required := false |}) ].

(** The statements of the module that build the table, in order: the
    literal of [_constraints_0_3] allocates its two section
    dictionaries; [_constraints_0_5_1] is its [copy()]; the [update]
    goes to the dictionary found under ["meta"] in the copy. *)
Definition module_init : module_state :=
  let '(a_content, h1) := alloc [] content_0_3 in
  let '(a_meta, h2) := alloc h1 meta_0_3 in
  let c_0_3 := [("content", a_content); ("meta", a_meta)] in
  let c_0_5_1 := dict_copy c_0_3 in
  let h3 := update_section h2 c_0_5_1 "meta" meta_0_5_1_update in
  {| the_heap := h3;
     _constraints_0_3 := c_0_3;
     _constraints_0_5_1 := c_0_5_1;
     _constraints := [("0.3", c_0_3); ("0.5.1", c_0_5_1)] |}.

(** [_constraints[version][section]] *)
Definition section_of (version section : string) : option section_dict :=
  match dict_lookup version (_constraints module_init) with
  | None => None
  | Some c =>
      match dict_lookup section c with
      | None => None
      | Some a => Some (deref (the_heap module_init) a)
      end
  end.

(** [version.parse(s)] where it can raise *)
Definition parse_version (s : string) : Res Version :=
  match version_parse s with
  | Some v => Ok v
  | None => Raise (Exc InvalidVersion ("Invalid version: '" +:+ s +:+ "'"))
  end.

Fixpoint map_res {A B} (f : A → Res B) (l : list A) : Res (list B) :=
  match l with
  | [] => Ok []
  | x :: rest =>
      match f x with
      | Raise e => Raise e
      | Ok y =>
          match map_res f rest with
          | Raise e => Raise e
          | Ok ys => Ok (y :: ys)
          end
      end
  end.

(** [min([version.parse(k) for k in _constraints.keys()])] *)
Definition MIN_SUPPORTED_VERSION : Res Version :=
  match map_res parse_version (map fst (_constraints module_init)) with
  | Raise e => Raise e
  | Ok vs => py_min version_lt vs
  end.
End tables.

(** ** Parser objects *)

Inductive parser_class := ZipContainer | Hdf5Container.

(** The attributes of a parser; an attribute not yet assigned is [None]
    and reading it raises [AttributeError]. *)
Record parser := {
  cls : parser_class;
  filename : option UploadedFile.t;
  content : option json;
  meta : option json;
  files : option (list File.t);
  model_version : json
}.

Definition set_filename (f : UploadedFile.t) (self : parser) : parser :=
  {| cls := cls self; filename := Some f; content := content self;
     meta := meta self; files := files self;
     model_version := model_version self |}.

Definition set_content (c : json) (self : parser) : parser :=
  {| cls := cls self; filename := filename self; content := Some c;
     meta := meta self; files := files self;
     model_version := model_version self |}.

Definition set_meta (m : json) (self : parser) : parser :=
  {| cls := cls self; filename := filename self; content := content self;
     meta := Some m; files := files self;
     model_version := model_version self |}.

Definition set_files (l : list File.t) (self : parser) : parser :=
  {| cls := cls self; filename := filename self; content := content self;
     meta := meta self; files := Some l;
     model_version := model_version self |}.

Definition set_model_version (v : json) (self : parser) : parser :=
  {| cls := cls self; filename := filename self; content := content self;
     meta := meta self; files := files self;
     model_version := v |}.

Definition getattr {A} (o : option A) (attribute : string) : M A :=
  match o with
  | Some a => ret a
  | None => raise (Exc AttributeError ("object has no attribute '" +:+ attribute +:+ "'"))
  end.

(** [zipfile.ZipFile(self.filename, 'r')] *)
Definition ZipFile (f : UploadedFile.t) : M (list ZipInfo.t) :=
  match UploadedFile.zip f with
  | Some members => ret members
  | None => raise (Exc BadZipFile "File is not a zip file")
  end.

(** [zfile.getinfo(name)]: the last member of that name *)
Definition getinfo (members : list ZipInfo.t) (member : string) : M ZipInfo.t :=
  match List.find (fun m => String.eqb member (ZipInfo.filename m)) (rev members) with
  | Some m => ret m
  | None =>
      raise (Exc KeyError ("There is no item named '" +:+ member +:+ "' in the archive"))
  end.

(** [json.load(zfile.open(name))] *)
Definition json_load (members : list ZipInfo.t) (member : string) : M json :=
  let* m := getinfo members member in
  match ZipInfo.loaded m with
  | Some j => ret j
  | None => raise (Exc JSONDecodeError "Expecting value")
  end.

Module ZipContainerParser.
Section methods.
Context `{External}.

Definition _read_content_json (self : parser) : M parser :=
  let* f := getattr (filename self) "filename" in
  let* zfile := ZipFile f in
  let* j := json_load zfile "content.json" in
  ret (set_content j self).

Definition _read_meta_json (self : parser) : M parser :=
  let* f := getattr (filename self) "filename" in
  let* zfile := ZipFile f in
  let* j := json_load zfile "meta.json" in
  ret (set_meta j self).

(** The body of the loop over [zfile.namelist()]. *)
Definition read_member (zfile : list ZipInfo.t) (_filename : string) : M File.t :=
  let* info := getinfo zfile _filename in
  let size := ZipInfo.file_size info in
  if ends_with ".json" _filename then
    let* data := json_load zfile _filename in
    File_objects_get_or_create
      {| File.name := _filename; File.size := size; File.content := Some data |}
  else
    File_objects_get_or_create
      {| File.name := _filename; File.size := size; File.content := None |}.

Definition _read_filelist (self : parser) : M parser :=
  let* f := getattr (filename self) "filename" in
  let* zfile := ZipFile f in
  let* l := mapM (read_member zfile) (map ZipInfo.filename zfile) in
  ret (set_files l self).
End methods.
End ZipContainerParser.

Module Hdf5ContainerParser.
Definition _read_content_json (self : parser) : M parser :=
  raise (MetaDBError 501 ("The server does not support to parse hdf5" +:+ " files yet.")).

Definition _read_meta_json (self : parser) : M parser :=
  raise (MetaDBError 501 ("The server does not support to parse hdf5" +:+ " files yet.")).
End Hdf5ContainerParser.

(** ** BaseParser *)

Definition class_name (c : parser_class) : string :=
  match c with
  | ZipContainer => "ZipContainerParser"
  | Hdf5Container => "Hdf5ContainerParser"
  end.

(** The methods [BaseParser] declares with [@abstractmethod], and the
    methods each subclass defines. *)
Definition BaseParser_abstract : list string :=
  ["_read_content_json"; "_read_meta_json"; "_read_filelist"].

Definition defines (c : parser_class) : list string :=
  match c with
  | ZipContainer => ["_read_content_json"; "_read_meta_json"; "_read_filelist"]
  | Hdf5Container => ["_read_content_json"; "_read_meta_json"]
  end.

(** [cls.__abstractmethods__]: the abstract methods left without an
    implementation. *)
Definition abstractmethods (c : parser_class) : list string :=
  List.filter (fun m => negb (existsb (String.eqb m) (defines c))) BaseParser_abstract.

Definition join (sep : string) (l : list string) : string :=
  match l with
  | [] => ""
  | x :: rest => fold_left (fun acc y => acc +:+ sep +:+ y) rest x
  end.

(** [cls()]: a class derived from [ABC] is instantiated only when no
    abstract method is left; [__init__] then sets [model_version]. *)
Definition new (c : parser_class) : M parser :=
  match abstractmethods c with
  | [] =>
      ret {| cls := c; filename := None; content := None; meta := None;
             files := None; model_version := JNull |}
  | ms =>
      raise (Exc TypeError
               ("Can't instantiate abstract class " +:+ class_name c
                +:+ " with abstract method" +:+ (if (1 <? length ms)%nat then "s " else " ")
                +:+ join ", " ms))
  end.

Fixpoint filter_res {A} (f : A → Res bool) (l : list A) : Res (list A) :=
  match l with
  | [] => Ok []
  | x :: rest =>
      match f x with
      | Raise e => Raise e
      | Ok b =>
          match filter_res f rest with
          | Raise e => Raise e
          | Ok ys => Ok (if b then x :: ys else ys)
          end
      end
  end.

Module BaseParser.
Section methods.
Context `{External}.

(** The calls [self._read_content_json()], [self._read_meta_json()] and
    [self._read_filelist()] go to the method of the object's class; a
    class without its own [_read_filelist] has the body [pass] of
    [BaseParser]. *)
Definition _read_content_json (self : parser) : M parser :=
  match cls self with
  | ZipContainer => ZipContainerParser._read_content_json self
  | Hdf5Container => Hdf5ContainerParser._read_content_json self
  end.

Definition _read_meta_json (self : parser) : M parser :=
  match cls self with
  | ZipContainer => ZipContainerParser._read_meta_json self
  | Hdf5Container => Hdf5ContainerParser._read_meta_json self
  end.

Definition _read_filelist (self : parser) : M parser :=
  match cls self with
  | ZipContainer => ZipContainerParser._read_filelist self
  | Hdf5Container => ret self
  end.

Definition _read_model_version (self : parser) : M parser :=
  let* c := getattr (content self) "content" in
  let* present := lift (py_in "modelVersion" c) in
  let* self := (if negb present then _read_content_json self else ret self) in
  let* c := getattr (content self) "content" in
  let* v := lift (py_getitem c "modelVersion") in
  ret (set_model_version v self).

Definition too_old_msg (model_version : string) (minimum : Version) : string :=
  "You tried to upload a dataset " +:+
  "complying scidatacontainer model " +:+
  "version " +:+ model_version +:+
  " but the server requires a minimum " +:+
  "model version of " +:+
  version_str minimum.


(** The property [_constraints]. *)
Definition _constraints (self : parser) : M (constraint_set * parser) :=
  let* self := (if negb (truthy (model_version self))
                then _read_model_version self else ret self) in
  match model_version self with
  | JStr mv =>
      let* v := lift (parse_version mv) in
      let* minimum := lift MIN_SUPPORTED_VERSION in
      if version_lt v minimum then
        raise (MetaDBError 400 (too_old_msg mv minimum))
      else
        let* keys :=
          lift (filter_res
                  (fun k => match parse_version k with
                            | Ok kv => Ok (version_lt kv v)
                            | Raise e => Raise e
                            end)
                  (map fst (_constraints module_init))) in
        let* key := lift (py_max_str keys) in
        match dict_lookup key (_constraints module_init) with
        | Some c => ret (c, self)
        | None => raise (Exc KeyError ("'" +:+ key +:+ "'"))
        end
  | _ => raise (Exc TypeError "expected string or bytes-like object")
  end.

Definition missing_msg (key filename : string) : string :=
  "Attribute '" +:+ key +:+
  "' required in " +:+ filename +:+
  ".json.".

Definition convert_msg (raw : string) : string :=
  "Failed to convert '" +:+
  raw +:+ "' using " +:+
  "the default parser. Make " +:+
  "sure it has the right type.".

Definition catches_ValueError (e : exn) : bool :=
  match e with
  | Exc c _ => is_ValueError c
  | MetaDBError _ _ => false
  end.

(** The handler of [except ValueError]: the message is built by
    concatenating [in_dict[key]], which must be a string. *)
Definition convert_failed (raw : json) : M value :=
  match raw with
  | JStr s => raise (MetaDBError 400 (convert_msg s))
  | _ => raise (Exc TypeError "can only concatenate str to str")
  end.

(** One turn of the loop [for key, (t, required) in c.items()]. *)
Definition validate_field (filename : string) (in_dict : json)
  (d : gmap string value) (item : string * field_spec) : M (gmap string value) :=
  let key := fst item in
  (if required (snd item) then
     let* present := lift (py_in key in_dict) in
     if negb present then raise (MetaDBError 400 (missing_msg key filename))
     else ret ()
   else ret ()) ;;
  let* present := lift (py_in key in_dict) in
  if present then
    let* raw := lift (py_getitem in_dict key) in
    if truthy raw && ne_empty_list raw then
      let name := snake_case key in
      let* x := try_except (t (snd item) raw) catches_ValueError
                  (fun _ => convert_failed raw) in
      ret (<[name := x]> d)
    else ret d
  else ret d.

Fixpoint validate_fields (filename : string) (in_dict : json)
  (d : gmap string value) (c : section_dict) : M (gmap string value) :=
  match c with
  | [] => ret d
  | item :: rest =>
      let* d' := validate_field filename in_dict d item in
      validate_fields filename in_dict d' rest
  end.

Definition _parse_validate (self : parser) (filename : string) (in_dict : json)
  : M (gmap string value * parser) :=
  let* cs := _constraints self in
  let self := snd cs in
  match dict_lookup filename (fst cs) with
  | None => raise (Exc KeyError ("'" +:+ filename +:+ "'"))
  | Some a =>
      let c := deref (the_heap module_init) a in
      let* d := validate_fields filename in_dict ∅ c in
      ret (d, self)
  end.

Definition test_prefix : string := "00000000-0000-0000-0000-00000000".

(** The lines of [parse] up to [uuid = d["uuid"]]: extraction and
    validation. *)
Definition extract_and_validate (self : parser) (filename : UploadedFile.t)
  : M (gmap string value) :=
  let self := set_filename filename self in
  let* self := _read_content_json self in
  let* self := _read_meta_json self in
  let* self := _read_filelist self in
  let* fl := getattr (files self) "files" in
  let d : gmap string value :=
    <["content" := VFiles fl]> (<["size" := VInt (UploadedFile.size filename)]> ∅) in
  let* c := getattr (content self) "content" in
  let* r := _parse_validate self "content" c in
  let d := fst r ∪ d in
  let self := snd r in
  let* m := getattr (meta self) "meta" in
  let* r := _parse_validate self "meta" m in
  let d := fst r ∪ d in
  ret d.

(** [DataSet(id=uuid)] with [owner = user] and [complete = False] *)
Definition new_DataSet (uuid : string) (user : User) : DataSet :=
  {| id := uuid; owner := Some user; server_path := None;
     attrs := {[ "complete" := VBool false ]} |}.

(** The lines of [parse] from [del d["uuid"]] on: the record for the
    identifier is found, a placeholder is deleted, and the attributes
    are applied. *)
Definition reconcile (uuid : string) (d : gmap string value) (user : User)
  : M DataSet :=
  let d := delete "uuid" d in
  let* known := DataSetBase_objects_filter (JStr uuid) in
  let* updated :=
    match known with
    | [] => ret None
    | _ =>
        let* full := DataSet_objects_filter (JStr uuid) in
        match full with
        | [] =>
            let* obj := DataSetBase_objects_get (JStr uuid) in
            DataSetBase_delete obj ;;
            ret None
        | _ =>
            let* obj := DataSet_objects_get (JStr uuid) in
            let* r := update_attributes obj d user in
            ret (Some r)
        end
    end in
  match updated with
  | Some r => ret r
  | None => update_attributes (new_DataSet uuid user) d user
  end.

Definition parse (self : parser) (filename : UploadedFile.t) (user : User)
  : M (option DataSet) :=
  let* d := extract_and_validate self filename in
  match d !! "uuid" with
  | None => raise (Exc KeyError "'uuid'")
  | Some (VStr uuid) =>
      if String.prefix test_prefix uuid then
        parse_test_data uuid
      else
        let* obj := reconcile uuid d user in
        ret (Some obj)
  | Some _ => raise (Exc AttributeError "object has no attribute 'startswith'")
  end.
End methods.
End BaseParser.

(** ** The orchestrator *)

(** [with transaction.atomic():] commits the changes of its block to the
    database when the block ends or returns, and rolls them back when an
    exception leaves it. *)
Definition atomic {A} (block : M A) : M A :=
  fun w =>
    match block w with
    | (Ok a, w') => (Ok a, w')
    | (Raise e, w') => (Raise e, {| db := db w; fs := fs w' |})
    end.

Section orchestrator.
Context `{External}.

(** [open(server_path, 'wb+')] and the copy of the chunks *)
Definition write_chunks (path : string) (chunks : list string) : M () :=
  match open_error path with
  | Some e => raise e
  | None =>
      fun w =>
        (Ok (),
         {| db := db w;
            fs := (path, chunks)
                  :: List.filter (fun f => negb (String.eqb path (fst f))) (fs w) |})
  end.

(** The lines after the branch on the file type. *)
Definition store (filename : UploadedFile.t) (obj : DataSet) (server_path : string)
  : M (option DataSet) :=
  let server_path := abspath server_path in
  write_chunks server_path (UploadedFile.chunks filename) ;;
  let obj := {| id := id obj; owner := owner obj;
                server_path := Some server_path; attrs := attrs obj |} in
  DataSet_save obj ;;
  ret (Some obj).

Definition transaction_block (filename : UploadedFile.t) (owner : User)
  : M (option DataSet) :=
  let filetype := UploadedFile.sniffed filename in
  if String.eqb filetype "application/zip" then
    let* parser := new ZipContainer in
    let* obj := BaseParser.parse parser filename owner in
    match obj with
    | None => ret None
    | Some obj => store filename obj (MEDIA_ROOT +:+ "/" +:+ id obj +:+ ".zdc")
    end
  else if String.eqb filetype "application/x-hdf" then
    let* parser := new Hdf5Container in
    let* obj := BaseParser.parse parser filename owner in
    match obj with
    | None => raise (Exc AttributeError "'NoneType' object has no attribute 'id'")
    | Some obj => store filename obj (MEDIA_ROOT +:+ "/" +:+ id obj +:+ ".hdf5")
    end
  else
    raise (MetaDBError 415 "File format has to be hdf5 or zip!").

(** The [except] clauses, in order. *)
Definition translate (e : exn) : exn :=
  match e with
  | MetaDBError c m => MetaDBError c m
  | Exc IntegrityError m => MetaDBError 400 ("IntegrityError: " +:+ m)
  | Exc ValidationError m => MetaDBError 400 ("ValidationError: " +:+ m)
  | Exc _ m =>
      MetaDBError 500 ("Unknown error! Please report to your " +:+
                       "administrator providing these information:" +:+
                       nl +:+ nl +:+ m)
  end.

Definition parse_container_file (filename : UploadedFile.t) (owner : User)
  : M (option DataSet) :=
  try_except (atomic (transaction_block filename owner))
    (fun _ => true)
    (fun e => raise (translate e)).
End orchestrator.

(** ** A small implementation of the imported libraries

    Enough of the interface to run the pipeline on concrete uploads.  It
    accepts a subset of what the libraries accept: versions that are a
    release segment [N(.N)*], timestamps in the fixed-width layout
    [YYYY-MM-DDTHH:MM:SS], identifiers in the hyphenated 36-character
    form.  It refuses no update, writes every file, and its test-fixture
    resolver produces no record. *)
Module Example.
Fixpoint split_on (sep : Ascii.ascii) (s : string) (cur : string) : list string :=
  match s with
  | EmptyString => [String.rev cur]
  | String c r =>
      if Ascii.eqb c sep then String.rev cur :: split_on sep r EmptyString
      else split_on sep r (String c cur)
  end.

Definition is_digit (c : Ascii.ascii) : bool :=
  let n := Ascii.nat_of_ascii c in (48 <=? n)%nat && (n <=? 57)%nat.

Fixpoint all_chars (p : Ascii.ascii → bool) (s : string) : bool :=
  match s with
  | EmptyString => true
  | String c r => p c && all_chars p r
  end.

Definition number (s : string) : option N :=
  if String.eqb s "" then None
  else if all_chars is_digit s then
    match NilEmpty.uint_of_string s with
    | Some u => Some (N.of_uint u)
    | None => None
    end
  else None.

Fixpoint numbers (l : list string) : option (list N) :=
  match l with
  | [] => Some []
  | s :: rest =>
      match number s, numbers rest with
      | Some n, Some ns => Some (n :: ns)
      | _, _ => None
      end
  end.

(** The release segment of a version. *)
Definition version_parse (s : string) : option (list N) :=
  numbers (split_on "."%char s EmptyString).

(** Versions compare as their release tuples without trailing zeros. *)
Fixpoint strip_zeros (l : list N) : list N :=
  match l with
  | [] => []
  | n :: rest =>
      match strip_zeros rest with
      | [] => if (n =? 0)%N then [] else [n]
      | rest' => n :: rest'
      end
  end.

Fixpoint tuple_lt (a b : list N) : bool :=
  match a, b with
  | [], [] => false
  | [], _ :: _ => true
  | _ :: _, [] => false
  | x :: a', y :: b' => (x <? y)%N || ((x =? y)%N && tuple_lt a' b')
  end.

Definition version_lt (a b : list N) : bool :=
  tuple_lt (strip_zeros a) (strip_zeros b).

Definition version_str (v : list N) : string :=
  join "." (map (fun n => NilZero.string_of_uint (N.to_uint n)) v).

Definition py_repr (x : json) : string :=
  match x with
  | JNull => "None"
  | JBool true => "True"
  | JBool false => "False"
  | JInt n => NilZero.string_of_int (Z.to_int n)
  | _ => "<object>"
  end.

(** [layout] describes a fixed-width text: [d] stands for a digit,
    any other character for itself. *)
Fixpoint has_layout (layout s : string) : bool :=
  match layout, s with
  | EmptyString, EmptyString => true
  | String l layout', String c s' =>
      (if Ascii.eqb l "d"%char then is_digit c else Ascii.eqb l c)
      && has_layout layout' s'
  | _, _ => false
  end.

Definition field (s : string) (start len : nat) : N :=
  default 0%N (number (String.substring start len s)).

Definition read_fields (s : string) (offset : option Z) : datetime :=
  {| year := field s 0 4; month := field s 5 2; day := field s 8 2;
     hour := field s 11 2; minute := field s 14 2; second := field s 17 2;
     utcoffset := offset |}.

Definition fromisoformat (s : string) : option datetime :=
  if has_layout "dddd-dd-ddTdd:dd:dd" s then Some (read_fields s None)
  else if has_layout "dddd-dd-ddTdd:dd:dd+00:00" s then Some (read_fields s (Some 0%Z))
  else None.

Definition strptime (s format : string) : option datetime :=
  if String.eqb format "%Y-%m-%d %H:%M:%S %Z" then
    if has_layout "dddd-dd-dd dd:dd:dd UTC" s then Some (read_fields s None) else None
  else None.

Definition is_hex (c : Ascii.ascii) : bool :=
  let n := Ascii.nat_of_ascii c in
  is_digit c || ((97 <=? n)%nat && (n <=? 102)%nat).

Fixpoint has_uuid_layout (layout s : string) : bool :=
  match layout, s with
  | EmptyString, EmptyString => true
  | String l layout', String c s' =>
      (if Ascii.eqb l "x"%char then is_hex c else Ascii.eqb l c)
      && has_uuid_layout layout' s'
  | _, _ => false
  end.

Definition to_uuid (x : json) : option string :=
  match x with
  | JStr s =>
      if has_uuid_layout "xxxxxxxx-xxxx-xxxx-xxxx-xxxxxxxxxxxx" s then Some s else None
  | _ => None
  end.

(** Modelled from the spec: [test_utils.parse_test_data] is not among
    the sources; the test-fixture resolver persists nothing and returns
    the signal "no record produced". *)
Definition parse_test_data (uuid : string) : M (option DataSet) := ret None.

Definition wants_dict (x : json) : option exn :=
  match x with
  | JDict _ => None
  | _ => Some (Exc TypeError "argument must be a mapping")
  end.

Definition env : External :=
  Build_External
    (list N) version_parse version_lt version_str
    py_repr
    fromisoformat strptime
    to_uuid
    wants_dict wants_dict (fun _ _ _ => None)
    parse_test_data
    "/media" (fun path => path) (fun _ => None).
End Example.

(** ** Vocabulary of the properties *)

(** The version a parser declares: the one it has cached, or the one its
    [content] holds when none is cached yet. *)
Definition declares (self : parser) (mv : string) : Prop :=
  (model_version self = JStr mv ∧ mv ≠ "")
  ∨ (truthy (model_version self) = false
     ∧ ∃ kv, content self = Some (JDict kv)
             ∧ dict_get "modelVersion" kv = Some (JStr mv)).

(** A parser object that has cached the declared version [mv]. *)
Definition declaring (mv : string) : parser :=
  {| cls := ZipContainer; filename := None; content := None; meta := None;
     files := None; model_version := JStr mv |}.

Definition empty_db : DB :=
  {| DataSetBase_table := []; DataSet_table := []; File_table := [];
     Keyword_table := []; ContainerType_table := []; Software_table := [] |}.

Definition initial_world : World := {| db := empty_db; fs := [] |}.

(** ** Sample uploads *)

Definition sample_uuid : string := "12345678-1234-1234-1234-123456789abc".

(** A [content.json] with every required field, declaring the model
    version [mv] and the identifier [uuid]. *)
Definition sample_content (mv uuid : string) : list (string * json) :=
  [ ("uuid", JStr uuid);
    ("containerType", JDict [("name", JStr "myImage")]);
    ("created", JStr "2024-01-01T00:00:00");
    ("modified", JStr "2024-01-01T00:00:00");
    ("static", JBool true);
    ("complete", JBool true);
    ("modelVersion", JStr mv) ].

(** A [meta.json] with the required fields only: no [keywords], no
    [timestamp]. *)
Definition sample_meta : list (string * json) :=
  [ ("author", JStr "A. Author");
    ("email", JStr "author@example.org");
    ("title", JStr "A title") ].

Definition dict_remove (k : string) (kv : list (string * json)) : list (string * json) :=
  List.filter (fun item => negb (String.eqb k (fst item))) kv.

(** An archive with the two descriptors and one data file. *)
Definition sample_archive (c m : json) : list ZipInfo.t :=
  [ {| ZipInfo.filename := "content.json"; ZipInfo.file_size := 310;
       ZipInfo.loaded := Some c |};
    {| ZipInfo.filename := "meta.json"; ZipInfo.file_size := 90;
       ZipInfo.loaded := Some m |};
    {| ZipInfo.filename := "data.bin"; ZipInfo.file_size := 2048;
       ZipInfo.loaded := None |} ].

Definition sample_upload (mime : string) (c m : list (string * json)) : UploadedFile.t :=
  {| UploadedFile.sniffed := mime;
     UploadedFile.size := 2800;
     UploadedFile.zip := Some (sample_archive (JDict c) (JDict m));
     UploadedFile.chunks := ["PK..."] |}.

(** ** Records per identifier *)

(** [len(DataSetBase.objects.filter(id=k))]: the rows the catalog holds
    for an identifier, placeholder or full. *)
Definition record_count (k : string) (d : DB) : nat :=
  length (List.filter (String.eqb k) (DataSetBase_table d)).

(** [len(DataSet.objects.filter(id=k))]: the full records among them. *)
Definition full_count (k : string) (d : DB) : nat :=
  length (List.filter (has_id k) (DataSet_table d)).

(** The rows of an identifier that are placeholders only. *)
Definition placeholder_count (k : string) (d : DB) : nat :=
  record_count k d - full_count k d.

(** The identity invariant of the catalog: an identifier has at most one
    row, and a full record extends the row of its identifier. *)
Definition one_record_per_id (d : DB) : Prop :=
  ∀ k, (record_count k d ≤ 1)%nat ∧ (full_count k d ≤ record_count k d)%nat.

(** A computation keeps a property of the store, however it ends. *)
Definition stable (P : World → Prop) {A} (m : M A) : Prop :=
  ∀ w r w', P w → m w = (r, w') → P w'.

(** The freshly instantiated archive parser. *)
Definition zip_parser : parser :=
  {| cls := ZipContainer; filename := None; content := None; meta := None;
     files := None; model_version := JNull |}.

(** The message of the [except Exception] clause for the exception
    message [m]. *)
Definition unknown_error_msg (m : string) : string :=
  "Unknown error! Please report to your administrator providing these information:"
  +:+ nl +:+ nl +:+ m.

(** A test upload: the identifier has the reserved prefix, and the
    container replaces an identifier the catalog has not seen. *)
Definition test_uuid : string := "00000000-0000-0000-0000-000000000001".
Definition replaced_uuid : string := "aaaaaaaa-bbbb-cccc-dddd-eeeeeeeeeeee".

Definition test_upload : UploadedFile.t :=
  sample_upload "application/zip"
    (sample_content "0.5.1" test_uuid ++ [("replaces", JStr replaced_uuid)])
    sample_meta.

(** The canonical form of an identifier stands for itself. *)
Definition canonical_uuids `{External} : Prop :=
  ∀ x k, to_uuid x = Some k → to_uuid (JStr k) = Some k.

(** A catalog that knows [sample_uuid] as a placeholder only. *)
Definition placeholder_world : World :=
  {| db := set_DataSetBase_table [sample_uuid] empty_db; fs := [] |}.

(** No character of the string is an upper-case letter. *)
Fixpoint no_upper (s : string) : bool :=
  match s with
  | EmptyString => true
  | String c r => negb (is_upper c) && no_upper r
  end.

(** * Properties *)

(** ** Running the monad *)

Lemma run_bind {A B} (m : M A) (k : A → M B) (w w' : World) (a : A) :
  m w = (Ok a, w') → bind m k w = k a w'.
Proof. intros E. unfold bind. by rewrite E. Qed.

Lemma run_bind_raise {A B} (m : M A) (k : A → M B) (w w' : World) (e : exn) :
  m w = (Raise e, w') → bind m k w = (Raise e, w').
Proof. intros E. unfold bind. by rewrite E. Qed.

Lemma run_bind_ret {A B} (a : A) (k : A → M B) (w : World) :
  bind (ret a) k w = k a w.
Proof. reflexivity. Qed.

Lemma run_bind_lift {A B} (r : Res A) (k : A → M B) (w : World) :
  bind (lift r) k w = match r with Ok a => k a w | Raise e => (Raise e, w) end.
Proof. unfold bind, lift. by destruct r. Qed.

Lemma bind_inv {A B} (m : M A) (k : A → M B) (w w' : World) (b : B) :
  bind m k w = (Ok b, w') →
  ∃ a w1, m w = (Ok a, w1) ∧ k a w1 = (Ok b, w').
Proof.
  unfold bind. destruct (m w) as [[a|e] w1]; intros E; [eauto | discriminate].
Qed.

(** ** The constraint resolver *)

Section resolver.
Context `{External}.

Lemma read_declared (self : parser) (mv : string) (w : World) :
  declares self mv →
  ∃ self',
    (if negb (truthy (model_version self))
     then BaseParser._read_model_version self else ret self) w = (Ok self', w)
    ∧ model_version self' = JStr mv
    ∧ content self' = content self ∧ meta self' = meta self.
Proof.
  intros [[E Hne] | [E (kv & Hc & Hg)]].
  - exists self. rewrite E. simpl.
    destruct (String.eqb_spec mv ""); [done | simpl; done].
  - exists (set_model_version (JStr mv) self). rewrite E. simpl.
    unfold BaseParser._read_model_version. rewrite Hc. simpl.
    unfold bind, lift, ret. simpl. rewrite Hg.
    rewrite bool_decide_eq_true_2 by eauto. simpl.
    rewrite Hc. simpl. rewrite Hg. done.
Qed.

(** C4: for every declared model version that parses strictly below
    the minimum supported version, the constraint resolver raises
    MetaDBError with code 400 and the message that carries the declared
    version and the minimum required one; it raises nothing else and
    leaves the store as it was. *)
Theorem constraints_version_too_old
  (self : parser) (mv : string) (v minimum : Version) (w : World) :
  declares self mv →
  version_parse mv = Some v →
  MIN_SUPPORTED_VERSION = Ok minimum →
  version_lt v minimum = true →
  BaseParser._constraints self w =
    (Raise (MetaDBError 400
              ("You tried to upload a dataset complying scidatacontainer model version "
               +:+ mv +:+ " but the server requires a minimum model version of "
               +:+ version_str minimum)), w).
Proof.
  intros Hd Hv Hmin Hlt.
  destruct (read_declared self mv w Hd) as (self' & Hread & Hmv & _).
  unfold BaseParser._constraints.
  rewrite (run_bind _ _ _ _ _ Hread), Hmv.
  rewrite run_bind_lift. unfold parse_version. rewrite Hv.
  rewrite run_bind_lift, Hmin, Hlt.
  reflexivity.
Qed.

(** The keys of the table that lie strictly below a version. *)
Lemma constraints_above_minimum
  (self : parser) (mv : string) (v minimum : Version) (w : World) :
  declares self mv →
  version_parse mv = Some v →
  MIN_SUPPORTED_VERSION = Ok minimum →
  version_lt v minimum = false →
  ∃ self',
    BaseParser._constraints self w =
      (let* keys :=
         lift (filter_res
                 (fun k => match parse_version k with
                           | Ok kv => Ok (version_lt kv v)
                           | Raise e => Raise e
                           end)
                 ["0.3"; "0.5.1"]) in
       let* key := lift (py_max_str keys) in
       match dict_lookup key (_constraints module_init) with
       | Some c => ret (c, self')
       | None => raise (Exc KeyError ("'" +:+ key +:+ "'"))
       end) w
    ∧ model_version self' = JStr mv
    ∧ content self' = content self ∧ meta self' = meta self.
Proof.
  intros Hd Hv Hmin Hlt.
  destruct (read_declared self mv w Hd) as (self' & Hread & Hmv & Hc & Hm).
  exists self'. split; [| done].
  unfold BaseParser._constraints.
  rewrite (run_bind _ _ _ _ _ Hread), Hmv.
  rewrite run_bind_lift. unfold parse_version at 1. rewrite Hv.
  rewrite run_bind_lift, Hmin, Hlt.
  reflexivity.
Qed.

(** C1, on the code: a parser that declares the minimum supported
    version "0.3" passes the minimum check, but no key of the table
    lies strictly below it, so [max] is applied to an empty list and
    the resolver raises ValueError instead of returning the set of
    0.3; this in every version library in which 0.3 is not below
    itself and 0.5.1 is not below 0.3. *)
Theorem constraints_minimum_version_raises
  (self : parser) (v3 v5 : Version) (w : World) :
  declares self "0.3" →
  version_parse "0.3" = Some v3 →
  version_parse "0.5.1" = Some v5 →
  version_lt v3 v3 = false →
  version_lt v5 v3 = false →
  BaseParser._constraints self w
  = (Raise (Exc ValueError "max() arg is an empty sequence"), w).
Proof.
  intros Hd H3 H5 Hirr Hlt.
  assert (Hmin : MIN_SUPPORTED_VERSION = Ok v3).
  { unfold MIN_SUPPORTED_VERSION. simpl. unfold parse_version.
    rewrite H3, H5. simpl. by rewrite Hlt. }
  destruct (constraints_above_minimum self "0.3" v3 v3 w Hd H3 Hmin Hirr)
    as (self' & -> & _).
  simpl. unfold parse_version. rewrite H3, H5, Hirr, Hlt. reflexivity.
Qed.

(** The two constraint sets name the same dictionary under ["meta"]:
    the copy is shallow. *)
Lemma meta_dictionary_shared :
  dict_lookup "meta" (_constraints_0_3 module_init)
  = dict_lookup "meta" (_constraints_0_5_1 module_init).
Proof. reflexivity. Qed.

(** C7, on the code: the meta section of the set registered for
    version 0.3 holds [timestamp], [doi] and [license] as well, since
    the update of the 0.5.1 set writes into the dictionary both sets
    share. *)
Theorem meta_0_3_holds_later_fields :
  map fst <$> section_of "0.3" "meta"
  = Some ["author"; "email"; "comment"; "title"; "keywords"; "description";
          "timestamp"; "doi"; "license"].
Proof. reflexivity. Qed.

(** The later set holds every field of the earlier one, section by
    section. *)
Lemma later_set_is_superset (section : string) (c3 c5 : section_dict) :
  section_of "0.3" section = Some c3 →
  section_of "0.5.1" section = Some c5 →
  ∀ key, key ∈ map fst c3 → key ∈ map fst c5.
Proof.
  unfold section_of. simpl.
  intros E3 E5. rewrite E3 in E5. by inversion E5.
Qed.
End resolver.

(** A parser that has cached a declared version. *)
Lemma constraints_version_too_old_witness :
  @BaseParser._constraints Example.env (declaring "0.2") initial_world
  = (Raise (MetaDBError 400
       "You tried to upload a dataset complying scidatacontainer model version 0.2 but the server requires a minimum model version of 0.3"),
     initial_world).
Proof.
  apply (@constraints_version_too_old Example.env (declaring "0.2") "0.2" [0%N; 2%N] [0%N; 3%N]).
  - left. split; [reflexivity | discriminate].
  - reflexivity.
  - reflexivity.
  - reflexivity.
Defined.

Lemma constraints_minimum_version_raises_witness :
  @BaseParser._constraints Example.env (declaring "0.3") initial_world
  = (Raise (Exc ValueError "max() arg is an empty sequence"), initial_world).
Proof.
  apply (@constraints_minimum_version_raises Example.env (declaring "0.3")
           [0%N; 3%N] [0%N; 5%N; 1%N]).
  - left. split; [reflexivity | discriminate].
  - reflexivity.
  - reflexivity.
  - reflexivity.
  - reflexivity.
Defined.

(** With the sample version library: a declared "0.5.1" is given the
    set registered under "0.3", the only key strictly below it, and a
    declared version above the newest key is given the set of "0.5.1". *)
Lemma constraints_of_0_5_1 (w : World) :
  @BaseParser._constraints Example.env (declaring "0.5.1") w
  = (Ok (_constraints_0_3 (@module_init Example.env), declaring "0.5.1"), w).
Proof. reflexivity. Qed.

Lemma constraints_above_newest (w : World) :
  @BaseParser._constraints Example.env (declaring "0.6") w
  = (Ok (_constraints_0_5_1 (@module_init Example.env), declaring "0.6"), w).
Proof. reflexivity. Qed.

(** A container that declares "0.3" and omits the optional keywords is
    not ingested: the ValueError of the resolver is reported with code
    500 and the catalog stays as it was. *)
Lemma minimum_version_upload_fails :
  @parse_container_file Example.env
    (sample_upload "application/zip" (sample_content "0.3" sample_uuid) sample_meta)
    "alice" initial_world
  = (Raise (MetaDBError 500 (unknown_error_msg "max() arg is an empty sequence")),
     initial_world).
Proof. vm_compute. reflexivity. Qed.

(** A container that declares a version resolved to the set registered
    under "0.3" has its [timestamp] validated all the same. *)
Lemma timestamp_validated_below_0_5_1 :
  ∃ d w',
    @BaseParser._parse_validate Example.env (declaring "0.4") "meta"
      (JDict (sample_meta ++ [("timestamp", JStr "2024-01-01T00:00:00+00:00")]))
      initial_world
    = (Ok (d, declaring "0.4"), w')
    ∧ d !! "timestamp" = Some (VStr "2024-01-01T00:00:00+00:00").
Proof.
  pose (run := @BaseParser._parse_validate Example.env (declaring "0.4") "meta"
      (JDict (sample_meta ++ [("timestamp", JStr "2024-01-01T00:00:00+00:00")]))
      initial_world).
  exists (match fst run with Ok r => fst r | Raise _ => ∅ end), (snd run).
  split; vm_compute; reflexivity.
Qed.

(** ** The field validator *)

Lemma py_in_dict (key : string) (kv : list (string * json)) :
  py_in key (JDict kv) = Ok (match dict_get key kv with Some _ => true | None => false end).
Proof.
  simpl. destruct (dict_get key kv) eqn:E.
  - by rewrite bool_decide_eq_true_2.
  - rewrite bool_decide_eq_false_2; [done | by intros [? ?]].
Qed.

Section validator.
Context `{External}.

Lemma validate_fields_app (filename : string) (in_dict : json)
  (pre rest : section_dict) (d : gmap string value) (w : World) :
  BaseParser.validate_fields filename in_dict d (pre ++ rest) w
  = (let* d' := BaseParser.validate_fields filename in_dict d pre in
     BaseParser.validate_fields filename in_dict d' rest) w.
Proof.
  revert d w. induction pre as [| item pre IH]; intros d w; [done |].
  simpl. unfold bind.
  destruct (BaseParser.validate_field filename in_dict d item w) as [[d' | e] w'];
    [| done].
  rewrite IH. reflexivity.
Qed.


(** A key whose value is false in a truth test leaves the loop state
    as it is, whatever its coercer and whether or not it is required. *)
Lemma validate_field_falsy (filename key : string) (spec : field_spec)
  (kv : list (string * json)) (raw : json) (d : gmap string value) (w : World) :
  dict_get key kv = Some raw →
  truthy raw = false →
  BaseParser.validate_field filename (JDict kv) d (key, spec) w = (Ok d, w).
Proof.
  intros Hget Hfalsy. unfold BaseParser.validate_field. simpl fst. simpl snd.
  rewrite py_in_dict, Hget.
  destruct (required spec); simpl; unfold bind, lift, ret; simpl;
    rewrite Hget, Hfalsy; reflexivity.
Qed.

(** A coercer that raises a [ValueError] on a string is reported with
    the message built from that string. *)
Lemma validate_field_conversion (filename key : string) (spec : field_spec)
  (kv : list (string * json)) (raw : string) (c : exc_class) (m : string)
  (d : gmap string value) (w w' : World) :
  dict_get key kv = Some (JStr raw) →
  raw ≠ "" →
  t spec (JStr raw) w = (Raise (Exc c m), w') →
  is_ValueError c = true →
  BaseParser.validate_field filename (JDict kv) d (key, spec) w
  = (Raise (MetaDBError 400 (BaseParser.convert_msg raw)), w').
Proof.
  intros Hget Hne Ht Hc. unfold BaseParser.validate_field. simpl fst. simpl snd.
  rewrite py_in_dict, Hget.
  assert (Htruthy : truthy (JStr raw) && ne_empty_list (JStr raw) = true).
  { simpl. destruct (String.eqb_spec raw ""); [done | reflexivity]. }
  destruct (required spec); simpl negb; cbv iota;
    unfold bind, lift, ret, try_except, raise; simpl py_getitem; rewrite Hget;
    rewrite Htruthy; simpl; rewrite Ht; simpl; rewrite Hc; reflexivity.
Qed.

(** The keys of the validated dictionary are the converted names of
    fields of the table, or were there before. *)
Lemma validate_field_keeps_none (filename : string) (in_dict : json)
  (item : string * field_spec) (d d' : gmap string value) (w w' : World) (n : string) :
  BaseParser.validate_field filename in_dict d item w = (Ok d', w') →
  d !! n = None →
  n ≠ snake_case (fst item) →
  d' !! n = None.
Proof.
  unfold BaseParser.validate_field. intros E Hd Hn.
  apply bind_inv in E as (_ & w1 & _ & E).
  apply bind_inv in E as (present & w2 & _ & E).
  destruct present; [| by inversion E; subst].
  apply bind_inv in E as (raw & w3 & _ & E).
  destruct (truthy raw && ne_empty_list raw); [| by inversion E; subst].
  apply bind_inv in E as (x & w4 & _ & E).
  inversion E; subst. by rewrite lookup_insert_ne.
Qed.

Lemma validate_fields_keeps_none (filename : string) (in_dict : json)
  (c : section_dict) (d d' : gmap string value) (w w' : World) (n : string) :
  BaseParser.validate_fields filename in_dict d c w = (Ok d', w') →
  d !! n = None →
  n ∉ map (fun item => snake_case (fst item)) c →
  d' !! n = None.
Proof.
  revert d w. induction c as [| item c IH]; intros d w E Hd Hn.
  - by inversion E; subst.
  - simpl in E. apply bind_inv in E as (d1 & w1 & E1 & E).
    apply (IH d1 w1 E).
    + eapply validate_field_keeps_none; [exact E1 | exact Hd |].
      intros ->. apply Hn. simpl. left.
    + intros Hin. apply Hn. simpl. by right.
Qed.

(** Once the constraint set is resolved, [_parse_validate] is the loop
    over the section dictionary found in the heap. *)
Lemma parse_validate_resolved (self self' : parser) (filename : string)
  (in_dict : json) (cs : constraint_set) (a : address) (w w0 : World) :
  BaseParser._constraints self w = (Ok (cs, self'), w0) →
  dict_lookup filename cs = Some a →
  BaseParser._parse_validate self filename in_dict w
  = (let* d := BaseParser.validate_fields filename in_dict ∅
                 (deref (the_heap module_init) a) in
     ret (d, self')) w0.
Proof.
  intros Hres Hsec. unfold BaseParser._parse_validate.
  rewrite (run_bind _ _ _ _ _ Hres). simpl. by rewrite Hsec.
Qed.


(** C6, amended: when the coercer of a field raises a ValueError on a
    non-empty string value, and the fields that precede it in the
    section validate, validation fails with code 400 and the message
    that includes the rejected raw value.  (The message does not name
    the field.) *)
Theorem coercer_value_error
  (self self' : parser) (filename : string) (kv : list (string * json))
  (cs : constraint_set) (a : address) (w w0 w1 w2 : World)
  (pre post : section_dict) (key : string) (spec : field_spec)
  (d1 : gmap string value) (raw : string) (c : exc_class) (m : string) :
  BaseParser._constraints self w = (Ok (cs, self'), w0) →
  dict_lookup filename cs = Some a →
  deref (the_heap module_init) a = pre ++ (key, spec) :: post →
  BaseParser.validate_fields filename (JDict kv) ∅ pre w0 = (Ok d1, w1) →
  dict_get key kv = Some (JStr raw) →
  raw ≠ "" →
  t spec (JStr raw) w1 = (Raise (Exc c m), w2) →
  is_ValueError c = true →
  BaseParser._parse_validate self filename (JDict kv) w
  = (Raise (MetaDBError 400
              ("Failed to convert '" +:+ raw
               +:+ "' using the default parser. Make sure it has the right type.")),
     w2).
Proof.
  intros Hres Hsec Htable Hpre Hget Hne Ht Hc.
  rewrite (parse_validate_resolved _ _ _ _ _ _ _ _ Hres Hsec), Htable.
  unfold bind at 1. rewrite validate_fields_app.
  rewrite (run_bind _ _ _ _ _ Hpre).
  simpl BaseParser.validate_fields.
  rewrite (run_bind_raise _ _ _ _ _
             (validate_field_conversion filename key spec kv raw c m d1 w1 w2
                Hget Hne Ht Hc)).
  reflexivity.
Qed.

(** C10: when a field of the resolved section, required or not, is
    present with a value that is false in a truth test (false, 0, the
    empty string, null, an empty list), its turn of the loop raises
    nothing and leaves the validated dictionary and the store as they
    are, so that validation gives what it gives on the section without
    that field, whatever the coercer: it succeeds when the other fields
    validate, and the validated output then has no entry for the
    field. *)
Theorem falsy_field_dropped
  (self self' : parser) (filename : string) (kv : list (string * json))
  (cs : constraint_set) (a : address) (w w0 : World)
  (pre post : section_dict) (key : string) (spec : field_spec) (raw : json) :
  BaseParser._constraints self w = (Ok (cs, self'), w0) →
  dict_lookup filename cs = Some a →
  deref (the_heap module_init) a = pre ++ (key, spec) :: post →
  dict_get key kv = Some raw →
  truthy raw = false →
  (∀ d w1, BaseParser.validate_field filename (JDict kv) d (key, spec) w1 = (Ok d, w1))
  ∧ BaseParser._parse_validate self filename (JDict kv) w
    = (let* d := BaseParser.validate_fields filename (JDict kv) ∅ (pre ++ post) in
       ret (d, self')) w0
  ∧ (∀ d w', BaseParser.validate_fields filename (JDict kv) ∅ (pre ++ post) w0 = (Ok d, w') →
             BaseParser._parse_validate self filename (JDict kv) w = (Ok (d, self'), w')
             ∧ (snake_case key ∉ map (fun item => snake_case (fst item)) (pre ++ post) →
                d !! snake_case key = None)).
Proof.
  intros Hres Hsec Htable Hget Hfalsy.
  assert (Hturn : ∀ d w1,
    BaseParser.validate_field filename (JDict kv) d (key, spec) w1 = (Ok d, w1))
    by (intros; by eapply validate_field_falsy).
  assert (Hsame : BaseParser._parse_validate self filename (JDict kv) w
    = (let* d := BaseParser.validate_fields filename (JDict kv) ∅ (pre ++ post) in
       ret (d, self')) w0).
  { rewrite (parse_validate_resolved _ _ _ _ _ _ _ _ Hres Hsec), Htable.
    unfold bind. rewrite !validate_fields_app. unfold bind.
    destruct (BaseParser.validate_fields filename (JDict kv) ∅ pre w0)
      as [[d1 | e] w1]; [| done].
    simpl BaseParser.validate_fields at 1. unfold bind.
    by rewrite Hturn. }
  split; [exact Hturn |]. split; [exact Hsame |].
  intros d w' Hrest. split.
  - rewrite Hsame. by rewrite (run_bind _ _ _ _ _ Hrest).
  - intros Hfresh. by eapply validate_fields_keeps_none.
Qed.
End validator.

(** The values the JSON documents can hold that are false in a truth
    test. *)
Lemma falsy_values :
  Forall (fun raw => truthy raw = false)
    [JBool false; JInt 0; JFloat 0 1; JStr ""; JNull; JList []; JDict []].
Proof. repeat constructor. Qed.

(** ** The validator on sample sections *)



Lemma coercer_value_error_witness :
  fst (@BaseParser._parse_validate Example.env (declaring "0.5.1") "content"
         (JDict (dict_set "created" (JStr "yesterday") (sample_content "0.5.1" sample_uuid)))
         initial_world)
  = Raise (MetaDBError 400
      "Failed to convert 'yesterday' using the default parser. Make sure it has the right type.").
Proof.
  refine (f_equal fst
    (@coercer_value_error Example.env
       (declaring "0.5.1") (declaring "0.5.1") "content"
       (dict_set "created" (JStr "yesterday") (sample_content "0.5.1" sample_uuid))
       [("content", 0); ("meta", 1)] 0 initial_world initial_world _ _
       (take 3 (@content_0_3 Example.env)) (drop 4 (@content_0_3 Example.env))
       "created"
       {| t := @_datetime_parser Example.env; required := true |}
       _ "yesterday" ValueError _ _ _ _ _ _ _ _ _)).
  - reflexivity.
  - reflexivity.
  - reflexivity.
  - vm_compute. reflexivity.
  - reflexivity.
  - discriminate.
  - vm_compute. reflexivity.
  - reflexivity.
Defined.

(** C6, as stated, fails: the message reported for the malformed
    [created] holds the rejected value but not the name of the field. *)
Lemma conversion_message_omits_field :
  ∃ m,
    fst (@BaseParser._parse_validate Example.env (declaring "0.5.1") "content"
           (JDict (dict_set "created" (JStr "yesterday")
                     (sample_content "0.5.1" sample_uuid)))
           initial_world)
    = Raise (MetaDBError 400 m)
    ∧ substringb "yesterday" m = true
    ∧ substringb "created" m = false.
Proof.
  eexists. split; [vm_compute; reflexivity |]. split; vm_compute; reflexivity.
Qed.

(** C10, as stated, fails for the required field [modelVersion]: when
    it is present with the empty string, the resolver reads it before
    the loop over the fields starts and raises, so that validation of
    the section does not succeed and the upload is reported with code
    500 instead of being stored without the field. *)
Lemma falsy_model_version_raises :
  let kv := sample_content "" sample_uuid in
  (required <$> dict_lookup "modelVersion" (@content_0_3 Example.env)) = Some true
  ∧ dict_get "modelVersion" kv = Some (JStr "")
  ∧ truthy (JStr "") = false
  ∧ (∃ m, @BaseParser._parse_validate Example.env
            (set_content (JDict kv) zip_parser) "content" (JDict kv) initial_world
          = (Raise (Exc InvalidVersion m), initial_world))
  ∧ ∃ m, @parse_container_file Example.env
           (sample_upload "application/zip" kv sample_meta) "alice" initial_world
         = (Raise (MetaDBError 500 m), initial_world).
Proof.
  repeat split; try reflexivity.
  - eexists. vm_compute. reflexivity.
  - eexists. vm_compute. reflexivity.
Qed.

Lemma falsy_field_dropped_witness :
  ∃ d w',
    @BaseParser._parse_validate Example.env (declaring "0.5.1") "content"
      (JDict (dict_set "complete" (JBool false) (sample_content "0.5.1" sample_uuid)))
      initial_world
    = (Ok (d, declaring "0.5.1"), w')
    ∧ d !! "complete" = None.
Proof.
  pose (kv := dict_set "complete" (JBool false) (sample_content "0.5.1" sample_uuid)).
  pose (rest := take 6 (@content_0_3 Example.env) ++ drop 7 (@content_0_3 Example.env)).
  pose (run := BaseParser.validate_fields "content" (JDict kv) ∅ rest initial_world).
  exists (match fst run with Ok d => d | Raise _ => ∅ end), (snd run).
  destruct (@falsy_field_dropped Example.env
              (declaring "0.5.1") (declaring "0.5.1") "content" kv
              [("content", 0); ("meta", 1)] 0 initial_world initial_world
              (take 6 (@content_0_3 Example.env)) (drop 7 (@content_0_3 Example.env))
              "complete" {| t := py_bool; required := true |} (JBool false)
              eq_refl eq_refl eq_refl eq_refl eq_refl) as (_ & _ & Hout).
  destruct (Hout (match fst run with Ok d => d | Raise _ => ∅ end) (snd run))
    as [Hp Hn]; [vm_compute; reflexivity |].
  split; [exact Hp |].
  apply Hn. vm_compute. intros Hin.
  repeat (apply elem_of_cons in Hin as [Hin | Hin]; [discriminate Hin |]).
  by apply elem_of_nil in Hin.
Defined.

(** ** Properties a computation keeps *)

Section stability.
Context {A B : Type} (P : World → Prop).

Lemma stable_ret (a : A) : stable P (ret a).
Proof. intros w r w' HP E. by inversion E; subst. Qed.

Lemma stable_raise (e : exn) : stable P (@raise A e).
Proof. intros w r w' HP E. by inversion E; subst. Qed.

Lemma stable_lift (x : Res A) : stable P (lift x).
Proof. intros w r w' HP E. by inversion E; subst. Qed.

Lemma stable_bind (m : M A) (k : A → M B) :
  stable P m → (∀ a, stable P (k a)) → stable P (bind m k).
Proof.
  intros Hm Hk w r w' HP. unfold bind.
  destruct (m w) as [[a | e] w1] eqn:E.
  - apply (Hk a w1). by eapply Hm.
  - intros E'. inversion E'; subst. by eapply Hm.
Qed.

Lemma stable_try_except (m : M A) (catches : exn → bool) (handler : exn → M A) :
  stable P m → (∀ e, stable P (handler e)) → stable P (try_except m catches handler).
Proof.
  intros Hm Hh w r w' HP. unfold try_except.
  destruct (m w) as [[a | e] w1] eqn:E.
  - intros E'. inversion E'; subst. by eapply Hm.
  - destruct (catches e).
    + apply (Hh e w1). by eapply Hm.
    + intros E'. inversion E'; subst. by eapply Hm.
Qed.

Lemma stable_mapM (f : A → M B) (l : list A) :
  (∀ x, stable P (f x)) → stable P (mapM f l).
Proof.
  intros Hf. induction l as [| x l IH]; simpl.
  - intros w r w' HP E. by inversion E; subst.
  - intros w r w' HP. unfold bind.
    destruct (f x w) as [[y | e] w1] eqn:E1.
    + destruct (mapM f l w1) as [[ys | e] w2] eqn:E2.
      * intros E'. inversion E'; subst. eapply IH; [| exact E2]. by eapply Hf.
      * intros E'. inversion E'; subst. eapply IH; [| exact E2]. by eapply Hf.
    + intros E'. inversion E'; subst. by eapply Hf.
Qed.

Lemma stable_getattr (o : option A) (attribute : string) :
  stable P (getattr o attribute).
Proof. destruct o; [apply stable_ret | apply stable_raise]. Qed.
End stability.

Lemma stable_get_db (P : World → Prop) : stable P get_db.
Proof. intros w r w' HP E. by inversion E; subst. Qed.

Ltac stable_step :=
  lazymatch goal with
  | |- stable _ (bind _ _) => apply stable_bind; [| intros ?]
  | |- stable _ (ret _) => apply stable_ret
  | |- stable _ (raise _) => apply stable_raise
  | |- stable _ (lift _) => apply stable_lift
  | |- stable _ (getattr _ _) => apply stable_getattr
  | |- stable _ get_db => apply stable_get_db
  | |- stable _ (try_except _ _ _) => apply stable_try_except; [| intros ?]
  | |- stable _ (mapM _ _) => apply stable_mapM; intros ?
  | |- stable _ (match ?x with _ => _ end) => destruct x
  end.

Ltac stable_auto := repeat stable_step.

(** What extraction and validation do to the store stays within the
    tables of the embedded files, keywords, container types and software,
    and the creation of placeholders. *)
Section extraction.
Context `{External} (P : World → Prop).

Hypothesis P_other_tables : ∀ w d',
  P w →
  DataSetBase_table d' = DataSetBase_table (db w) →
  DataSet_table d' = DataSet_table (db w) →
  P {| db := d'; fs := fs w |}.

Hypothesis P_placeholder : ∀ w k r base',
  P w →
  get_or_create String.eqb k (DataSetBase_table (db w)) = Ok (r, base') →
  P {| db := set_DataSetBase_table base' (db w); fs := fs w |}.

Lemma stable_put_other (d' : DB) (w : World) :
  P w →
  DataSetBase_table d' = DataSetBase_table (db w) →
  DataSet_table d' = DataSet_table (db w) →
  ∀ r w', put_db d' w = (r, w') → P w'.
Proof. intros HP E1 E2 r w' E. inversion E; subst. by apply P_other_tables. Qed.

Lemma stable_check_uuid (i : json) : stable P (check_uuid i).
Proof. unfold check_uuid. stable_auto. Qed.

Lemma stable_File_get_or_create (f : File.t) :
  stable P (File_objects_get_or_create f).
Proof.
  intros w r w' HP. unfold File_objects_get_or_create, bind, get_db, lift.
  destruct (get_or_create File.matches f (File_table (db w))) as [[x tbl] | e];
    simpl; intros E; inversion E; subst; [| done].
  by apply P_other_tables.
Qed.

Lemma stable_Keyword_get_or_create (entry : json) :
  stable P (Keyword_objects_get_or_create entry).
Proof.
  intros w r w' HP. unfold Keyword_objects_get_or_create, bind, get_db, lift.
  destruct (get_or_create json_eqb entry (Keyword_table (db w))) as [[x tbl] | e];
    simpl; intros E; inversion E; subst; [| done].
  by apply P_other_tables.
Qed.

Lemma stable_to_ContainerType (x : json) : stable P (to_ContainerType x).
Proof.
  unfold to_ContainerType. destruct (to_ContainerType_error x); [apply stable_raise |].
  intros w r w' HP. unfold bind, get_db, lift.
  destruct (get_or_create json_eqb x (ContainerType_table (db w))) as [[y tbl] | e];
    simpl; intros E; inversion E; subst; [| done].
  by apply P_other_tables.
Qed.

Lemma stable_to_Software (x : json) : stable P (to_Software x).
Proof.
  unfold to_Software. destruct (to_Software_error x); [apply stable_raise |].
  intros w r w' HP. unfold bind, get_db, lift.
  destruct (get_or_create json_eqb x (Software_table (db w))) as [[y tbl] | e];
    simpl; intros E; inversion E; subst; [| done].
  by apply P_other_tables.
Qed.

Lemma stable_DataSet_objects_get (i : json) : stable P (DataSet_objects_get i).
Proof.
  unfold DataSet_objects_get, DataSet_objects_filter.
  stable_auto; apply stable_check_uuid.
Qed.

Lemma stable_DataSetBase_get_or_create (i : json) :
  stable P (DataSetBase_objects_get_or_create i).
Proof.
  intros w r w' HP. unfold DataSetBase_objects_get_or_create, check_uuid.
  destruct (to_uuid i) as [k |]; [| intros E; by inversion E; subst].
  unfold bind, get_db, lift, ret. simpl.
  destruct (get_or_create String.eqb k (DataSetBase_table (db w)))
    as [[x base'] | e] eqn:Eg; simpl; intros E; inversion E; subst; [| done].
  by eapply P_placeholder.
Qed.

Lemma stable_str (x : json) : stable P (str x).
Proof. apply stable_ret. Qed.

Lemma stable_py_bool (x : json) : stable P (py_bool x).
Proof. apply stable_ret. Qed.

Lemma stable_datetime_parser (x : json) : stable P (_datetime_parser x).
Proof. unfold _datetime_parser. stable_auto. Qed.

Lemma stable_used_software_parser (x : json) : stable P (_used_software_parser x).
Proof. unfold _used_software_parser. stable_auto. apply stable_to_Software. Qed.

Lemma stable_replaces_parser (x : json) : stable P (_replaces_parser x).
Proof.
  unfold _replaces_parser. stable_auto.
  - apply stable_DataSet_objects_get.
  - apply stable_DataSetBase_get_or_create.
Qed.

Lemma stable_containerType_parser (x : json) : stable P (_containerType_parser x).
Proof. unfold _containerType_parser. stable_auto. apply stable_to_ContainerType. Qed.

Lemma stable_keyword_parser (x : json) : stable P (_keyword_parser x).
Proof. unfold _keyword_parser. stable_auto. apply stable_Keyword_get_or_create. Qed.

(** Every coercer of every section dictionary in the heap. *)
Lemma stable_table_coercers (a : address) :
  Forall (fun item => ∀ raw, stable P (t (snd item) raw))
    (deref (the_heap module_init) a).
Proof.
  destruct a as [| [| a]]; [| | by constructor];
    repeat constructor; simpl; intros raw;
    first [ apply stable_str | apply stable_py_bool | apply stable_datetime_parser
          | apply stable_used_software_parser | apply stable_replaces_parser
          | apply stable_containerType_parser | apply stable_keyword_parser ].
Qed.

Lemma stable_validate_field (filename : string) (in_dict : json)
  (d : gmap string value) (item : string * field_spec) :
  (∀ raw, stable P (t (snd item) raw)) →
  stable P (BaseParser.validate_field filename in_dict d item).
Proof.
  intros Ht. unfold BaseParser.validate_field, BaseParser.convert_failed.
  stable_auto; apply Ht.
Qed.

Lemma stable_validate_fields (filename : string) (in_dict : json)
  (c : section_dict) (d : gmap string value) :
  Forall (fun item => ∀ raw, stable P (t (snd item) raw)) c →
  stable P (BaseParser.validate_fields filename in_dict d c).
Proof.
  intros Hc. revert d. induction Hc as [| item c Hitem Hc IH]; intros d; simpl.
  - apply stable_ret.
  - apply stable_bind; [by apply stable_validate_field | intros d'; apply IH].
Qed.

Lemma stable_json_load (zfile : list ZipInfo.t) (member : string) :
  stable P (json_load zfile member).
Proof. unfold json_load, getinfo. stable_auto. Qed.

Lemma stable_read_content_json (self : parser) :
  stable P (BaseParser._read_content_json self).
Proof.
  unfold BaseParser._read_content_json, ZipContainerParser._read_content_json,
    Hdf5ContainerParser._read_content_json, ZipFile.
  stable_auto. apply stable_json_load.
Qed.

Lemma stable_read_meta_json (self : parser) :
  stable P (BaseParser._read_meta_json self).
Proof.
  unfold BaseParser._read_meta_json, ZipContainerParser._read_meta_json,
    Hdf5ContainerParser._read_meta_json, ZipFile.
  stable_auto. apply stable_json_load.
Qed.

Lemma stable_read_filelist (self : parser) :
  stable P (BaseParser._read_filelist self).
Proof.
  unfold BaseParser._read_filelist, ZipContainerParser._read_filelist,
    ZipContainerParser.read_member, ZipFile, getinfo.
  stable_auto;
    first [ apply stable_json_load | apply stable_File_get_or_create ].
Qed.

Lemma stable_constraints (self : parser) : stable P (BaseParser._constraints self).
Proof.
  unfold BaseParser._constraints, BaseParser._read_model_version.
  apply stable_bind.
  - destruct (negb (truthy (model_version self))); [| apply stable_ret].
    stable_auto. apply stable_read_content_json.
  - intros self'. stable_auto.
Qed.

Lemma stable_parse_validate (self : parser) (filename : string) (in_dict : json) :
  stable P (BaseParser._parse_validate self filename in_dict).
Proof.
  unfold BaseParser._parse_validate.
  apply stable_bind; [apply stable_constraints | intros cs].
  destruct (dict_lookup filename (fst cs)) as [a |]; [| apply stable_raise].
  apply stable_bind; [| intros; apply stable_ret].
  apply stable_validate_fields, stable_table_coercers.
Qed.

Lemma stable_extract_and_validate (self : parser) (filename : UploadedFile.t) :
  stable P (BaseParser.extract_and_validate self filename).
Proof.
  unfold BaseParser.extract_and_validate.
  apply stable_bind; [apply stable_read_content_json | intros self1].
  apply stable_bind; [apply stable_read_meta_json | intros self2].
  apply stable_bind; [apply stable_read_filelist | intros self3].
  apply stable_bind; [apply stable_getattr | intros fl].
  apply stable_bind; [apply stable_getattr | intros c].
  apply stable_bind; [apply stable_parse_validate | intros r1].
  apply stable_bind; [apply stable_getattr | intros m].
  apply stable_bind; [apply stable_parse_validate | intros r2].
  apply stable_ret.
Qed.
End extraction.

(** ** The orchestrator *)

Section orchestrator_properties.
Context `{External}.

Lemma new_ZipContainer (w : World) : new ZipContainer w = (Ok zip_parser, w).
Proof. reflexivity. Qed.

(** [Hdf5ContainerParser] defines the two section readers only: the
    abstract [_read_filelist] is left, and the class cannot be
    instantiated. *)
Lemma new_Hdf5Container (w : World) :
  new Hdf5Container w
  = (Raise (Exc TypeError
       "Can't instantiate abstract class Hdf5ContainerParser with abstract method _read_filelist"),
     w).
Proof. reflexivity. Qed.

(** On an object of the class, were there one, [parse] would stop at
    the first section reader with code 501, before the file manifest. *)
Lemma hdf5_parse_not_implemented (self : parser) (filename : UploadedFile.t)
  (user : User) (w : World) :
  cls self = Hdf5Container →
  BaseParser.parse self filename user w
  = (Raise (MetaDBError 501 "The server does not support to parse hdf5 files yet."), w).
Proof.
  intros Hcls. unfold BaseParser.parse, BaseParser.extract_and_validate,
    BaseParser._read_content_json. simpl. rewrite Hcls. reflexivity.
Qed.

(** C3, on the code: an upload sniffed as hdf5 fails when the parser
    is instantiated, with the TypeError of the abstract class, which the
    last [except] clause reports with code 500, not 501; no section and
    no manifest is extracted and the store is unchanged. *)
Theorem hdf5_upload_unknown_error (filename : UploadedFile.t) (owner : User) (w : World) :
  UploadedFile.sniffed filename = "application/x-hdf" →
  parse_container_file filename owner w
  = (Raise (MetaDBError 500
       (unknown_error_msg
          "Can't instantiate abstract class Hdf5ContainerParser with abstract method _read_filelist")),
     w).
Proof.
  intros Hmime. unfold parse_container_file, try_except, atomic, transaction_block.
  rewrite Hmime. simpl. by destruct w.
Qed.


(** An ingestion that succeeds commits what its block did. *)
Lemma successful_ingestion_commits
  (filename : UploadedFile.t) (owner : User) (w w' : World) (r : option DataSet) :
  parse_container_file filename owner w = (Ok r, w') ↔
  transaction_block filename owner w = (Ok r, w').
Proof.
  unfold parse_container_file, try_except, atomic.
  destruct (transaction_block filename owner w) as [[obj | e0] w0]; simpl.
  - done.
  - split; discriminate.
Qed.

Lemma parse_test_upload
  (filename : UploadedFile.t) (owner : User) (w w1 : World)
  (d : gmap string value) (uuid : string) :
  BaseParser.extract_and_validate zip_parser filename w = (Ok d, w1) →
  d !! "uuid" = Some (VStr uuid) →
  String.prefix BaseParser.test_prefix uuid = true →
  BaseParser.parse zip_parser filename owner w = parse_test_data uuid w1.
Proof.
  intros Hval Huuid Hprefix. unfold BaseParser.parse.
  rewrite (run_bind _ _ _ _ _ Hval), Huuid, Hprefix. reflexivity.
Qed.

Lemma zip_block (filename : UploadedFile.t) (owner : User) (w : World) :
  UploadedFile.sniffed filename = "application/zip" →
  transaction_block filename owner w
  = (let* obj := BaseParser.parse zip_parser filename owner in
     match obj with
     | None => ret None
     | Some obj => store filename obj (MEDIA_ROOT +:+ "/" +:+ id obj +:+ ".zdc")
     end) w.
Proof.
  intros Hmime. unfold transaction_block. rewrite Hmime.
  change (String.eqb "application/zip" "application/zip") with true. cbv iota.
  by rewrite (run_bind _ _ _ _ _ (new_ZipContainer w)).
Qed.

(** C8, amended: a validated container whose uuid has the reserved
    prefix is handed to the test-fixture resolver and, when that
    produces no record and leaves the store alone, the orchestrator
    returns "no record produced", writes no file to storage and
    creates or changes no full record; the store it commits is the one
    extraction and validation left. *)
Theorem test_upload_not_recorded
  (filename : UploadedFile.t) (owner : User) (w w1 : World)
  (d : gmap string value) (uuid : string) :
  UploadedFile.sniffed filename = "application/zip" →
  BaseParser.extract_and_validate zip_parser filename w = (Ok d, w1) →
  d !! "uuid" = Some (VStr uuid) →
  String.prefix BaseParser.test_prefix uuid = true →
  parse_test_data uuid w1 = (Ok None, w1) →
  parse_container_file filename owner w = (Ok None, w1)
  ∧ fs w1 = fs w
  ∧ DataSet_table (db w1) = DataSet_table (db w).
Proof.
  intros Hmime Hval Huuid Hprefix Htest. split.
  - apply successful_ingestion_commits. rewrite (zip_block _ _ _ Hmime).
    assert (Hparse : BaseParser.parse zip_parser filename owner w = (Ok None, w1))
      by (by rewrite (parse_test_upload _ _ _ _ _ _ Hval Huuid Hprefix)).
    by rewrite (run_bind _ _ _ _ _ Hparse).
  - apply (stable_extract_and_validate
             (fun w' => fs w' = fs w ∧ DataSet_table (db w') = DataSet_table (db w)))
      with (self := zip_parser) (filename := filename) (w := w) (r := Ok d).
    + intros w0 d' [Hfs Hds] _ Hsame. simpl. split; congruence.
    + intros w0 k r base' [Hfs Hds] _. simpl. done.
    + done.
    + exact Hval.
Qed.
End orchestrator_properties.

Lemma hdf5_upload_unknown_error_witness :
  fst (@parse_container_file Example.env
         (sample_upload "application/x-hdf" (sample_content "0.5.1" sample_uuid) sample_meta)
         "alice" initial_world)
  = Raise (MetaDBError 500
      (unknown_error_msg
         "Can't instantiate abstract class Hdf5ContainerParser with abstract method _read_filelist")).
Proof.
  rewrite (@hdf5_upload_unknown_error Example.env
             (sample_upload "application/x-hdf" (sample_content "0.5.1" sample_uuid) sample_meta)
             "alice" initial_world eq_refl).
  reflexivity.
Defined.


Lemma test_upload_not_recorded_witness :
  fst (@parse_container_file Example.env test_upload "alice" initial_world) = Ok None
  ∧ fs (snd (@parse_container_file Example.env test_upload "alice" initial_world)) = []
  ∧ DataSet_table (db (snd (@parse_container_file Example.env test_upload "alice" initial_world)))
    = [].
Proof.
  destruct (@test_upload_not_recorded Example.env test_upload "alice" initial_world
              (snd (@BaseParser.extract_and_validate Example.env zip_parser test_upload
                      initial_world))
              (match fst (@BaseParser.extract_and_validate Example.env zip_parser test_upload
                            initial_world) with
               | Ok d => d
               | Raise _ => ∅
               end)
              test_uuid) as (Hres & Hfs & Hds).
  - reflexivity.
  - vm_compute. reflexivity.
  - vm_compute. reflexivity.
  - reflexivity.
  - reflexivity.
  - rewrite Hres. simpl. split; [reflexivity |]. split; [exact Hfs | exact Hds].
Defined.

(** C8, as stated, fails: the ingestion of a test upload returns "no
    record produced", but the rows that extraction and validation
    created are committed: the embedded files, the container type, and a
    placeholder record for the identifier the container replaces. *)
Lemma test_upload_leaves_rows :
  let result := @parse_container_file Example.env test_upload "alice" initial_world in
  fst result = Ok None
  ∧ DataSetBase_table (db (snd result)) = [replaced_uuid]
  ∧ map File.name (File_table (db (snd result))) = ["content.json"; "meta.json"; "data.bin"]
  ∧ length (ContainerType_table (db (snd result))) = 1%nat
  ∧ db (snd result) ≠ db initial_world.
Proof.
  vm_compute. repeat split. intros E. discriminate E.
Qed.

(** ** Counting rows *)

Lemma filter_length_snoc {A} (f : A → bool) (l : list A) (x : A) :
  length (List.filter f (l ++ [x]))
  = (length (List.filter f l) + (if f x then 1 else 0))%nat.
Proof.
  rewrite List.filter_app, length_app. simpl. by destruct (f x).
Qed.

Lemma existsb_false_filter {A} (f : A → bool) (l : list A) :
  existsb f l = false → List.filter f l = [].
Proof.
  induction l as [| x l IH]; simpl; [done |].
  destruct (f x); simpl; [discriminate | exact IH].
Qed.

Lemma existsb_true_filter {A} (f : A → bool) (l : list A) :
  existsb f l = true → (1 ≤ length (List.filter f l))%nat.
Proof.
  induction l as [| x l IH]; simpl; [discriminate |].
  destruct (f x); simpl; [lia | exact IH].
Qed.

Lemma filter_length_map_ext {A} (f : A → bool) (g : A → A) (l : list A) :
  (∀ x, f (g x) = f x) →
  length (List.filter f (map g l)) = length (List.filter f l).
Proof.
  intros Hfg. induction l as [| x l IH]; simpl; [done |].
  rewrite Hfg. destruct (f x); simpl; by rewrite IH.
Qed.

Lemma filter_filter_keep {A} (f g : A → bool) (l : list A) :
  (∀ x, f x = true → g x = true) →
  List.filter f (List.filter g l) = List.filter f l.
Proof.
  intros Hfg. induction l as [| x l IH]; simpl; [done |].
  destruct (g x) eqn:Eg; simpl.
  - destruct (f x); by rewrite IH.
  - destruct (f x) eqn:Ef; [| exact IH]. apply Hfg in Ef. congruence.
Qed.

Lemma filter_filter_drop {A} (f g : A → bool) (l : list A) :
  (∀ x, f x = true → g x = false) →
  List.filter f (List.filter g l) = [].
Proof.
  intros Hfg. induction l as [| x l IH]; simpl; [done |].
  destruct (g x) eqn:Eg; simpl; [| exact IH].
  destruct (f x) eqn:Ef; [| exact IH]. apply Hfg in Ef. congruence.
Qed.

Lemma eqb_other (k k' j : string) :
  String.eqb k' k = false → String.eqb k' j = true → negb (String.eqb k j) = true.
Proof.
  intros Hne Hj. apply String.eqb_eq in Hj as <-.
  rewrite String.eqb_sym. by rewrite Hne.
Qed.

Lemma eqb_same (k k' j : string) :
  String.eqb k' k = true → String.eqb k' j = true → negb (String.eqb k j) = false.
Proof.
  intros Hk Hj. apply String.eqb_eq in Hk as <-. by rewrite Hj.
Qed.

(** ** What the repository operations do to the rows of an identifier *)

Section rows.
Context `{External}.

(** [obj.delete()] removes every row of the identifier and no other. *)
Lemma DataSetBase_delete_rows (k : string) (w : World) :
  ∃ w',
    DataSetBase_delete k w = (Ok (), w')
    ∧ fs w' = fs w
    ∧ (∀ k', record_count k' (db w')
             = if String.eqb k' k then 0%nat else record_count k' (db w))
    ∧ (∀ k', full_count k' (db w')
             = if String.eqb k' k then 0%nat else full_count k' (db w)).
Proof.
  eexists. split; [reflexivity |]. split; [reflexivity |].
  split; intros k'; unfold record_count, full_count; simpl;
    destruct (String.eqb k' k) eqn:E.
  - rewrite filter_filter_drop; [done | intros j; by apply eqb_same].
  - rewrite filter_filter_keep; [done | intros j; by apply eqb_other].
  - rewrite filter_filter_drop; [done | intros r; unfold has_id; by apply eqb_same].
  - rewrite filter_filter_keep; [done | intros r; unfold has_id; by apply eqb_other].
Qed.

(** [obj.save()] leaves the identifier with a row and a full record:
    one of each when there was at most one before. *)
Lemma DataSet_save_rows (obj : DataSet) (k : string) (w : World) :
  to_uuid (JStr (id obj)) = Some k →
  ∃ w',
    DataSet_save obj w = (Ok (), w')
    ∧ fs w' = fs w
    ∧ (∀ k', record_count k' (db w')
             = if String.eqb k' k then Nat.max 1 (record_count k' (db w))
               else record_count k' (db w))
    ∧ (∀ k', full_count k' (db w')
             = if String.eqb k' k then Nat.max 1 (full_count k' (db w))
               else full_count k' (db w))
    ∧ ((1 ≤ record_count k (db w))%nat →
       DataSetBase_table (db w') = DataSetBase_table (db w))
    ∧ ((1 ≤ full_count k (db w))%nat →
       length (DataSet_table (db w')) = length (DataSet_table (db w)))
    ∧ (row_of k obj ∈ DataSet_table (db w')).
Proof.
  intros Hk. unfold DataSet_save, check_uuid. rewrite Hk.
  eexists. split; [reflexivity |]. split; [reflexivity |].
  simpl. unfold record_count, full_count. simpl.
  repeat split.
  - intros k'.
    destruct (existsb (String.eqb k) (DataSetBase_table (db w))) eqn:Ex.
    + destruct (String.eqb k' k) eqn:E; [| done].
      apply String.eqb_eq in E as ->. apply existsb_true_filter in Ex. lia.
    + rewrite filter_length_snoc.
      destruct (String.eqb k' k) eqn:E; [| lia].
      apply String.eqb_eq in E as ->.
      rewrite (existsb_false_filter _ _ Ex). reflexivity.
  - intros k'.
    destruct (existsb (has_id k) (DataSet_table (db w))) eqn:Ex.
    + rewrite filter_length_map_ext.
      * destruct (String.eqb k' k) eqn:E; [| done].
        apply String.eqb_eq in E as ->. apply existsb_true_filter in Ex. lia.
      * intros r. destruct (has_id k r) eqn:Er; [| done].
        unfold has_id in *. simpl. apply String.eqb_eq in Er as <-. done.
    + rewrite filter_length_snoc. unfold has_id at 2. simpl.
      destruct (String.eqb k' k) eqn:E; [| lia].
      apply String.eqb_eq in E as ->.
      rewrite (existsb_false_filter _ _ Ex). reflexivity.
  - intros Hc.
    destruct (existsb (String.eqb k) (DataSetBase_table (db w))) eqn:Ex; [done |].
    rewrite (existsb_false_filter _ _ Ex) in Hc. simpl in Hc. lia.
  - intros Hc.
    destruct (existsb (has_id k) (DataSet_table (db w))) eqn:Ex.
    + by rewrite length_map.
    + rewrite (existsb_false_filter _ _ Ex) in Hc. simpl in Hc. lia.
  - destruct (existsb (has_id k) (DataSet_table (db w))) eqn:Ex.
    + apply existsb_exists in Ex as (r & Hin & Hr).
      apply list_elem_of_In. apply in_map_iff. exists r. by rewrite Hr.
    + apply elem_of_app. right. by apply list_elem_of_singleton.
Qed.

Lemma DataSet_save_invalid (obj : DataSet) (w : World) :
  to_uuid (JStr (id obj)) = None →
  DataSet_save obj w = (Raise (Exc ValidationError "value is not a valid UUID."), w).
Proof. intros Hk. unfold DataSet_save, check_uuid. by rewrite Hk. Qed.

(** [update_attributes] either refuses, or merges and saves. *)
Lemma update_attributes_inv (obj obj' : DataSet) (d : gmap string value)
  (user : User) (w w' : World) :
  update_attributes obj d user w = (Ok obj', w') →
  obj' = {| id := id obj; owner := owner obj; server_path := server_path obj;
            attrs := d ∪ attrs obj |}
  ∧ DataSet_save obj' w = (Ok (), w').
Proof.
  unfold update_attributes. destruct (update_error obj d user); [discriminate |].
  intros E. apply bind_inv in E as ([] & w1 & Es & E). inversion E; subst. done.
Qed.
End rows.

(** ** Reconciling an upload with the stored records *)

Section reconciliation.
Context `{External}.

Lemma DataSetBase_filter_run (uuid k : string) (w : World) :
  to_uuid (JStr uuid) = Some k →
  DataSetBase_objects_filter (JStr uuid) w
  = (Ok (List.filter (String.eqb k) (DataSetBase_table (db w))), w).
Proof. intros Hk. unfold DataSetBase_objects_filter, check_uuid. by rewrite Hk. Qed.

Lemma DataSet_filter_run (uuid k : string) (w : World) :
  to_uuid (JStr uuid) = Some k →
  DataSet_objects_filter (JStr uuid) w
  = (Ok (List.filter (has_id k) (DataSet_table (db w))), w).
Proof. intros Hk. unfold DataSet_objects_filter, check_uuid. by rewrite Hk. Qed.

Lemma single_row (k : string) (l : list string) :
  length (List.filter (String.eqb k) l) = 1%nat →
  List.filter (String.eqb k) l = [k].
Proof.
  intros Hlen. destruct (List.filter (String.eqb k) l) as [| j [| ? ?]] eqn:E;
    try discriminate.
  assert (Hin : In j (List.filter (String.eqb k) l)) by (rewrite E; by left).
  apply filter_In in Hin as [_ Hj]. by apply String.eqb_eq in Hj as ->.
Qed.

(** The identifier is unknown: a new record is created. *)
Lemma reconcile_unseen (uuid k : string) (d : gmap string value) (user : User)
  (w : World) :
  to_uuid (JStr uuid) = Some k →
  record_count k (db w) = 0%nat →
  BaseParser.reconcile uuid d user w
  = update_attributes (BaseParser.new_DataSet uuid user) (delete "uuid" d) user w.
Proof.
  intros Hk Hc. unfold BaseParser.reconcile.
  rewrite (run_bind _ _ _ _ _ (DataSetBase_filter_run _ _ w Hk)).
  unfold record_count in Hc. apply length_zero_iff_nil in Hc. rewrite Hc.
  by rewrite run_bind_ret.
Qed.

(** The identifier has a placeholder only: the placeholder is deleted,
    then a new record is created. *)
Lemma reconcile_placeholder (uuid k : string) (d : gmap string value) (user : User)
  (w : World) :
  to_uuid (JStr uuid) = Some k →
  record_count k (db w) = 1%nat →
  full_count k (db w) = 0%nat →
  BaseParser.reconcile uuid d user w
  = (DataSetBase_delete k ;;
     update_attributes (BaseParser.new_DataSet uuid user) (delete "uuid" d) user) w.
Proof.
  intros Hk Hc Hf. unfold BaseParser.reconcile.
  rewrite (run_bind _ _ _ _ _ (DataSetBase_filter_run _ _ w Hk)).
  unfold record_count in Hc. rewrite (single_row _ _ Hc).
  unfold full_count in Hf. apply length_zero_iff_nil in Hf.
  assert (Hget : DataSetBase_objects_get (JStr uuid) w = (Ok k, w)).
  { unfold DataSetBase_objects_get.
    rewrite (run_bind _ _ _ _ _ (DataSetBase_filter_run _ _ w Hk)).
    by rewrite (single_row _ _ Hc). }
  unfold bind at 1.
  rewrite (run_bind _ _ _ _ _ (DataSet_filter_run _ _ w Hk)), Hf.
  rewrite (run_bind _ _ _ _ _ Hget).
  unfold bind. destruct (DataSetBase_delete k w) as [[[] | e] w1]; reflexivity.
Qed.

(** The identifier has a full record: that record is updated. *)
Lemma reconcile_full (uuid k : string) (d : gmap string value) (user : User)
  (w : World) (r : DataSet) :
  to_uuid (JStr uuid) = Some k →
  record_count k (db w) ≠ 0%nat →
  List.filter (has_id k) (DataSet_table (db w)) = [r] →
  BaseParser.reconcile uuid d user w
  = update_attributes r (delete "uuid" d) user w.
Proof.
  intros Hk Hc Hf. unfold BaseParser.reconcile.
  rewrite (run_bind _ _ _ _ _ (DataSetBase_filter_run _ _ w Hk)).
  unfold record_count in Hc.
  destruct (List.filter (String.eqb k) (DataSetBase_table (db w))) as [| j known];
    [done |].
  assert (Hget : DataSet_objects_get (JStr uuid) w = (Ok r, w)).
  { unfold DataSet_objects_get.
    rewrite (run_bind _ _ _ _ _ (DataSet_filter_run _ _ w Hk)). by rewrite Hf. }
  unfold bind at 1.
  rewrite (run_bind _ _ _ _ _ (DataSet_filter_run _ _ w Hk)), Hf.
  rewrite (run_bind _ _ _ _ _ Hget).
  unfold bind. destruct (update_attributes r (delete "uuid" d) user w) as [[obj | e] w1];
    reflexivity.
Qed.

(** Saving a record under an identifier that has at most one row
    leaves it with exactly one row, a full one, and keeps the
    invariant. *)
Lemma save_one_record (obj : DataSet) (k : string) (w w' : World) :
  to_uuid (JStr (id obj)) = Some k →
  one_record_per_id (db w) →
  DataSet_save obj w = (Ok (), w') →
  one_record_per_id (db w')
  ∧ record_count k (db w') = 1%nat
  ∧ full_count k (db w') = 1%nat
  ∧ (∀ k', k' ≠ k →
       record_count k' (db w') = record_count k' (db w)
       ∧ full_count k' (db w') = full_count k' (db w))
  ∧ fs w' = fs w.
Proof.
  intros Hk Hwf Hsave.
  destruct (DataSet_save_rows obj k w Hk) as (w1 & Hs & Hfs & Hrc & Hfc & _).
  rewrite Hsave in Hs. inversion Hs; subst w1. clear Hs.
  assert (Hother : ∀ k', k' ≠ k → String.eqb k' k = false)
    by (intros k' Hne; by apply String.eqb_neq).
  split; [| split; [| split; [| split]]].
  - intros k'. rewrite Hrc, Hfc. destruct (Hwf k') as [H1 H2].
    destruct (String.eqb k' k); lia.
  - rewrite Hrc, String.eqb_refl. destruct (Hwf k). lia.
  - rewrite Hfc, String.eqb_refl. destruct (Hwf k). lia.
  - intros k' Hne. by rewrite Hrc, Hfc, (Hother k' Hne).
  - exact Hfs.
Qed.

Lemma delete_keeps_invariant (k : string) (w w' : World) :
  one_record_per_id (db w) →
  DataSetBase_delete k w = (Ok (), w') →
  one_record_per_id (db w').
Proof.
  intros Hwf Hdel.
  destruct (DataSetBase_delete_rows k w) as (w1 & Hd & _ & Hrc & Hfc).
  rewrite Hdel in Hd. inversion Hd; subst w1.
  intros k'. rewrite Hrc, Hfc. destruct (Hwf k'). destruct (String.eqb k' k); lia.
Qed.

(** The three cases of the reconciliation on a catalog that keeps the
    invariant: the identifier is unknown, has a placeholder only, or has
    a full record. *)
Lemma reconcile_cases (uuid k : string) (d : gmap string value) (user : User)
  (w : World) :
  one_record_per_id (db w) →
  to_uuid (JStr uuid) = Some k →
  (record_count k (db w) = 0%nat ∧ full_count k (db w) = 0%nat
   ∧ BaseParser.reconcile uuid d user w
     = update_attributes (BaseParser.new_DataSet uuid user) (delete "uuid" d) user w)
  ∨ (record_count k (db w) = 1%nat ∧ full_count k (db w) = 0%nat
     ∧ BaseParser.reconcile uuid d user w
       = (DataSetBase_delete k ;;
          update_attributes (BaseParser.new_DataSet uuid user) (delete "uuid" d) user) w)
  ∨ (∃ r, List.filter (has_id k) (DataSet_table (db w)) = [r]
          ∧ id r = k
          ∧ BaseParser.reconcile uuid d user w
            = update_attributes r (delete "uuid" d) user w).
Proof.
  intros Hwf Hk. destruct (Hwf k) as [Hrc Hfc].
  assert (Hcases :
    (record_count k (db w) = 0 ∧ full_count k (db w) = 0)%nat
    ∨ (record_count k (db w) = 1 ∧ full_count k (db w) = 0)%nat
    ∨ (record_count k (db w) = 1 ∧ full_count k (db w) = 1)%nat) by lia.
  destruct Hcases as [[Hr0 Hf0] | [[Hr1 Hf0] | [Hr1 Hf1]]].
  - left. split; [exact Hr0 |]. split; [exact Hf0 |].
    by apply reconcile_unseen with (k := k).
  - right. left. split; [exact Hr1 |]. split; [exact Hf0 |].
    by apply reconcile_placeholder with (k := k).
  - right. right. unfold full_count in Hf1.
    destruct (List.filter (has_id k) (DataSet_table (db w))) as [| r [| ? ?]] eqn:Efull;
      try discriminate.
    exists r. split; [reflexivity |].
    assert (Hidr : id r = k).
    { assert (Hin : In r (List.filter (has_id k) (DataSet_table (db w))))
        by (rewrite Efull; by left).
      apply filter_In in Hin as [_ Hr]. unfold has_id in Hr.
      by apply String.eqb_eq in Hr. }
    split; [exact Hidr |].
    apply reconcile_full with (k := k); [exact Hk | lia | exact Efull].
Qed.

Lemma reconcile_valid_uuid (uuid : string) (d : gmap string value) (user : User)
  (w w' : World) (obj : DataSet) :
  BaseParser.reconcile uuid d user w = (Ok obj, w') →
  ∃ k, to_uuid (JStr uuid) = Some k.
Proof.
  unfold BaseParser.reconcile. intros E.
  apply bind_inv in E as (known & w1 & E1 & _).
  unfold DataSetBase_objects_filter, check_uuid in E1.
  destruct (to_uuid (JStr uuid)) as [k |]; [by exists k | discriminate].
Qed.

(** A successful reconciliation keeps the invariant. *)
Lemma reconcile_keeps_invariant
  (uuid : string) (d : gmap string value) (user : User)
  (w w' : World) (obj : DataSet) :
  canonical_uuids →
  one_record_per_id (db w) →
  BaseParser.reconcile uuid d user w = (Ok obj, w') →
  one_record_per_id (db w').
Proof.
  intros Hcanon Hwf Hrec.
  destruct (reconcile_valid_uuid _ _ _ _ _ _ Hrec) as [k Hk].
  destruct (reconcile_cases uuid k d user w Hwf Hk) as [(_ & _ & E) | [(_ & _ & E) | (r & _ & Hidr & E)]];
    rewrite E in Hrec.
  - destruct (update_attributes_inv _ _ _ _ _ _ Hrec) as [Hobj Hsave].
    assert (Hid : to_uuid (JStr (id obj)) = Some k) by (by rewrite Hobj).
    by destruct (save_one_record _ _ _ _ Hid Hwf Hsave) as [? _].
  - apply bind_inv in Hrec as ([] & w_del & Hdel & Hupd).
    pose proof (delete_keeps_invariant _ _ _ Hwf Hdel) as Hwfd.
    destruct (update_attributes_inv _ _ _ _ _ _ Hupd) as [Hobj Hsave].
    assert (Hid : to_uuid (JStr (id obj)) = Some k) by (by rewrite Hobj).
    by destruct (save_one_record _ _ _ _ Hid Hwfd Hsave) as [? _].
  - destruct (update_attributes_inv _ _ _ _ _ _ Hrec) as [Hobj Hsave].
    assert (Hid : to_uuid (JStr (id obj)) = Some k).
    { rewrite Hobj. simpl. rewrite Hidr. by eapply Hcanon. }
    by destruct (save_one_record _ _ _ _ Hid Hwf Hsave) as [? _].
Qed.



(** A reference to an identifier the catalog has not seen creates a
    placeholder for it. *)
Lemma replaces_creates_placeholder (replaces : json) (k : string) (w : World) :
  to_uuid replaces = Some k →
  record_count k (db w) = 0%nat →
  full_count k (db w) = 0%nat →
  ∃ w',
    _replaces_parser replaces w = (Ok (VDataSetBase k), w')
    ∧ record_count k (db w') = 1%nat
    ∧ full_count k (db w') = 0%nat
    ∧ placeholder_count k (db w') = 1%nat.
Proof.
  intros Hk Hr Hf. unfold record_count in Hr. unfold full_count in Hf.
  apply length_zero_iff_nil in Hr, Hf.
  unfold _replaces_parser, try_except, DataSet_objects_get, DataSet_objects_filter,
    DataSetBase_objects_get_or_create, check_uuid, bind, get_db, lift, ret, put_db,
    get_or_create.
  rewrite !Hk. simpl. rewrite Hf. simpl. rewrite Hr. simpl.
  eexists. split; [reflexivity |].
  unfold placeholder_count, record_count, full_count. simpl.
  rewrite filter_length_snoc, Hr, Hf, String.eqb_refl. simpl. done.
Qed.

(** Creating a placeholder keeps the invariant. *)
Lemma placeholder_keeps_invariant (w : World) (k r : string) (base' : list string) :
  one_record_per_id (db w) →
  get_or_create String.eqb k (DataSetBase_table (db w)) = Ok (r, base') →
  one_record_per_id (db {| db := set_DataSetBase_table base' (db w); fs := fs w |}).
Proof.
  intros Hwf. unfold get_or_create.
  destruct (List.filter (String.eqb k) (DataSetBase_table (db w)))
    as [| j [| ? ?]] eqn:E; [| | discriminate]; intros [= <- <-].
  - intros k'. unfold record_count, full_count. simpl.
    rewrite filter_length_snoc. destruct (Hwf k') as [H1 H2].
    unfold record_count, full_count in H1, H2.
    destruct (String.eqb k' k) eqn:Ek; [| lia].
    apply String.eqb_eq in Ek as ->. rewrite E in *. simpl in *. lia.
  - intros k'. apply (Hwf k').
Qed.

(** Extraction and validation keep the invariant. *)
Lemma extraction_keeps_invariant (self : parser) (filename : UploadedFile.t) :
  stable (fun w => one_record_per_id (db w))
    (BaseParser.extract_and_validate self filename).
Proof.
  apply stable_extract_and_validate.
  - intros w d' Hwf Hb Hd k. unfold record_count, full_count. simpl.
    rewrite Hb, Hd. apply (Hwf k).
  - intros w k r base' Hwf Hg. by eapply placeholder_keeps_invariant.
Qed.

Lemma store_inv (filename : UploadedFile.t) (obj0 : DataSet) (path : string)
  (w w' : World) (r : option DataSet) :
  store filename obj0 path w = (Ok r, w') →
  ∃ obj w1,
    r = Some obj ∧ id obj = id obj0 ∧ db w1 = db w
    ∧ DataSet_save obj w1 = (Ok (), w').
Proof.
  unfold store, write_chunks. intros E.
  destruct (open_error (abspath path)); [discriminate |].
  apply bind_inv in E as ([] & w1 & E1 & E).
  apply bind_inv in E as ([] & w2 & E2 & E).
  inversion E; subst. inversion E1; subst.
  eexists _, _. split; [reflexivity |]. split; [reflexivity |].
  split; [| exact E2]. reflexivity.
Qed.

(** Every successful ingestion that produces a record keeps the
    invariant and leaves the identifier of that record with exactly
    one row, a full record. *)
Lemma ingestion_one_record
  (filename : UploadedFile.t) (user : User) (w w' : World) (obj : DataSet) :
  canonical_uuids →
  (∀ u, stable (fun w => one_record_per_id (db w)) (parse_test_data u)) →
  one_record_per_id (db w) →
  parse_container_file filename user w = (Ok (Some obj), w') →
  one_record_per_id (db w')
  ∧ ∃ k, to_uuid (JStr (id obj)) = Some k
         ∧ record_count k (db w') = 1%nat
         ∧ full_count k (db w') = 1%nat
         ∧ placeholder_count k (db w') = 0%nat.
Proof.
  intros Hcanon Htest Hwf Hrun.
  apply successful_ingestion_commits in Hrun.
  assert (Hparsed : ∃ obj0 w1 path,
    one_record_per_id (db w1)
    ∧ store filename obj0 path w1 = (Ok (Some obj), w')).
  { unfold transaction_block in Hrun.
    destruct (String.eqb (UploadedFile.sniffed filename) "application/zip") eqn:Ezip.
    - rewrite (run_bind _ _ _ _ _ (new_ZipContainer w)) in Hrun.
      apply bind_inv in Hrun as (o & w1 & Hparse & Hstore).
      destruct o as [obj0 |]; [| discriminate].
      exists obj0, w1, (MEDIA_ROOT +:+ "/" +:+ id obj0 +:+ ".zdc").
      split; [| exact Hstore].
      unfold BaseParser.parse in Hparse.
      apply bind_inv in Hparse as (d & w0 & Hval & Hrest).
      pose proof (extraction_keeps_invariant _ _ _ _ _ Hwf Hval) as Hwf0.
      simpl in Hwf0.
      destruct (d !! "uuid") as [[uuid | | | | | | | | |] |]; try discriminate.
      destruct (String.prefix BaseParser.test_prefix uuid).
      + exact (Htest uuid w0 _ w1 Hwf0 Hrest).
      + apply bind_inv in Hrest as (o & w2 & Hrec & Hret).
        inversion Hret; subst.
        exact (reconcile_keeps_invariant _ _ _ _ _ _ Hcanon Hwf0 Hrec).
    - destruct (String.eqb (UploadedFile.sniffed filename) "application/x-hdf");
        [| discriminate].
      rewrite (run_bind_raise _ _ _ _ _ (new_Hdf5Container w)) in Hrun. discriminate. }
  destruct Hparsed as (obj0 & w1 & path & Hwf1 & Hstore).
  apply store_inv in Hstore as (obj' & w2 & [= <-] & Hid & Hdb & Hsave).
  destruct (to_uuid (JStr (id obj))) as [k |] eqn:Hk.
  - assert (Hwf2 : one_record_per_id (db w2)) by (by rewrite Hdb).
    destruct (save_one_record _ _ _ _ Hk Hwf2 Hsave) as (Hwf' & Hrc & Hfc & _).
    split; [exact Hwf' |]. exists k. split; [reflexivity |].
    split; [exact Hrc |]. split; [exact Hfc |]. unfold placeholder_count. lia.
  - rewrite (DataSet_save_invalid _ _ Hk) in Hsave. discriminate.
Qed.
End reconciliation.




(** * Further properties of the pipeline *)

(** ** The orchestrator on other uploads *)

Section orchestrator_further.
Context `{External}.

(** X1: an upload whose sniffed type is neither the archive type nor
    the hdf5 type is refused with code 415 before any parser is built;
    neither the database nor the media directory changes. *)
Theorem unsupported_media_type (f : UploadedFile.t) (owner : User) (w : World) :
  UploadedFile.sniffed f ≠ "application/zip" →
  UploadedFile.sniffed f ≠ "application/x-hdf" →
  parse_container_file f owner w
  = (Raise (MetaDBError 415 "File format has to be hdf5 or zip!"), w).
Proof.
  intros Hzip Hhdf. apply String.eqb_neq in Hzip, Hhdf.
  unfold parse_container_file, try_except, atomic, transaction_block.
  rewrite Hzip, Hhdf. simpl. by destruct w.
Qed.

(** The steps of [store], read back from its result. *)
Lemma store_written (f : UploadedFile.t) (obj0 : DataSet) (path : string)
  (w w' : World) (r : option DataSet) :
  store f obj0 path w = (Ok r, w') →
  r = Some {| id := id obj0; owner := owner obj0;
              server_path := Some (abspath path); attrs := attrs obj0 |}
  ∧ fs w' = (abspath path, UploadedFile.chunks f)
            :: List.filter (fun e => negb (String.eqb (abspath path) (fst e))) (fs w)
  ∧ ∃ k, to_uuid (JStr (id obj0)) = Some k
         ∧ row_of k {| id := id obj0; owner := owner obj0;
                       server_path := Some (abspath path); attrs := attrs obj0 |}
           ∈ DataSet_table (db w').
Proof.
  unfold store, write_chunks. intros E.
  destruct (open_error (abspath path)); [discriminate |].
  apply bind_inv in E as ([] & w1 & E1 & E).
  apply bind_inv in E as ([] & w2 & E2 & E).
  inversion E; subst. inversion E1; subst. clear E E1.
  split; [reflexivity |].
  destruct (to_uuid (JStr (id obj0))) as [k |] eqn:Hk.
  - match type of E2 with
    | DataSet_save ?o ?w0 = _ =>
        destruct (DataSet_save_rows o k w0 Hk) as (w3 & Hs & Hfs & _ & _ & _ & _ & Hin)
    end.
    rewrite E2 in Hs. inversion Hs; subst w3.
    split; [by rewrite Hfs |]. by exists k.
  - match type of E2 with
    | DataSet_save ?o ?w0 = _ => rewrite (DataSet_save_invalid o w0 Hk) in E2
    end.
    discriminate.
Qed.

(** What a block that ends with a record went through. *)
Lemma block_with_record (f : UploadedFile.t) (user : User) (w w' : World)
  (obj : DataSet) :
  transaction_block f user w = (Ok (Some obj), w') →
  UploadedFile.sniffed f = "application/zip"
  ∧ ∃ obj0 w1,
      BaseParser.parse zip_parser f user w = (Ok (Some obj0), w1)
      ∧ store f obj0 (MEDIA_ROOT +:+ "/" +:+ id obj0 +:+ ".zdc") w1 = (Ok (Some obj), w').
Proof.
  intros Hrun. unfold transaction_block in Hrun.
  destruct (String.eqb (UploadedFile.sniffed f) "application/zip") eqn:Ezip.
  - apply String.eqb_eq in Ezip. split; [exact Ezip |].
    rewrite (run_bind _ _ _ _ _ (new_ZipContainer w)) in Hrun.
    apply bind_inv in Hrun as (o & w1 & Hparse & Hstore).
    destruct o as [obj0 |]; [| discriminate].
    by exists obj0, w1.
  - destruct (String.eqb (UploadedFile.sniffed f) "application/x-hdf");
      [| discriminate].
    rewrite (run_bind_raise _ _ _ _ _ (new_Hdf5Container w)) in Hrun. discriminate.
Qed.

(** X2: an ingestion that returns a record was an archive upload; the
    record carries the absolute path [MEDIA_ROOT/<id>.zdc], the media
    directory holds exactly one file under that path, with the chunks of
    the upload, and the row of the record is in the table of full
    records. *)
Theorem ingestion_stores_upload (f : UploadedFile.t) (user : User) (w w' : World)
  (obj : DataSet) :
  parse_container_file f user w = (Ok (Some obj), w') →
  UploadedFile.sniffed f = "application/zip"
  ∧ server_path obj = Some (abspath (MEDIA_ROOT +:+ "/" +:+ id obj +:+ ".zdc"))
  ∧ List.filter
      (fun e => String.eqb (abspath (MEDIA_ROOT +:+ "/" +:+ id obj +:+ ".zdc")) (fst e))
      (fs w')
    = [(abspath (MEDIA_ROOT +:+ "/" +:+ id obj +:+ ".zdc"), UploadedFile.chunks f)]
  ∧ ∃ k, to_uuid (JStr (id obj)) = Some k ∧ row_of k obj ∈ DataSet_table (db w').
Proof.
  intros Hrun. apply successful_ingestion_commits in Hrun.
  apply block_with_record in Hrun as (Hzip & obj0 & w1 & _ & Hstore).
  apply store_written in Hstore as ([= ->] & Hfs & k & Hk & Hin).
  simpl. split; [exact Hzip |]. split; [reflexivity |]. split.
  - rewrite Hfs. simpl. rewrite String.eqb_refl.
    rewrite filter_filter_drop; [reflexivity |].
    intros e He. by rewrite He.
  - exists k. by split.
Qed.

(** X3: the orchestrator returns "no record produced" only for a
    validated archive whose uuid has the reserved test prefix and for
    which the test-fixture resolver returned nothing; an ordinary upload
    never ends without a record or an error. *)
Theorem no_record_only_for_test_uploads (f : UploadedFile.t) (user : User)
  (w w' : World) :
  parse_container_file f user w = (Ok None, w') →
  UploadedFile.sniffed f = "application/zip"
  ∧ ∃ d w1 uuid,
      BaseParser.extract_and_validate zip_parser f w = (Ok d, w1)
      ∧ d !! "uuid" = Some (VStr uuid)
      ∧ String.prefix BaseParser.test_prefix uuid = true
      ∧ parse_test_data uuid w1 = (Ok None, w').
Proof.
  intros Hrun. apply successful_ingestion_commits in Hrun.
  unfold transaction_block in Hrun.
  destruct (String.eqb (UploadedFile.sniffed f) "application/zip") eqn:Ezip.
  - apply String.eqb_eq in Ezip. split; [exact Ezip |].
    rewrite (run_bind _ _ _ _ _ (new_ZipContainer w)) in Hrun.
    apply bind_inv in Hrun as (o & w1 & Hparse & Hstore).
    destruct o as [obj0 |].
    { apply store_written in Hstore as [Hr _]. discriminate. }
    inversion Hstore; subst w1. clear Hstore.
    unfold BaseParser.parse in Hparse.
    apply bind_inv in Hparse as (d & w0 & Hval & Hrest).
    exists d, w0.
    destruct (d !! "uuid") as [[uuid | | | | | | | | |] |]; try discriminate.
    exists uuid. split; [exact Hval |]. split; [reflexivity |].
    destruct (String.prefix BaseParser.test_prefix uuid); [by split |].
    apply bind_inv in Hrest as (o & w2 & _ & Hret). discriminate.
  - destruct (String.eqb (UploadedFile.sniffed f) "application/x-hdf").
    + rewrite (run_bind_raise _ _ _ _ _ (new_Hdf5Container w)) in Hrun. discriminate.
    + discriminate.
Qed.

(** The archive parser reading [content.json], by cases on the
    archive. *)
Lemma read_content_json_zip (f : UploadedFile.t) (w : World) :
  ZipContainerParser._read_content_json (set_filename f zip_parser) w
  = match UploadedFile.zip f with
    | None => (Raise (Exc BadZipFile "File is not a zip file"), w)
    | Some members =>
        match List.find (fun m => String.eqb "content.json" (ZipInfo.filename m))
                (rev members) with
        | None =>
            (Raise (Exc KeyError "There is no item named 'content.json' in the archive"), w)
        | Some info =>
            match ZipInfo.loaded info with
            | Some j => (Ok (set_content j (set_filename f zip_parser)), w)
            | None => (Raise (Exc JSONDecodeError "Expecting value"), w)
            end
        end
    end.
Proof.
  unfold ZipContainerParser._read_content_json, ZipFile, json_load, getinfo, bind,
    getattr, ret, raise.
  cbn [filename set_filename].
  destruct (UploadedFile.zip f) as [members |]; [| reflexivity].
  destruct (List.find _ (rev members)) as [info |]; [| reflexivity].
  destruct (ZipInfo.loaded info); reflexivity.
Qed.

(** A failure of the first reader ends the ingestion with its
    translation. *)
Lemma content_reader_failure (f : UploadedFile.t) (user : User) (w : World) (e : exn) :
  UploadedFile.sniffed f = "application/zip" →
  ZipContainerParser._read_content_json (set_filename f zip_parser) w = (Raise e, w) →
  parse_container_file f user w = (Raise (translate e), w).
Proof.
  intros Hzip Hread.
  unfold parse_container_file, try_except, atomic.
  rewrite (zip_block _ _ _ Hzip).
  unfold BaseParser.parse, BaseParser.extract_and_validate.
  assert (Hb : BaseParser._read_content_json (set_filename f zip_parser) w = (Raise e, w))
    by exact Hread.
  rewrite (run_bind_raise _ _ _ _ _
             (run_bind_raise _ _ _ _ _ (run_bind_raise _ _ _ _ _ Hb))).
  simpl. by destruct w.
Qed.

(** X4: an archive upload whose [content.json] cannot be read is
    reported with code 500, not 400, and changes nothing: when the
    upload is not an archive after all, when the archive has no member
    of that name, and when the member is not valid JSON (the decoding
    error is a ValueError, but it is raised outside the validator's
    handler). *)
Theorem unreadable_content_json (f : UploadedFile.t) (user : User) (w : World) :
  UploadedFile.sniffed f = "application/zip" →
  (UploadedFile.zip f = None →
   ∃ m, parse_container_file f user w
        = (Raise (MetaDBError 500 (unknown_error_msg m)), w))
  ∧ (∀ members,
       UploadedFile.zip f = Some members →
       List.find (fun m => String.eqb "content.json" (ZipInfo.filename m)) (rev members)
       = None →
       ∃ m, parse_container_file f user w
            = (Raise (MetaDBError 500 (unknown_error_msg m)), w))
  ∧ (∀ members info,
       UploadedFile.zip f = Some members →
       List.find (fun m => String.eqb "content.json" (ZipInfo.filename m)) (rev members)
       = Some info →
       ZipInfo.loaded info = None →
       ∃ m, parse_container_file f user w
            = (Raise (MetaDBError 500 (unknown_error_msg m)), w)).
Proof.
  intros Hzip. split; [| split].
  - intros Hnone. exists "File is not a zip file".
    apply (content_reader_failure f user w (Exc BadZipFile "File is not a zip file") Hzip).
    by rewrite read_content_json_zip, Hnone.
  - intros members Hsome Hfind.
    exists "There is no item named 'content.json' in the archive".
    apply (content_reader_failure f user w
             (Exc KeyError "There is no item named 'content.json' in the archive") Hzip).
    by rewrite read_content_json_zip, Hsome, Hfind.
  - intros members info Hsome Hfind Hload. exists "Expecting value".
    apply (content_reader_failure f user w (Exc JSONDecodeError "Expecting value") Hzip).
    by rewrite read_content_json_zip, Hsome, Hfind, Hload.
Qed.

(** Extraction and validation write nothing to the media directory,
    whether they succeed or fail. *)
Lemma extraction_keeps_files (self : parser) (f : UploadedFile.t)
  (w w' : World) (r : Res (gmap string value)) :
  BaseParser.extract_and_validate self f w = (r, w') → fs w' = fs w.
Proof.
  intros E.
  apply (stable_extract_and_validate (fun w0 => fs w0 = fs w)) with (3 := eq_refl) (4 := E).
  - intros w0 d' Hw0 _ _. exact Hw0.
  - intros w0 k r0 base' Hw0 _. exact Hw0.
Qed.

(** X5: a validated archive whose uuid is not accepted by the UUID
    field fails at the first query for the identifier; the
    ValidationError is reported with code 400, what extraction and
    validation had written to the database is rolled back, and nothing
    was written to the media directory: the store is as before. *)
Theorem invalid_uuid_rejected (f : UploadedFile.t) (user : User) (w w1 : World)
  (d : gmap string value) (uuid : string) :
  UploadedFile.sniffed f = "application/zip" →
  BaseParser.extract_and_validate zip_parser f w = (Ok d, w1) →
  d !! "uuid" = Some (VStr uuid) →
  String.prefix BaseParser.test_prefix uuid = false →
  to_uuid (JStr uuid) = None →
  ∃ m, parse_container_file f user w
       = (Raise (MetaDBError 400 ("ValidationError: " +:+ m)), w).
Proof.
  intros Hzip Hval Huuid Hprefix Hinvalid. exists "value is not a valid UUID.".
  pose proof (extraction_keeps_files _ _ _ _ _ Hval) as Hfs.
  unfold parse_container_file, try_except, atomic.
  rewrite (zip_block _ _ _ Hzip).
  assert (Hparse : BaseParser.parse zip_parser f user w
                   = (Raise (Exc ValidationError "value is not a valid UUID."), w1)).
  { unfold BaseParser.parse.
    rewrite (run_bind _ _ _ _ _ Hval), Huuid, Hprefix.
    unfold BaseParser.reconcile, DataSetBase_objects_filter, check_uuid.
    rewrite Hinvalid. reflexivity. }
  rewrite (run_bind_raise _ _ _ _ _ Hparse). cbn. rewrite Hfs.
  by destruct w.
Qed.
End orchestrator_further.

Lemma unsupported_media_type_witness :
  @parse_container_file Example.env
    (sample_upload "text/plain" (sample_content "0.5.1" sample_uuid) sample_meta)
    "alice" placeholder_world
  = (Raise (MetaDBError 415 "File format has to be hdf5 or zip!"), placeholder_world).
Proof.
  apply (@unsupported_media_type Example.env); discriminate.
Defined.

Lemma ingestion_stores_upload_witness :
  let run := @parse_container_file Example.env
               (sample_upload "application/zip" (sample_content "0.5.1" sample_uuid)
                  sample_meta)
               "alice" initial_world in
  let obj := match fst run with
             | Ok (Some obj) => obj
             | _ => @BaseParser.new_DataSet "" "alice"
             end in
  is_Ok (fst run) = true
  ∧ server_path obj
    = Some (@abspath Example.env (@MEDIA_ROOT Example.env +:+ "/" +:+ id obj +:+ ".zdc")).
Proof.
  intros run obj. split; [vm_compute; reflexivity |].
  refine (proj1 (proj2 (@ingestion_stores_upload Example.env
                          (sample_upload "application/zip"
                             (sample_content "0.5.1" sample_uuid) sample_meta)
                          "alice" initial_world (snd run) obj _))).
  vm_compute. reflexivity.
Defined.

Lemma no_record_only_for_test_uploads_witness :
  UploadedFile.sniffed test_upload = "application/zip".
Proof.
  refine (proj1 (@no_record_only_for_test_uploads Example.env test_upload "alice"
                   initial_world
                   (snd (@parse_container_file Example.env test_upload "alice"
                           initial_world)) _)).
  vm_compute. reflexivity.
Defined.

(** An archive without [content.json]. *)
Lemma unreadable_content_json_witness :
  let upload := {| UploadedFile.sniffed := "application/zip";
                   UploadedFile.size := 90;
                   UploadedFile.zip :=
                     Some [ {| ZipInfo.filename := "meta.json"; ZipInfo.file_size := 90;
                               ZipInfo.loaded := Some (JDict sample_meta) |} ];
                   UploadedFile.chunks := ["PK..."] |} in
  ∃ m, @parse_container_file Example.env upload "alice" placeholder_world
       = (Raise (MetaDBError 500 (unknown_error_msg m)), placeholder_world).
Proof.
  intros upload.
  refine (proj1 (proj2 (@unreadable_content_json Example.env upload "alice"
                          placeholder_world eq_refl)) _ eq_refl eq_refl).
Defined.

(** An archive whose uuid is not in the hyphenated form. *)
Lemma invalid_uuid_rejected_witness :
  let upload := sample_upload "application/zip" (sample_content "0.5.1" "not-a-uuid")
                  sample_meta in
  ∃ m, @parse_container_file Example.env upload "alice" initial_world
       = (Raise (MetaDBError 400 ("ValidationError: " +:+ m)), initial_world).
Proof.
  intros upload.
  pose (run := @BaseParser.extract_and_validate Example.env zip_parser upload initial_world).
  apply (@invalid_uuid_rejected Example.env upload "alice" initial_world (snd run)
           (match fst run with Ok d => d | Raise _ => ∅ end) "not-a-uuid"
           eq_refl).
  - vm_compute. reflexivity.
  - vm_compute. reflexivity.
  - reflexivity.
  - reflexivity.
Defined.

(** ** The resolver on the other declared versions *)

Section resolver_further.
Context `{External}.


(** X7: a [content.json] without [modelVersion] is not reported as a
    missing attribute: the resolver reads the version before the
    validator looks at any field, re-reads the file, and the lookup
    raises KeyError, whatever section is being validated. *)
Theorem missing_model_version_is_KeyError
  (self : parser) (f : UploadedFile.t) (members : list ZipInfo.t) (info : ZipInfo.t)
  (kv : list (string * json)) (section : string) (in_dict : json) (w : World) :
  cls self = ZipContainer →
  truthy (model_version self) = false →
  filename self = Some f →
  content self = Some (JDict kv) →
  dict_get "modelVersion" kv = None →
  UploadedFile.zip f = Some members →
  List.find (fun m => String.eqb "content.json" (ZipInfo.filename m)) (rev members)
  = Some info →
  ZipInfo.loaded info = Some (JDict kv) →
  ∃ m, BaseParser._parse_validate self section in_dict w = (Raise (Exc KeyError m), w).
Proof.
  intros Hcls Hfalsy Hf Hc Habs Hzip Hfind Hload. exists "modelVersion".
  unfold BaseParser._parse_validate, BaseParser._constraints. rewrite Hfalsy.
  cbn [negb].
  assert (Hread : BaseParser._read_model_version self w
                  = (Raise (Exc KeyError "modelVersion"), w)).
  { unfold BaseParser._read_model_version.
    rewrite Hc. cbn [getattr]. rewrite run_bind_ret.
    rewrite run_bind_lift, py_in_dict, Habs. cbn [negb].
    assert (Hre : BaseParser._read_content_json self w
                  = (Ok (set_content (JDict kv) self), w)).
    { unfold BaseParser._read_content_json. rewrite Hcls.
      unfold ZipContainerParser._read_content_json, ZipFile, json_load, getinfo.
      rewrite Hf. cbn [getattr]. rewrite run_bind_ret, Hzip, run_bind_ret.
      unfold bind. rewrite Hfind. cbn. by rewrite Hload. }
    rewrite (run_bind _ _ _ _ _ Hre). cbn [content set_content getattr].
    rewrite run_bind_ret, run_bind_lift. cbn [py_getitem]. by rewrite Habs. }
  by rewrite (run_bind_raise _ _ _ _ _ (run_bind_raise _ _ _ _ _ Hread)).
Qed.

(** X8: a declared version that is a string but not a version makes the
    resolver raise InvalidVersion: a ValueError, but one raised outside
    the validator's handler, so it is neither the code-400 conversion
    error nor the "version too old" error; validation of either section
    stops there with the store unchanged. *)
Theorem malformed_model_version
  (self : parser) (section : string) (in_dict : json) (mv : string) (w : World) :
  declares self mv →
  version_parse mv = None →
  ∃ m, BaseParser._parse_validate self section in_dict w
       = (Raise (Exc InvalidVersion m), w).
Proof.
  intros Hd Hv. exists ("Invalid version: '" +:+ mv +:+ "'").
  destruct (read_declared self mv w Hd) as (self' & Hread & Hmv & _).
  unfold BaseParser._parse_validate, BaseParser._constraints.
  unfold bind at 1. unfold bind at 1. rewrite Hread, Hmv.
  rewrite run_bind_lift. unfold parse_version. by rewrite Hv.
Qed.
End resolver_further.


(** The archive parser after it has read a [content.json] that declares
    no version. *)
Lemma missing_model_version_is_KeyError_witness :
  let kv := dict_remove "modelVersion" (sample_content "0.5.1" sample_uuid) in
  let f := sample_upload "application/zip" kv sample_meta in
  ∃ m,
    @BaseParser._parse_validate Example.env
      (set_content (JDict kv) (set_filename f zip_parser)) "content" (JDict kv)
      initial_world
    = (Raise (Exc KeyError m), initial_world).
Proof.
  intros kv f.
  apply (@missing_model_version_is_KeyError Example.env
           (set_content (JDict kv) (set_filename f zip_parser)) f
           (sample_archive (JDict kv) (JDict sample_meta))
           {| ZipInfo.filename := "content.json"; ZipInfo.file_size := 310;
              ZipInfo.loaded := Some (JDict kv) |}
           kv "content" (JDict kv) initial_world);
    reflexivity.
Defined.

(** A version given as the JSON number 0.5, and the version "latest". *)
Lemma malformed_model_version_witness :
  ∃ m, @BaseParser._parse_validate Example.env (declaring "latest") "meta"
         (JDict sample_meta) initial_world
       = (Raise (Exc InvalidVersion m), initial_world).
Proof.
  apply (@malformed_model_version Example.env (declaring "latest") "meta"
           (JDict sample_meta) "latest" initial_world).
  - left. split; [reflexivity | discriminate].
  - reflexivity.
Defined.

(** ** The validator on the other fields *)

Section validator_further.
Context `{External}.

(** The turn of a field reads the input mapping at its own key only. *)
Lemma validate_field_agree (section key : string) (spec : field_spec)
  (kv1 kv2 : list (string * json)) (d : gmap string value) :
  dict_get key kv1 = dict_get key kv2 →
  BaseParser.validate_field section (JDict kv1) d (key, spec)
  = BaseParser.validate_field section (JDict kv2) d (key, spec).
Proof.
  intros Hagree. unfold BaseParser.validate_field.
  rewrite !py_in_dict. unfold py_getitem. cbn [fst snd]. by rewrite Hagree.
Qed.

Lemma validate_fields_agree (section : string) (c : section_dict)
  (kv1 kv2 : list (string * json)) (d : gmap string value) (w : World) :
  (∀ key spec, (key, spec) ∈ c → dict_get key kv1 = dict_get key kv2) →
  BaseParser.validate_fields section (JDict kv1) d c w
  = BaseParser.validate_fields section (JDict kv2) d c w.
Proof.
  revert d w. induction c as [| [key spec] c IH]; intros d w Hagree; [done |].
  simpl. unfold bind.
  rewrite (validate_field_agree section key spec kv1 kv2 d)
    by (apply (Hagree key spec); left).
  destruct (BaseParser.validate_field section (JDict kv2) d (key, spec) w)
    as [[d' | e] w1]; [| done].
  apply IH. intros k s Hin. apply (Hagree k s). by right.
Qed.

(** X9: keys of the input mapping that no section dictionary declares
    are ignored: two mappings that agree on every declared field are
    validated alike, with the same result and the same effect on the
    store. *)
Theorem undeclared_keys_ignored
  (self : parser) (section : string) (kv1 kv2 : list (string * json)) (w : World) :
  (∀ a key spec,
     (key, spec) ∈ deref (the_heap module_init) a →
     dict_get key kv1 = dict_get key kv2) →
  BaseParser._parse_validate self section (JDict kv1) w
  = BaseParser._parse_validate self section (JDict kv2) w.
Proof.
  intros Hagree. unfold BaseParser._parse_validate, bind at 1 3.
  destruct (BaseParser._constraints self w) as [[cs | e] w0]; [| done].
  destruct (dict_lookup section (fst cs)) as [a |]; [| done].
  unfold bind.
  by rewrite (validate_fields_agree section _ kv1 kv2 ∅ w0 (Hagree a)).
Qed.

(** Every entry the loop adds is the converted name of a field that is
    present with a value that passes the truth test. *)
Lemma validate_fields_keys (section : string) (kv : list (string * json))
  (c : section_dict) (d d' : gmap string value) (w w' : World) (n : string) :
  BaseParser.validate_fields section (JDict kv) d c w = (Ok d', w') →
  is_Some (d' !! n) →
  is_Some (d !! n)
  ∨ ∃ key spec raw,
      (key, spec) ∈ c ∧ n = snake_case key ∧ dict_get key kv = Some raw
      ∧ truthy raw = true ∧ ne_empty_list raw = true.
Proof.
  revert d w. induction c as [| [key spec] c IH]; intros d w E Hn.
  - inversion E; subst. by left.
  - simpl in E. apply bind_inv in E as (d1 & w1 & E1 & E).
    destruct (IH d1 w1 E Hn) as [Hd1 | (k & s & raw & Hin & Hrest)].
    + unfold BaseParser.validate_field in E1. cbn [fst snd] in E1.
      apply bind_inv in E1 as (_ & w2 & _ & E1).
      rewrite py_in_dict in E1. rewrite run_bind_lift in E1.
      destruct (dict_get key kv) as [raw |] eqn:Hget;
        [| inversion E1; subst; by left].
      rewrite run_bind_lift in E1. cbn [py_getitem] in E1. rewrite Hget in E1.
      destruct (truthy raw && ne_empty_list raw) eqn:Ht;
        [| inversion E1; subst; by left].
      apply bind_inv in E1 as (x & w3 & _ & E1). inversion E1; subst.
      destruct (decide (n = snake_case key)) as [-> | Hne].
      * right. exists key, spec, raw. apply andb_true_iff in Ht as [Ht1 Ht2].
        repeat split; [left | done..].
      * left. by rewrite lookup_insert_ne in Hd1.
    + right. exists k, s, raw. split; [by right | exact Hrest].
Qed.

(** X10: every entry of a validated section is the converted name of a
    field of the resolved section dictionary that the input mapping
    holds with a value passing the truth test: the validator never
    emits an entry for an absent, empty or undeclared field. *)
Theorem validated_keys_are_truthy_fields
  (self self' : parser) (section : string) (kv : list (string * json))
  (w w' : World) (d : gmap string value) :
  BaseParser._parse_validate self section (JDict kv) w = (Ok (d, self'), w') →
  ∀ n, is_Some (d !! n) →
    ∃ a key spec raw,
      (key, spec) ∈ deref (the_heap module_init) a
      ∧ n = snake_case key
      ∧ dict_get key kv = Some raw
      ∧ truthy raw = true
      ∧ ne_empty_list raw = true.
Proof.
  intros E n Hn. unfold BaseParser._parse_validate in E.
  apply bind_inv in E as (cs & w0 & _ & E).
  destruct (dict_lookup section (fst cs)) as [a |]; [| discriminate].
  apply bind_inv in E as (d0 & w1 & Hval & E). inversion E; subst.
  destruct (validate_fields_keys _ _ _ _ _ _ _ n Hval Hn)
    as [Hempty | (key & spec & raw & Hrest)].
  - rewrite lookup_empty in Hempty. by destruct Hempty.
  - by exists a, key, spec, raw.
Qed.

(** X11: an optional field that the input mapping lacks raises nothing
    and adds nothing: validation runs as on the section without that
    field. *)
Theorem absent_optional_field_skipped
  (section : string) (kv : list (string * json)) (pre post : section_dict)
  (key : string) (spec : field_spec) (d : gmap string value) (w : World) :
  required spec = false →
  dict_get key kv = None →
  BaseParser.validate_fields section (JDict kv) d (pre ++ (key, spec) :: post) w
  = BaseParser.validate_fields section (JDict kv) d (pre ++ post) w.
Proof.
  intros Hopt Habs. rewrite !validate_fields_app. unfold bind.
  destruct (BaseParser.validate_fields section (JDict kv) d pre w)
    as [[d1 | e] w1]; [| done].
  simpl BaseParser.validate_fields at 1. unfold bind.
  assert (Hturn : BaseParser.validate_field section (JDict kv) d1 (key, spec) w1
                  = (Ok d1, w1)).
  { unfold BaseParser.validate_field. cbn [fst snd].
    rewrite Hopt, py_in_dict, Habs. reflexivity. }
  by rewrite Hturn.
Qed.

(** The turn of a field whose coercer raises. *)
Lemma validate_field_raises (section key : string) (spec : field_spec)
  (kv : list (string * json)) (raw : json) (e : exn)
  (d : gmap string value) (w w' : World) :
  dict_get key kv = Some raw →
  truthy raw && ne_empty_list raw = true →
  t spec raw w = (Raise e, w') →
  BaseParser.validate_field section (JDict kv) d (key, spec) w
  = (Raise (if BaseParser.catches_ValueError e
            then match raw with
                 | JStr s => MetaDBError 400 (BaseParser.convert_msg s)
                 | _ => Exc TypeError "can only concatenate str to str"
                 end
            else e), w').
Proof.
  intros Hget Htruthy Ht. unfold BaseParser.validate_field. cbn [fst snd].
  rewrite py_in_dict, Hget.
  destruct (required spec); simpl negb; cbv iota;
    unfold bind, lift, ret, try_except, raise; simpl py_getitem; rewrite Hget;
    rewrite Htruthy; simpl; rewrite Ht;
    destruct (BaseParser.catches_ValueError e);
    try reflexivity; by destruct raw.
Qed.

(** X12: an exception of a coercer that is not a ValueError (a
    TypeError, a KeyError, the ValidationError of an identifier field)
    is not turned into the code-400 conversion error: it leaves the
    validator as it was raised. *)
Theorem other_coercer_errors_propagate
  (section : string) (kv : list (string * json)) (pre post : section_dict)
  (key : string) (spec : field_spec) (raw : json) (e : exn)
  (d d1 : gmap string value) (w w1 w2 : World) :
  BaseParser.validate_fields section (JDict kv) d pre w = (Ok d1, w1) →
  dict_get key kv = Some raw →
  truthy raw && ne_empty_list raw = true →
  t spec raw w1 = (Raise e, w2) →
  BaseParser.catches_ValueError e = false →
  BaseParser.validate_fields section (JDict kv) d (pre ++ (key, spec) :: post) w
  = (Raise e, w2).
Proof.
  intros Hpre Hget Htruthy Ht Hcatch.
  rewrite validate_fields_app, (run_bind _ _ _ _ _ Hpre).
  simpl BaseParser.validate_fields.
  apply run_bind_raise.
  by rewrite (validate_field_raises _ _ _ _ _ _ _ _ _ Hget Htruthy Ht), Hcatch.
Qed.

(** X13: when a coercer raises a ValueError on a value that is not a
    string, the handler fails while it builds its message, and the
    validator raises TypeError instead of the code-400 conversion
    error. *)
Theorem conversion_error_needs_string
  (section : string) (kv : list (string * json)) (pre post : section_dict)
  (key : string) (spec : field_spec) (raw : json) (c : exc_class) (m : string)
  (d d1 : gmap string value) (w w1 w2 : World) :
  BaseParser.validate_fields section (JDict kv) d pre w = (Ok d1, w1) →
  dict_get key kv = Some raw →
  truthy raw && ne_empty_list raw = true →
  (∀ s, raw ≠ JStr s) →
  t spec raw w1 = (Raise (Exc c m), w2) →
  is_ValueError c = true →
  ∃ m', BaseParser.validate_fields section (JDict kv) d (pre ++ (key, spec) :: post) w
        = (Raise (Exc TypeError m'), w2).
Proof.
  intros Hpre Hget Htruthy Hns Ht Hc. exists "can only concatenate str to str".
  rewrite validate_fields_app, (run_bind _ _ _ _ _ Hpre).
  simpl BaseParser.validate_fields.
  apply run_bind_raise.
  rewrite (validate_field_raises _ _ _ _ _ _ _ _ _ Hget Htruthy Ht).
  simpl. rewrite Hc.
  destruct raw; try reflexivity. by destruct (Hns s).
Qed.
End validator_further.

(** The two dictionaries of the heap, and the keys they declare. *)
Lemma heap_dictionaries `{External} :
  the_heap module_init = [content_0_3; meta_0_3 ++ meta_0_5_1_update].
Proof. reflexivity. Qed.

Lemma declared_keys `{External} (a : address) (key : string) (spec : field_spec) :
  (key, spec) ∈ deref (the_heap module_init) a →
  key ∈ [ "uuid"; "replaces"; "containerType"; "created"; "modified"; "static";
          "complete"; "hash"; "usedSoftware"; "modelVersion";
          "author"; "email"; "comment"; "title"; "keywords"; "description";
          "timestamp"; "doi"; "license" ].
Proof.
  rewrite heap_dictionaries.
  destruct a as [| [| a]]; unfold deref; simpl; intros Hin.
  - unfold content_0_3 in Hin.
    repeat (apply elem_of_cons in Hin as [Hin | Hin];
            [apply (f_equal fst) in Hin; simpl in Hin; subst key; set_solver |]).
    by apply elem_of_nil in Hin.
  - unfold meta_0_3, meta_0_5_1_update in Hin. simpl in Hin.
    repeat (apply elem_of_cons in Hin as [Hin | Hin];
            [apply (f_equal fst) in Hin; simpl in Hin; subst key; set_solver |]).
    by apply elem_of_nil in Hin.
  - by apply elem_of_nil in Hin.
Qed.

(** A [meta.json] with a field of a later model. *)
Lemma undeclared_keys_ignored_witness :
  @BaseParser._parse_validate Example.env (declaring "0.5.1") "meta"
    (JDict (sample_meta ++ [("fundingReference", JStr "grant 42")])) initial_world
  = @BaseParser._parse_validate Example.env (declaring "0.5.1") "meta"
      (JDict sample_meta) initial_world.
Proof.
  apply (@undeclared_keys_ignored Example.env).
  intros a key spec Hin. apply declared_keys in Hin.
  repeat (apply elem_of_cons in Hin as [-> | Hin]; [reflexivity |]).
  by apply elem_of_nil in Hin.
Defined.

Lemma validated_keys_are_truthy_fields_witness :
  ∃ a key spec raw,
    (key, spec) ∈ deref (the_heap (@module_init Example.env)) a
    ∧ "title" = snake_case key
    ∧ dict_get key sample_meta = Some raw
    ∧ truthy raw = true
    ∧ ne_empty_list raw = true.
Proof.
  pose (run := @BaseParser._parse_validate Example.env (declaring "0.5.1") "meta"
                 (JDict sample_meta) initial_world).
  apply (@validated_keys_are_truthy_fields Example.env
           (declaring "0.5.1") (declaring "0.5.1") "meta" sample_meta
           initial_world (snd run)
           (match fst run with Ok r => fst r | Raise _ => ∅ end)).
  - vm_compute. reflexivity.
  - vm_compute. eexists. reflexivity.
Defined.

(** The sample [meta.json] has no [keywords]. *)
Lemma absent_optional_field_skipped_witness :
  BaseParser.validate_fields "meta" (JDict sample_meta) ∅ (@meta_0_3 Example.env)
    initial_world
  = BaseParser.validate_fields "meta" (JDict sample_meta) ∅
      (take 4 (@meta_0_3 Example.env) ++ drop 5 (@meta_0_3 Example.env))
      initial_world.
Proof.
  apply (@absent_optional_field_skipped "meta" sample_meta
           (take 4 (@meta_0_3 Example.env)) (drop 5 (@meta_0_3 Example.env))
           "keywords" {| t := _keyword_parser; required := false |}
           ∅ initial_world);
    reflexivity.
Defined.

(** A [replaces] that is not an identifier: the ValidationError of the
    query leaves the validator. *)
Lemma other_coercer_errors_propagate_witness :
  BaseParser.validate_fields "content"
    (JDict (sample_content "0.5.1" sample_uuid ++ [("replaces", JStr "the old one")]))
    ∅ (@content_0_3 Example.env) initial_world
  = (Raise (Exc ValidationError "value is not a valid UUID."), initial_world).
Proof.
  apply (@other_coercer_errors_propagate "content"
           (sample_content "0.5.1" sample_uuid ++ [("replaces", JStr "the old one")])
           (take 1 (@content_0_3 Example.env)) (drop 2 (@content_0_3 Example.env))
           "replaces" {| t := @_replaces_parser Example.env; required := false |}
           (JStr "the old one") (Exc ValidationError "value is not a valid UUID.")
           ∅ (<["uuid" := VStr sample_uuid]> ∅) initial_world initial_world initial_world);
    reflexivity.
Defined.

(** A coercer that rejects the number 5 with a ValueError. *)
Lemma conversion_error_needs_string_witness :
  ∃ m,
    BaseParser.validate_fields "content" (JDict [("count", JInt 5)]) ∅
      [("count", {| t := fun _ => raise (Exc ValueError "not a count"); required := true |})]
      initial_world
    = (Raise (Exc TypeError m), initial_world).
Proof.
  apply (@conversion_error_needs_string "content" [("count", JInt 5)] [] []
           "count" {| t := fun _ => raise (Exc ValueError "not a count"); required := true |}
           (JInt 5) ValueError "not a count" ∅ ∅ initial_world initial_world initial_world);
    try reflexivity.
  intros s. discriminate.
Defined.

(** ** The coercers *)

Lemma lower_not_upper (c : Ascii.ascii) : is_upper (lower c) = false.
Proof. destruct c as [[] [] [] [] [] [] [] []]; reflexivity. Qed.

Lemma snake_tail_no_upper (s : string) : no_upper (snake_tail s) = true.
Proof.
  induction s as [| c r IH]; [reflexivity |].
  simpl. destruct (is_upper c) eqn:E; simpl.
  - by rewrite lower_not_upper, IH.
  - by rewrite E, IH.
Qed.

Lemma snake_tail_fixed (s : string) : no_upper s = true → snake_tail s = s.
Proof.
  induction s as [| c r IH]; [reflexivity |].
  simpl. intros Hs. apply andb_true_iff in Hs as [Hc Hr].
  apply negb_true_iff in Hc. by rewrite Hc, (IH Hr).
Qed.

Lemma snake_case_fixed (key : string) : no_upper key = true → snake_case key = key.
Proof.
  destruct key as [| c r]; [reflexivity |].
  simpl. intros Hs. apply andb_true_iff in Hs as [Hc Hr].
  apply negb_true_iff in Hc. unfold lower. by rewrite Hc, (snake_tail_fixed _ Hr).
Qed.

(** X14: the converted name of a field holds no upper-case letter, and
    converting a converted name changes nothing. *)
Theorem snake_case_lower_idempotent (key : string) :
  no_upper (snake_case key) = true
  ∧ snake_case (snake_case key) = snake_case key.
Proof.
  assert (Hlow : no_upper (snake_case key) = true).
  { destruct key as [| c r]; [reflexivity |].
    simpl. by rewrite lower_not_upper, snake_tail_no_upper. }
  split; [exact Hlow |]. by apply snake_case_fixed.
Qed.

Section coercers_further.
Context `{External}.

(** X15: the timestamp coercer never touches the store; a timestamp it
    returns is the one [fromisoformat] gives, or, when only a fallback
    format accepted the text, one set to UTC whatever the text said; it
    raises ValueError exactly when the three attempts fail on a string,
    and TypeError on a value that is not a string. *)
Theorem datetime_parser_result (x : json) (w w' : World) (r : Res value) :
  _datetime_parser x w = (r, w') →
  w' = w
  ∧ match r with
    | Ok v =>
        ∃ s dt, x = JStr s ∧ v = VDatetime dt
                ∧ (fromisoformat s = Some dt
                   ∨ (fromisoformat s = None ∧ utcoffset dt = Some 0%Z))
    | Raise e =>
        (∃ s m, x = JStr s ∧ e = Exc ValueError m
                ∧ fromisoformat s = None
                ∧ strptime s "%Y-%m-%dT%H:%M:%S+%z" = None
                ∧ strptime s "%Y-%m-%d %H:%M:%S %Z" = None)
        ∨ ((∀ s, x ≠ JStr s) ∧ ∃ m, e = Exc TypeError m)
    end.
Proof.
  unfold _datetime_parser.
  destruct x as [| b | n | n p | s | l | kv];
    try (intros E; inversion E; subst; split; [reflexivity |];
         right; split; [intros s; discriminate | eexists; reflexivity]).
  destruct (fromisoformat s) as [dt |] eqn:Eiso.
  { intros E; inversion E; subst. split; [reflexivity |].
    exists s, dt. split; [reflexivity |]. split; [reflexivity |]. by left. }
  destruct (strptime s "%Y-%m-%dT%H:%M:%S+%z") as [dt |] eqn:E1.
  { intros E; inversion E; subst. split; [reflexivity |].
    exists s, (replace_tzinfo_utc dt). split; [reflexivity |]. split; [reflexivity |].
    right. by split. }
  destruct (strptime s "%Y-%m-%d %H:%M:%S %Z") as [dt |] eqn:E2.
  { intros E; inversion E; subst. split; [reflexivity |].
    exists s, (replace_tzinfo_utc dt). split; [reflexivity |]. split; [reflexivity |].
    right. by split. }
  intros E; inversion E; subst. split; [reflexivity |].
  left. eexists s, _. split; [reflexivity |]. split; [reflexivity |]. done.
Qed.

Lemma DataSet_get_run (x : json) (k : string) (w : World) :
  to_uuid x = Some k →
  DataSet_objects_get x w
  = (get_one (List.filter (has_id k) (DataSet_table (db w))), w).
Proof.
  intros Hk. unfold DataSet_objects_get, DataSet_objects_filter, check_uuid.
  rewrite Hk. reflexivity.
Qed.

Lemma DataSetBase_get_or_create_run (x : json) (k : string) (w : World) :
  to_uuid x = Some k →
  DataSetBase_objects_get_or_create x w
  = match get_or_create String.eqb k (DataSetBase_table (db w)) with
    | Ok r => (Ok (fst r), {| db := set_DataSetBase_table (snd r) (db w); fs := fs w |})
    | Raise e => (Raise e, w)
    end.
Proof.
  intros Hk. unfold DataSetBase_objects_get_or_create, check_uuid.
  rewrite Hk. unfold bind, ret, get_db, lift, put_db.
  by destruct (get_or_create String.eqb k (DataSetBase_table (db w))).
Qed.

(** X16: on a catalog that keeps one row per identifier, a successful
    resolution of a [replaces] reference leaves the referenced
    identifier with exactly one row, keeps the invariant, and touches
    neither the full records nor the media directory; it returns the
    full record when there is one and a placeholder otherwise, and
    changes nothing when the identifier was already known. *)
Theorem replaces_parser_known_afterwards
  (x : json) (k : string) (w w' : World) (v : value) :
  one_record_per_id (db w) →
  to_uuid x = Some k →
  _replaces_parser x w = (Ok v, w') →
  one_record_per_id (db w')
  ∧ record_count k (db w') = 1%nat
  ∧ DataSet_table (db w') = DataSet_table (db w)
  ∧ fs w' = fs w
  ∧ (record_count k (db w) = 1%nat → w' = w)
  ∧ ((v = VDataSetBase k ∧ full_count k (db w) = 0%nat)
     ∨ ∃ r, v = VDataSet (id r)
            ∧ List.filter (has_id k) (DataSet_table (db w)) = [r]).
Proof.
  intros Hwf Hk. destruct (Hwf k) as [Hrc Hfc].
  unfold _replaces_parser, try_except. unfold bind at 1.
  rewrite (DataSet_get_run x k w Hk).
  unfold full_count in Hfc.
  destruct (List.filter (has_id k) (DataSet_table (db w))) as [| r [| r' rest]] eqn:Efull;
    cbn [get_one is_DoesNotExist].
  - (* no full record: get_or_create on the placeholders *)
    unfold bind. rewrite (DataSetBase_get_or_create_run x k w Hk).
    destruct (get_or_create String.eqb k (DataSetBase_table (db w)))
      as [[j base'] | e] eqn:Eg; [| discriminate].
    cbn [fst snd ret]. intros E. inversion E; subst. clear E.
    pose proof (placeholder_keeps_invariant w k j base' Hwf Eg) as Hwf'.
    unfold get_or_create in Eg. unfold record_count in *.
    destruct (List.filter (String.eqb k) (DataSetBase_table (db w)))
      as [| j' [| ? ?]] eqn:Ebase; [| | discriminate]; inversion Eg; subst; clear Eg.
    + split; [exact Hwf' |]. cbn.
      split; [by rewrite filter_length_snoc, Ebase, String.eqb_refl |].
      split; [reflexivity |]. split; [reflexivity |].
      split; [intros Hone; discriminate |].
      left. split; [reflexivity |]. unfold full_count. by rewrite Efull.
    + assert (Hj : j = k).
      { assert (Hin : In j (List.filter (String.eqb k) (DataSetBase_table (db w))))
          by (rewrite Ebase; by left).
        apply filter_In in Hin as [_ Hj]. by apply String.eqb_eq in Hj. }
      subst j.
      split; [exact Hwf' |]. cbn.
      split; [by rewrite Ebase |]. split; [reflexivity |]. split; [reflexivity |].
      split; [intros _; by destruct w as [[] ?] |].
      left. split; [reflexivity |]. unfold full_count. by rewrite Efull.
  - (* one full record *)
    cbn. intros E. inversion E; subst. clear E.
    split; [exact Hwf |]. simpl in Hfc.
    split; [lia |]. split; [reflexivity |]. split; [reflexivity |].
    split; [reflexivity |]. right. by exists r.
  - simpl in Hfc. lia.
Qed.

(** [get_or_create] returns a row of the table it leaves, the given one
    or one that matches it, and at most appends the given row. *)
Lemma get_or_create_inv {A} (same : A → A → bool) (x r : A) (table table' : list A) :
  get_or_create same x table = Ok (r, table') →
  (r = x ∨ same x r = true)
  ∧ r ∈ table'
  ∧ ∃ added, table' = table ++ added ∧ ∀ a, a ∈ added → a = x.
Proof.
  unfold get_or_create.
  destruct (List.filter (same x) table) as [| y [| ? ?]] eqn:E; [| | discriminate];
    intros Heq; injection Heq as Hr Ht; subst r table'.
  - split; [by left |]. split; [apply elem_of_app; right; by left |].
    exists [x]. split; [reflexivity |]. intros a Ha.
    by apply list_elem_of_singleton in Ha.
  - rename y into r.
    assert (Hin : In r (List.filter (same x) table)) by (rewrite E; by left).
    apply filter_In in Hin as [Hin Hsame].
    split; [by right |]. split; [by apply list_elem_of_In |].
    exists []. split; [by rewrite app_nil_r |]. intros a Ha. by apply elem_of_nil in Ha.
Qed.

Lemma Keyword_get_or_create_inv (entry row : json) (w w' : World) :
  Keyword_objects_get_or_create entry w = (Ok row, w') →
  (row = entry ∨ json_eqb entry row = true)
  ∧ row ∈ Keyword_table (db w')
  ∧ (∃ added, Keyword_table (db w') = Keyword_table (db w) ++ added
              ∧ ∀ a, a ∈ added → a = entry)
  ∧ db w' = set_Keyword_table (Keyword_table (db w')) (db w)
  ∧ fs w' = fs w.
Proof.
  unfold Keyword_objects_get_or_create, bind, get_db, lift, put_db, ret.
  destruct (get_or_create json_eqb entry (Keyword_table (db w)))
    as [[r table'] | e] eqn:Eg; [| discriminate].
  cbn. intros E. inversion E; subst. clear E.
  apply get_or_create_inv in Eg as (Hrow & Hin & Hadded).
  cbn. done.
Qed.

Lemma keywords_registered (l rows : list json) (w w' : World) :
  mapM Keyword_objects_get_or_create l w = (Ok rows, w') →
  Forall2 (fun entry row => row = entry ∨ json_eqb entry row = true) l rows
  ∧ (∀ row, row ∈ rows → row ∈ Keyword_table (db w'))
  ∧ (∃ added, Keyword_table (db w') = Keyword_table (db w) ++ added
              ∧ ∀ a, a ∈ added → a ∈ l)
  ∧ db w' = set_Keyword_table (Keyword_table (db w')) (db w)
  ∧ fs w' = fs w.
Proof.
  revert rows w. induction l as [| x l IH]; intros rows w E.
  - inversion E; subst. split; [constructor |].
    split; [intros row Hrow; by apply elem_of_nil in Hrow |].
    split; [exists []; split; [by rewrite app_nil_r | intros a Ha; by apply elem_of_nil in Ha] |].
    split; [by destruct (db w') | reflexivity].
  - simpl in E. apply bind_inv in E as (y & w1 & E1 & E).
    apply bind_inv in E as (ys & w2 & E2 & E). inversion E; subst. clear E.
    apply Keyword_get_or_create_inv in E1 as (Hy & Hin1 & (a1 & Ht1 & Ha1) & Hdb1 & Hfs1).
    apply IH in E2 as (Hys & Hin2 & (a2 & Ht2 & Ha2) & Hdb2 & Hfs2).
    split; [by constructor |].
    split.
    { intros row Hrow. apply elem_of_cons in Hrow as [-> | Hrow]; [| by apply Hin2].
      rewrite Ht2. apply elem_of_app. by left. }
    split.
    { exists (a1 ++ a2). split; [by rewrite Ht2, Ht1, app_assoc |].
      intros a Ha. apply elem_of_app in Ha as [Ha | Ha].
      - rewrite (Ha1 a Ha). by left.
      - right. by apply Ha2. }
    split; [| congruence].
    rewrite Hdb2, Hdb1. reflexivity.
Qed.

(** X17: a successful keyword coercion of a list returns one Keyword
    row per entry, in the order of the entries, each being the entry
    itself or a stored row that matches it; every returned row is in
    the Keyword table afterwards, which only grew, by entries of the
    list; no other table and no stored file changes. *)
Theorem keyword_parser_registers (l : list json) (w w' : World) (v : value) :
  _keyword_parser (JList l) w = (Ok v, w') →
  ∃ rows,
    v = VKeywords rows
    ∧ Forall2 (fun entry row => row = entry ∨ json_eqb entry row = true) l rows
    ∧ (∀ row, row ∈ rows → row ∈ Keyword_table (db w'))
    ∧ (∃ added, Keyword_table (db w') = Keyword_table (db w) ++ added
                ∧ ∀ a, a ∈ added → a ∈ l)
    ∧ db w' = set_Keyword_table (Keyword_table (db w')) (db w)
    ∧ fs w' = fs w.
Proof.
  unfold _keyword_parser. cbn [py_iter]. rewrite run_bind_lift.
  intros E. apply bind_inv in E as (rows & w1 & Hmap & E). inversion E; subst.
  exists rows. split; [reflexivity |]. by apply keywords_registered.
Qed.
End coercers_further.

(** ** The file manifest *)

Section manifest.
Context `{External}.

Lemma File_get_or_create_inv (f row : File.t) (w w' : World) :
  File_objects_get_or_create f w = (Ok row, w') →
  File.name row = File.name f
  ∧ File.size row = File.size f
  ∧ row ∈ File_table (db w')
  ∧ (∃ added, File_table (db w') = File_table (db w) ++ added)
  ∧ db w' = set_File_table (File_table (db w')) (db w)
  ∧ fs w' = fs w.
Proof.
  unfold File_objects_get_or_create, bind, get_db, lift, put_db, ret.
  destruct (get_or_create File.matches f (File_table (db w)))
    as [[r table'] | e] eqn:Eg; [| discriminate].
  cbn. intros E. inversion E; subst. clear E.
  apply get_or_create_inv in Eg as (Hrow & Hin & (added & Ht & _)).
  assert (Hsame : File.name row = File.name f ∧ File.size row = File.size f).
  { destruct Hrow as [-> | Hm]; [done |].
    unfold File.matches in Hm.
    apply andb_true_iff in Hm as [Hm _]. apply andb_true_iff in Hm as [Hn Hs].
    apply String.eqb_eq in Hn. apply Z.eqb_eq in Hs. done. }
  destruct Hsame as [Hn Hs]. cbn.
  split; [exact Hn |]. split; [exact Hs |]. split; [exact Hin |].
  split; [by exists added |]. done.
Qed.

Lemma read_member_inv (zfile : list ZipInfo.t) (member : string) (row : File.t)
  (w w' : World) :
  ZipContainerParser.read_member zfile member w = (Ok row, w') →
  File.name row = member
  ∧ row ∈ File_table (db w')
  ∧ (∃ added, File_table (db w') = File_table (db w) ++ added)
  ∧ db w' = set_File_table (File_table (db w')) (db w)
  ∧ fs w' = fs w.
Proof.
  unfold ZipContainerParser.read_member, getinfo, json_load, getinfo. intros E.
  apply bind_inv in E as (info & w1 & E1 & E).
  assert (w1 = w) as ->.
  { destruct (List.find _ (rev zfile)); inversion E1; by subst. }
  destruct (ends_with ".json" member).
  - apply bind_inv in E as (data & w2 & E2 & E).
    assert (w2 = w) as ->.
    { apply bind_inv in E2 as (info' & w3 & E3 & E2).
      destruct (List.find _ (rev zfile)); [| discriminate].
      inversion E3; subst.
      destruct (ZipInfo.loaded info'); inversion E2; by subst. }
    apply File_get_or_create_inv in E as (Hn & _ & Hrest). by split.
  - apply File_get_or_create_inv in E as (Hn & _ & Hrest). by split.
Qed.

Lemma members_registered (zfile : list ZipInfo.t) (names : list string)
  (rows : list File.t) (w w' : World) :
  mapM (ZipContainerParser.read_member zfile) names w = (Ok rows, w') →
  map File.name rows = names
  ∧ (∀ row, row ∈ rows → row ∈ File_table (db w'))
  ∧ (∃ added, File_table (db w') = File_table (db w) ++ added)
  ∧ db w' = set_File_table (File_table (db w')) (db w)
  ∧ fs w' = fs w.
Proof.
  revert rows w. induction names as [| x names IH]; intros rows w E.
  - inversion E; subst. split; [reflexivity |].
    split; [intros row Hrow; by apply elem_of_nil in Hrow |].
    split; [exists []; by rewrite app_nil_r |].
    split; [by destruct (db w') | reflexivity].
  - simpl in E. apply bind_inv in E as (y & w1 & E1 & E).
    apply bind_inv in E as (ys & w2 & E2 & E). inversion E; subst. clear E.
    apply read_member_inv in E1 as (Hn & Hin1 & (a1 & Ht1) & Hdb1 & Hfs1).
    apply IH in E2 as (Hns & Hin2 & (a2 & Ht2) & Hdb2 & Hfs2).
    split; [simpl; by rewrite Hn, Hns |].
    split.
    { intros row Hrow. apply elem_of_cons in Hrow as [-> | Hrow]; [| by apply Hin2].
      rewrite Ht2. apply elem_of_app. by left. }
    split; [exists (a1 ++ a2); by rewrite Ht2, Ht1, app_assoc |].
    split; [| congruence].
    rewrite Hdb2, Hdb1. reflexivity.
Qed.

(** X18: when the archive parser has read the file manifest, the
    parser holds one File per member of the archive, in the order and
    under the names of the archive's name list; each of them is a row
    of the File table, which only grew; the other attributes of the
    parser, the other tables and the media directory are as before. *)
Theorem read_filelist_manifest
  (self self' : parser) (f : UploadedFile.t) (members : list ZipInfo.t)
  (w w' : World) :
  cls self = ZipContainer →
  filename self = Some f →
  UploadedFile.zip f = Some members →
  BaseParser._read_filelist self w = (Ok self', w') →
  ∃ fl,
    files self' = Some fl
    ∧ map File.name fl = map ZipInfo.filename members
    ∧ (∀ row, row ∈ fl → row ∈ File_table (db w'))
    ∧ (∃ added, File_table (db w') = File_table (db w) ++ added)
    ∧ db w' = set_File_table (File_table (db w')) (db w)
    ∧ fs w' = fs w
    ∧ content self' = content self
    ∧ meta self' = meta self
    ∧ model_version self' = model_version self.
Proof.
  intros Hcls Hf Hzip. unfold BaseParser._read_filelist. rewrite Hcls.
  unfold ZipContainerParser._read_filelist, ZipFile. rewrite Hf. cbn [getattr].
  rewrite run_bind_ret, Hzip, run_bind_ret. intros E.
  apply bind_inv in E as (fl & w1 & Hmap & E). inversion E; subst. clear E.
  exists fl. split; [reflexivity |].
  apply members_registered in Hmap as (Hn & Hin & Hadd & Hdb & Hfs).
  done.
Qed.
End manifest.

(** A timestamp only the second fallback format accepts. *)
Lemma datetime_parser_result_witness :
  ∃ s dt,
    JStr "2024-01-01 12:30:00 UTC" = JStr s
    ∧ VDatetime {| year := 2024; month := 1; day := 1; hour := 12; minute := 30;
                   second := 0; utcoffset := Some 0%Z |} = VDatetime dt
    ∧ (@fromisoformat Example.env s = Some dt
       ∨ (@fromisoformat Example.env s = None ∧ utcoffset dt = Some 0%Z)).
Proof.
  refine (proj2 (@datetime_parser_result Example.env (JStr "2024-01-01 12:30:00 UTC")
                   initial_world initial_world
                   (Ok (VDatetime {| year := 2024; month := 1; day := 1; hour := 12;
                                     minute := 30; second := 0;
                                     utcoffset := Some 0%Z |})) _)).
  reflexivity.
Defined.

Lemma initial_world_one_record : one_record_per_id (db initial_world).
Proof. intros k. unfold record_count, full_count. simpl. lia. Qed.

(** A reference to an identifier the empty catalog has not seen. *)
Lemma replaces_parser_known_afterwards_witness :
  record_count replaced_uuid
    (db (snd (@_replaces_parser Example.env (JStr replaced_uuid) initial_world)))
  = 1%nat.
Proof.
  refine (proj1 (proj2 (@replaces_parser_known_afterwards Example.env
                          (JStr replaced_uuid) replaced_uuid initial_world
                          (snd (@_replaces_parser Example.env (JStr replaced_uuid)
                                  initial_world))
                          (VDataSetBase replaced_uuid)
                          initial_world_one_record eq_refl _))).
  reflexivity.
Defined.

(** A keyword list that names one keyword twice. *)
Lemma keyword_parser_registers_witness :
  ∃ rows,
    VKeywords [JStr "laser"; JStr "optics"; JStr "laser"] = VKeywords rows
    ∧ Forall2 (fun entry row => row = entry ∨ json_eqb entry row = true)
        [JStr "laser"; JStr "optics"; JStr "laser"] rows
    ∧ (∀ row, row ∈ rows →
         row ∈ Keyword_table
                 (db (snd (_keyword_parser
                             (JList [JStr "laser"; JStr "optics"; JStr "laser"])
                             initial_world))))
    ∧ (∃ added,
         Keyword_table
           (db (snd (_keyword_parser (JList [JStr "laser"; JStr "optics"; JStr "laser"])
                       initial_world)))
         = Keyword_table (db initial_world) ++ added
         ∧ ∀ a, a ∈ added → a ∈ [JStr "laser"; JStr "optics"; JStr "laser"])
    ∧ db (snd (_keyword_parser (JList [JStr "laser"; JStr "optics"; JStr "laser"])
                 initial_world))
      = set_Keyword_table
          (Keyword_table
             (db (snd (_keyword_parser
                         (JList [JStr "laser"; JStr "optics"; JStr "laser"])
                         initial_world))))
          (db initial_world)
    ∧ fs (snd (_keyword_parser (JList [JStr "laser"; JStr "optics"; JStr "laser"])
                 initial_world))
      = fs initial_world.
Proof.
  apply (keyword_parser_registers [JStr "laser"; JStr "optics"; JStr "laser"]
           initial_world).
  reflexivity.
Defined.

(** The manifest of the sample archive. *)
Lemma read_filelist_manifest_witness :
  let f := sample_upload "application/zip" (sample_content "0.5.1" sample_uuid)
             sample_meta in
  ∃ fl,
    files (match fst (BaseParser._read_filelist
                        (set_filename f zip_parser) initial_world) with
           | Ok self' => self'
           | Raise _ => zip_parser
           end) = Some fl
    ∧ map File.name fl = ["content.json"; "meta.json"; "data.bin"].
Proof.
  intros f.
  destruct (read_filelist_manifest (set_filename f zip_parser)
              (match fst (BaseParser._read_filelist
                            (set_filename f zip_parser) initial_world) with
               | Ok self' => self'
               | Raise _ => zip_parser
               end)
              f (sample_archive (JDict (sample_content "0.5.1" sample_uuid))
                   (JDict sample_meta))
              initial_world
              (snd (BaseParser._read_filelist
                      (set_filename f zip_parser) initial_world)))
    as (fl & Hfiles & Hnames & _).
  - reflexivity.
  - reflexivity.
  - reflexivity.
  - vm_compute. reflexivity.
  - exists fl. split; [exact Hfiles | exact Hnames].
Defined.

(** ** What extraction and validation hand to the reconciliation *)

Section validated_record.
Context `{External}.

Lemma getattr_inv {A} (o : option A) (attribute : string) (a : A) (w w' : World) :
  getattr o attribute w = (Ok a, w') → o = Some a ∧ w' = w.
Proof. destruct o; intros E; inversion E; by subst. Qed.

(** The steps of [extract_and_validate], read back from its result. *)
Lemma extract_and_validate_inv (self : parser) (f : UploadedFile.t)
  (w w' : World) (d : gmap string value) :
  BaseParser.extract_and_validate self f w = (Ok d, w') →
  ∃ self1 self2 self3 fl c m r1 r2 w1 w2 w3 w4,
    BaseParser._read_content_json (set_filename f self) w = (Ok self1, w1)
    ∧ BaseParser._read_meta_json self1 w1 = (Ok self2, w2)
    ∧ BaseParser._read_filelist self2 w2 = (Ok self3, w3)
    ∧ files self3 = Some fl
    ∧ content self3 = Some c
    ∧ BaseParser._parse_validate self3 "content" c w3 = (Ok r1, w4)
    ∧ meta (snd r1) = Some m
    ∧ BaseParser._parse_validate (snd r1) "meta" m w4 = (Ok r2, w')
    ∧ d = fst r2
          ∪ (fst r1
             ∪ <["content" := VFiles fl]>
                 (<["size" := VInt (UploadedFile.size f)]> ∅)).
Proof.
  unfold BaseParser.extract_and_validate. intros E.
  apply bind_inv in E as (self1 & w1 & E1 & E).
  apply bind_inv in E as (self2 & w2 & E2 & E).
  apply bind_inv in E as (self3 & w3 & E3 & E).
  apply bind_inv in E as (fl & w3' & E4 & E).
  apply getattr_inv in E4 as [Hfl ->].
  apply bind_inv in E as (c & w3' & E5 & E).
  apply getattr_inv in E5 as [Hc ->].
  apply bind_inv in E as (r1 & w4 & E6 & E).
  apply bind_inv in E as (m & w4' & E7 & E).
  apply getattr_inv in E7 as [Hm ->].
  apply bind_inv in E as (r2 & w5 & E8 & E).
  inversion E; subst. clear E.
  by exists self1, self2, self3, fl, c, m, r1, r2, w1, w2, w3, w4.
Qed.

(** A validated section has entries under converted names of the
    declared fields only. *)
Lemma parse_validate_fresh (self : parser) (section : string) (in_dict : json)
  (w w' : World) (r : gmap string value * parser) (n : string) :
  BaseParser._parse_validate self section in_dict w = (Ok r, w') →
  (∀ a, n ∉ map (fun item => snake_case (fst item)) (deref (the_heap module_init) a)) →
  fst r !! n = None.
Proof.
  unfold BaseParser._parse_validate. intros E Hfresh.
  apply bind_inv in E as (cs & w0 & _ & E).
  destruct (dict_lookup section (fst cs)) as [a |]; [| discriminate].
  apply bind_inv in E as (d0 & w1 & Hval & E). inversion E; subst. simpl.
  eapply validate_fields_keeps_none; [exact Hval | apply lookup_empty | apply Hfresh].
Qed.

(** No declared field is renamed to [size] or [content]. *)
Lemma computed_names_fresh (a : address) :
  ("size" ∉ map (fun item => snake_case (fst item)) (deref (the_heap module_init) a))
  ∧ ("content" ∉ map (fun item => snake_case (fst item)) (deref (the_heap module_init) a)).
Proof.
  rewrite heap_dictionaries.
  destruct a as [| [| a]]; unfold deref; simpl; split; intros Hin;
    repeat (apply elem_of_cons in Hin as [Hin | Hin]; [discriminate Hin |]);
    by apply elem_of_nil in Hin.
Qed.

(** What a successful section reader leaves on the parser. *)
Lemma read_content_json_inv (s s1 : parser) (w w1 : World) :
  BaseParser._read_content_json s w = (Ok s1, w1) →
  cls s = ZipContainer ∧ ∃ j, s1 = set_content j s.
Proof.
  unfold BaseParser._read_content_json. destruct (cls s) eqn:Hcls; [| discriminate].
  unfold ZipContainerParser._read_content_json. intros E.
  apply bind_inv in E as (f0 & wa & _ & E).
  apply bind_inv in E as (zf & wb & _ & E).
  apply bind_inv in E as (j & wc & _ & E).
  inversion E; subst. split; [reflexivity | by exists j].
Qed.

Lemma read_meta_json_inv (s s1 : parser) (w w1 : World) :
  BaseParser._read_meta_json s w = (Ok s1, w1) →
  cls s = ZipContainer ∧ ∃ j, s1 = set_meta j s.
Proof.
  unfold BaseParser._read_meta_json. destruct (cls s) eqn:Hcls; [| discriminate].
  unfold ZipContainerParser._read_meta_json. intros E.
  apply bind_inv in E as (f0 & wa & _ & E).
  apply bind_inv in E as (zf & wb & _ & E).
  apply bind_inv in E as (j & wc & _ & E).
  inversion E; subst. split; [reflexivity | by exists j].
Qed.

(** The manifest of an archive parser is read from the members of the
    uploaded archive. *)
Lemma read_filelist_inv (s s1 : parser) (f : UploadedFile.t) (w w1 : World) :
  cls s = ZipContainer →
  filename s = Some f →
  BaseParser._read_filelist s w = (Ok s1, w1) →
  ∃ members fl,
    UploadedFile.zip f = Some members
    ∧ s1 = set_files fl s
    ∧ mapM (ZipContainerParser.read_member members) (map ZipInfo.filename members) w
      = (Ok fl, w1).
Proof.
  intros Hcls Hf. unfold BaseParser._read_filelist. rewrite Hcls.
  unfold ZipContainerParser._read_filelist, ZipFile. rewrite Hf. cbn [getattr].
  rewrite run_bind_ret.
  destruct (UploadedFile.zip f) as [members |]; [| discriminate].
  rewrite run_bind_ret. intros E.
  apply bind_inv in E as (fl & w2 & Hmap & E). inversion E; subst. clear E.
  by exists members, fl.
Qed.

(** A File read from an archive has the size the archive records for a
    member of its name. *)
Lemma read_member_size (zfile : list ZipInfo.t) (member : string) (row : File.t)
  (w w' : World) :
  ZipContainerParser.read_member zfile member w = (Ok row, w') →
  ∃ info, info ∈ zfile
          ∧ ZipInfo.filename info = File.name row
          ∧ ZipInfo.file_size info = File.size row.
Proof.
  unfold ZipContainerParser.read_member, getinfo. intros E.
  apply bind_inv in E as (info & w1 & E1 & E).
  destruct (List.find _ (rev zfile)) as [found |] eqn:Hfind; [| discriminate].
  inversion E1; subst. clear E1.
  apply find_some in Hfind as [Hin Heq]. apply String.eqb_eq in Heq.
  exists info. split; [apply list_elem_of_In; by apply in_rev |].
  destruct (ends_with ".json" member).
  - apply bind_inv in E as (data & w2 & _ & E).
    apply File_get_or_create_inv in E as (Hn & Hs & _). simpl in Hn, Hs.
    by rewrite Hn, Hs.
  - apply File_get_or_create_inv in E as (Hn & Hs & _). simpl in Hn, Hs.
    by rewrite Hn, Hs.
Qed.

Lemma members_sizes (zfile : list ZipInfo.t) (names : list string)
  (rows : list File.t) (w w' : World) :
  mapM (ZipContainerParser.read_member zfile) names w = (Ok rows, w') →
  Forall (fun row => ∃ info, info ∈ zfile
                             ∧ ZipInfo.filename info = File.name row
                             ∧ ZipInfo.file_size info = File.size row) rows.
Proof.
  revert rows w. induction names as [| x names IH]; intros rows w E.
  - inversion E; subst. constructor.
  - simpl in E. apply bind_inv in E as (y & w1 & E1 & E).
    apply bind_inv in E as (ys & w2 & E2 & E). inversion E; subst. clear E.
    constructor; [by eapply read_member_size | by eapply IH].
Qed.

(** X19: what extraction and validation return always carries the two
    computed attributes: the size of the upload under [size], and under
    [content] the manifest read from the uploaded archive, one File per
    entry of the archive's name list, in that order and under those
    names, each with the size the archive records for a member of its
    name; no validated field of either section overwrites them. *)
Theorem validated_record_keeps_size_and_manifest
  (self : parser) (f : UploadedFile.t) (w w' : World) (d : gmap string value) :
  BaseParser.extract_and_validate self f w = (Ok d, w') →
  d !! "size" = Some (VInt (UploadedFile.size f))
  ∧ ∃ members fl,
      UploadedFile.zip f = Some members
      ∧ d !! "content" = Some (VFiles fl)
      ∧ map File.name fl = map ZipInfo.filename members
      ∧ Forall (fun row => ∃ info, info ∈ members
                                   ∧ ZipInfo.filename info = File.name row
                                   ∧ ZipInfo.file_size info = File.size row) fl.
Proof.
  intros E.
  destruct (extract_and_validate_inv _ _ _ _ _ E)
    as (self1 & self2 & self3 & fl & c & m & r1 & r2 & w1 & w2 & w3 & w4
        & E1 & E2 & E3 & Hfl & Hc & E6 & Hm & E8 & Hd).
  subst d.
  assert (Hs1 : fst r1 !! "size" = None)
    by (eapply parse_validate_fresh; [exact E6 | intros a; apply computed_names_fresh]).
  assert (Hs2 : fst r2 !! "size" = None)
    by (eapply parse_validate_fresh; [exact E8 | intros a; apply computed_names_fresh]).
  assert (Hc1 : fst r1 !! "content" = None)
    by (eapply parse_validate_fresh; [exact E6 | intros a; apply computed_names_fresh]).
  assert (Hc2 : fst r2 !! "content" = None)
    by (eapply parse_validate_fresh; [exact E8 | intros a; apply computed_names_fresh]).
  split.
  - rewrite (lookup_union_r _ _ _ Hs2), (lookup_union_r _ _ _ Hs1).
    rewrite lookup_insert_ne by discriminate. apply lookup_insert_eq.
  - apply read_content_json_inv in E1 as (Hcls0 & j1 & ->).
    apply read_meta_json_inv in E2 as (_ & j2 & ->).
    destruct (read_filelist_inv (set_meta j2 (set_content j1 (set_filename f self)))
                self3 f w2 w3 Hcls0 eq_refl E3)
      as (members & fl' & Hzip & -> & Hmap).
    cbn in Hfl. inversion Hfl; subst fl'. clear Hfl.
    exists members, fl. split; [exact Hzip |]. split.
    + rewrite (lookup_union_r _ _ _ Hc2), (lookup_union_r _ _ _ Hc1).
      apply lookup_insert_eq.
    + split; [by apply members_registered in Hmap as (Hn & _) |].
      by eapply members_sizes.
Qed.

(** The resolver returns one of the two registered sets, which name the
    same two dictionaries. *)
Lemma constraints_resolved (self self' : parser) (cs : constraint_set) (w w' : World) :
  BaseParser._constraints self w = (Ok (cs, self'), w') →
  cs = [("content", 0%nat); ("meta", 1%nat)].
Proof.
  unfold BaseParser._constraints. intros E.
  apply bind_inv in E as (self1 & w1 & _ & E).
  destruct (model_version self1) as [| | | | mv | |]; try discriminate.
  apply bind_inv in E as (v & w2 & _ & E).
  apply bind_inv in E as (minimum & w3 & _ & E).
  destruct (version_lt v minimum); [discriminate |].
  apply bind_inv in E as (keys & w4 & _ & E).
  apply bind_inv in E as (key & w5 & _ & E).
  simpl in E.
  destruct (String.eqb key "0.3"); [by inversion E |].
  destruct (String.eqb key "0.5.1"); [by inversion E | discriminate].
Qed.

(** Only the field [uuid] is renamed to [uuid], and the meta section has
    no such field. *)
Lemma uuid_name_unique (a : address) (key : string) (spec : field_spec) :
  (key, spec) ∈ deref (the_heap module_init) a →
  snake_case key = "uuid" →
  key = "uuid" ∧ a = 0%nat.
Proof.
  rewrite heap_dictionaries.
  destruct a as [| [| a]]; unfold deref; simpl; intros Hin.
  - unfold content_0_3 in Hin.
    repeat (apply elem_of_cons in Hin as [Hin | Hin];
            [apply (f_equal fst) in Hin; simpl in Hin; subst key;
             intros Hname; first [done | discriminate Hname] |]).
    by apply elem_of_nil in Hin.
  - unfold meta_0_3, meta_0_5_1_update in Hin. simpl in Hin.
    repeat (apply elem_of_cons in Hin as [Hin | Hin];
            [apply (f_equal fst) in Hin; simpl in Hin; subst key;
             intros Hname; discriminate Hname |]).
    by apply elem_of_nil in Hin.
  - by apply elem_of_nil in Hin.
Qed.

Lemma read_content_json_of (self self1 : parser) (f : UploadedFile.t)
  (members : list ZipInfo.t) (info : ZipInfo.t) (j : json) (w w1 : World) :
  cls self = ZipContainer →
  UploadedFile.zip f = Some members →
  List.find (fun m => String.eqb "content.json" (ZipInfo.filename m)) (rev members)
  = Some info →
  ZipInfo.loaded info = Some j →
  BaseParser._read_content_json (set_filename f self) w = (Ok self1, w1) →
  self1 = set_content j (set_filename f self).
Proof.
  intros Hcls Hzip Hfind Hload. unfold BaseParser._read_content_json.
  cbn [cls set_filename]. rewrite Hcls.
  unfold ZipContainerParser._read_content_json, ZipFile, json_load, getinfo.
  cbn [filename set_filename getattr]. rewrite run_bind_ret, Hzip, run_bind_ret.
  unfold bind. rewrite Hfind. cbn. rewrite Hload. cbn.
  intros E. by inversion E.
Qed.

Lemma read_meta_json_keeps (self self2 : parser) (w w2 : World) :
  BaseParser._read_meta_json self w = (Ok self2, w2) →
  content self2 = content self.
Proof.
  unfold BaseParser._read_meta_json. destruct (cls self); [| discriminate].
  unfold ZipContainerParser._read_meta_json. intros E.
  apply bind_inv in E as (f0 & wa & _ & E).
  apply bind_inv in E as (zf & wb & _ & E).
  apply bind_inv in E as (j & wc & _ & E).
  by inversion E.
Qed.

Lemma read_filelist_keeps (self self3 : parser) (w w3 : World) :
  BaseParser._read_filelist self w = (Ok self3, w3) →
  content self3 = content self.
Proof.
  unfold BaseParser._read_filelist. destruct (cls self).
  - unfold ZipContainerParser._read_filelist. intros E.
    apply bind_inv in E as (f0 & wa & _ & E).
    apply bind_inv in E as (zf & wb & _ & E).
    apply bind_inv in E as (l & wc & _ & E).
    by inversion E.
  - intros E. by inversion E.
Qed.

(** A validated archive whose [content.json] holds a uuid that is false
    in a truth test has no [uuid] entry. *)
Lemma falsy_uuid_dropped (self : parser) (f : UploadedFile.t)
  (members : list ZipInfo.t) (info : ZipInfo.t) (ckv : list (string * json))
  (raw : json) (w w' : World) (d : gmap string value) :
  cls self = ZipContainer →
  UploadedFile.zip f = Some members →
  List.find (fun m => String.eqb "content.json" (ZipInfo.filename m)) (rev members)
  = Some info →
  ZipInfo.loaded info = Some (JDict ckv) →
  dict_get "uuid" ckv = Some raw →
  truthy raw = false →
  BaseParser.extract_and_validate self f w = (Ok d, w') →
  d !! "uuid" = None.
Proof.
  intros Hcls Hzip Hfind Hload Hget Hfalsy E.
  destruct (extract_and_validate_inv _ _ _ _ _ E)
    as (self1 & self2 & self3 & fl & c & m & r1 & r2 & w1 & w2 & w3 & w4
        & E1 & E2 & E3 & Hfl & Hc & E6 & Hm & E8 & Hd).
  subst d.
  pose proof (read_content_json_of _ _ _ _ _ _ _ _ Hcls Hzip Hfind Hload E1) as ->.
  rewrite (read_filelist_keeps _ _ _ _ E3), (read_meta_json_keeps _ _ _ _ E2) in Hc.
  cbn in Hc. inversion Hc; subst c. clear Hc.
  assert (H1 : fst r1 !! "uuid" = None).
  { unfold BaseParser._parse_validate in E6.
    apply bind_inv in E6 as (cs & w0 & _ & E6).
    destruct (dict_lookup "content" (fst cs)) as [a |]; [| discriminate].
    apply bind_inv in E6 as (d0 & w5 & Hval & E6). inversion E6; subst. simpl.
    destruct (d0 !! "uuid") as [x |] eqn:Hx; [| reflexivity].
    destruct (validate_fields_keys _ _ _ _ _ _ _ "uuid" Hval)
      as [Hempty | (key & spec & raw' & Hin & Hname & Hget' & Htruthy & _)].
    - by rewrite Hx.
    - rewrite lookup_empty in Hempty. by destruct Hempty.
    - symmetry in Hname. destruct (uuid_name_unique a key spec Hin Hname) as [-> _].
      rewrite Hget in Hget'. inversion Hget'; subst. congruence. }
  assert (H2 : fst r2 !! "uuid" = None).
  { unfold BaseParser._parse_validate in E8.
    apply bind_inv in E8 as ([cs self4] & w0 & Hres & E8).
    pose proof (constraints_resolved _ _ _ _ _ Hres) as ->.
    change (dict_lookup "meta" (fst ([("content", 0%nat); ("meta", 1%nat)], self4)))
      with (Some 1%nat) in E8.
    cbv beta iota zeta in E8.
    apply bind_inv in E8 as (d0 & w5 & Hval & E8). inversion E8; subst. cbn [fst].
    eapply validate_fields_keeps_none; [exact Hval | apply lookup_empty |].
    intros Hin. apply list_elem_of_In, in_map_iff in Hin as ([key spec] & Hname & Hin).
    apply list_elem_of_In in Hin.
    destruct (uuid_name_unique 1 key spec Hin Hname) as [_ Habs]. discriminate. }
  rewrite (lookup_union_r _ _ _ H2), (lookup_union_r _ _ _ H1).
  rewrite lookup_insert_ne by discriminate.
  rewrite lookup_insert_ne by discriminate. apply lookup_empty.
Qed.

(** X20: an upload whose [content.json] holds a uuid that is false in a
    truth test (the empty string, say) is never ingested: the uuid is
    dropped by the validator, so no ingestion of it ends without an
    error, whatever the sniffed type, the owner and the catalog. *)
Theorem falsy_uuid_never_ingested
  (f : UploadedFile.t) (members : list ZipInfo.t) (info : ZipInfo.t)
  (ckv : list (string * json)) (raw : json) (user : User) (w : World) :
  UploadedFile.zip f = Some members →
  List.find (fun m => String.eqb "content.json" (ZipInfo.filename m)) (rev members)
  = Some info →
  ZipInfo.loaded info = Some (JDict ckv) →
  dict_get "uuid" ckv = Some raw →
  truthy raw = false →
  is_Ok (fst (parse_container_file f user w)) = false.
Proof.
  intros Hzip Hfind Hload Hget Hfalsy.
  destruct (parse_container_file f user w) as [[o | e] w'] eqn:Hrun; [| reflexivity].
  exfalso. apply successful_ingestion_commits in Hrun.
  unfold transaction_block in Hrun.
  destruct (String.eqb (UploadedFile.sniffed f) "application/zip").
  - rewrite (run_bind _ _ _ _ _ (new_ZipContainer w)) in Hrun.
    apply bind_inv in Hrun as (o' & w1 & Hparse & _).
    unfold BaseParser.parse in Hparse.
    apply bind_inv in Hparse as (d & w0 & Hval & Hrest).
    rewrite (falsy_uuid_dropped zip_parser f members info ckv raw w w0 d
               eq_refl Hzip Hfind Hload Hget Hfalsy Hval) in Hrest.
    discriminate.
  - destruct (String.eqb (UploadedFile.sniffed f) "application/x-hdf").
    + rewrite (run_bind_raise _ _ _ _ _ (new_Hdf5Container w)) in Hrun. discriminate.
    + discriminate.
Qed.
End validated_record.

(** An archive whose uuid is the empty string. *)
Lemma falsy_uuid_never_ingested_witness :
  is_Ok (fst (@parse_container_file Example.env
                (sample_upload "application/zip" (sample_content "0.5.1" "") sample_meta)
                "alice" initial_world))
  = false.
Proof.
  apply (@falsy_uuid_never_ingested Example.env
           (sample_upload "application/zip" (sample_content "0.5.1" "") sample_meta)
           (sample_archive (JDict (sample_content "0.5.1" "")) (JDict sample_meta))
           {| ZipInfo.filename := "content.json"; ZipInfo.file_size := 310;
              ZipInfo.loaded := Some (JDict (sample_content "0.5.1" "")) |}
           (sample_content "0.5.1" "") (JStr "") "alice" initial_world);
    reflexivity.
Defined.

Lemma validated_record_keeps_size_and_manifest_witness :
  let f := sample_upload "application/zip" (sample_content "0.5.1" sample_uuid)
             sample_meta in
  let run := @BaseParser.extract_and_validate Example.env zip_parser f initial_world in
  let d := match fst run with Ok d => d | Raise _ => ∅ end in
  d !! "size" = Some (VInt 2800)
  ∧ ∃ fl, d !! "content" = Some (VFiles fl)
          ∧ map File.name fl = ["content.json"; "meta.json"; "data.bin"].
Proof.
  intros f run d.
  assert (Hrun : run = (Ok d, snd run)) by (vm_compute; reflexivity).
  destruct (@validated_record_keeps_size_and_manifest Example.env zip_parser f
              initial_world (snd run) d Hrun)
    as (Hsize & members & fl & Hzip & Hcontent & Hnames & _).
  split; [exact Hsize |].
  exists fl. split; [exact Hcontent |].
  injection Hzip as <-. exact Hnames.
Defined.
